(** * The cached external-data aggregation layer of the dashboard

    A shallow embedding of [src/app.py] (and of the near-duplicate
    [src/strava_backend.py]): the time-windowed response cache
    [timed_cache], the Strava token provider, the source fetchers with
    their fallback records, the activity aggregators, the dinosaur of
    the day, the settings with their file, and the JSON endpoints.

    Conventions of the embedding.
    - Clock readings ([time()], [datetime.now().timestamp()]) and the
      [expires_at] stamp are integers (seconds); the code only subtracts
      and compares them.
    - Python floats that carry distances are exact rationals ([Q]); the
      rounding of binary floating point is not modelled.
    - A Python function that may raise returns [exn + A]; a function
      that also performs HTTP calls or touches the module-level token
      variables runs in the monad [Web.M].
    - The outside world is a [server]: a function from the history of
      requests made so far and the current request to what the HTTP
      client observes.  Every request is appended to the [trace].
    - One character of a [string] stands for one character of a Python
      [str]: [len] is [String.length], a slice is [String.substring]. *)

From Stdlib Require Import ZArith QArith Qround Qabs String Ascii List Lia.
From Stdlib Require Import Sorting.Permutation Sorting.Sorted.
From stdpp Require Import base gmap strings list pretty.
Import ListNotations.
Set Warnings "-register-all".
Close Scope Q_scope.
Open Scope Z_scope.

(** ** Python values, exceptions and the pure helpers the code uses *)
Module Py.

(** The exceptions the modelled code can meet.  Every handler in the
    source is [except Exception] (or a bare [except]), so the kind only
    documents the raise point. *)
Inductive exn : Type :=
| KeyError
| TypeError
| AttributeError
| IndexError
| ValueError
| ZeroDivisionError
| HTTPError.

(** A pure computation that may raise. *)
Definition res (A : Type) : Type := (exn + A)%type.

Definition rret {A} (a : A) : res A := inr a.
Definition rraise {A} (e : exn) : res A := inl e.
Definition rbind {A B} (c : res A) (k : A -> res B) : res B :=
  match c with
  | inl e => inl e
  | inr a => k a
  end.

End Py.
Export Py.

(** ** The caching decorator ([timed_cache], app.py lines 50-75) *)
Module Cache.
Section TimedCache.

(** [Args] is the call's [(args, kwargs)], [R] the result type of the
    wrapped function and [S] whatever state the wrapped function reads
    and writes (network, module globals). *)
Context {Args R S : Type}.

(** [seconds]: the decorator's argument (the TTL). *)
Variable seconds : Z.
(** [str_key args] is [str(args) + str(kwargs)]. *)
Variable str_key : Args -> string.
(** The decorated function. *)
Variable func : Args -> S -> res R * S.

(** The closure of one decorated function: its private [cache] dict and
    the state the function runs in; [calls] is a ghost counter of the
    invocations of [func] made by [wrapper]. *)
Record wrapped : Type := Wrapped {
  cache : gmap string (R * Z);
  calls : nat;
  inner : S
}.

(** A freshly decorated function: [cache = {}]. *)
Definition decorate (s : S) : wrapped :=
  {| cache := ∅; calls := 0%nat; inner := s |}.

(** [if key in cache: result, timestamp = cache[key];
     if now - timestamp < seconds: return result] *)
Definition cache_hit (key : string) (now : Z) (c : gmap string (R * Z)) : option R :=
  match c !! key with
  | Some (result, timestamp) =>
      if now - timestamp <? seconds then Some result else None
  | None => None
  end.

(** The decorator's inner [wrapper], with [now] the value [time()] returns.
    When [func] raises, the exception propagates and nothing is stored. *)
Definition wrapper (args : Args) (now : Z) (w : wrapped) : res R * wrapped :=
  let key := str_key args in
  match cache_hit key now (cache w) with
  | Some result => (inr result, w)
  | None =>
      let '(r, s') := func args (inner w) in
      match r with
      | inr result =>
          (inr result,
           {| cache := <[key := (result, now)]> (cache w);
              calls := Datatypes.S (calls w);
              inner := s' |})
      | inl e =>
          (inl e, {| cache := cache w; calls := Datatypes.S (calls w); inner := s' |})
      end
  end.

(** [wrapper.clear_cache = lambda: cache.clear()] *)
Definition clear_cache (w : wrapped) : wrapped :=
  {| cache := ∅; calls := calls w; inner := inner w |}.

(** What a call that goes through to [func] does to the closure. *)
Definition called_through (args : Args) (now : Z) (w : wrapped) (out : res R * wrapped) : Prop :=
  calls out.2 = Datatypes.S (calls w) /\
  (out.1, inner out.2) = func args (inner w) /\
  (forall result, out.1 = inr result ->
     cache out.2 = <[str_key args := (result, now)]> (cache w)) /\
  (forall e, out.1 = inl e -> cache out.2 = cache w).

End TimedCache.
End Cache.

(** ** Records exchanged with the Strava API *)
Module Data.

(** One element of the activity list, with the fields the code reads.
    [start_date] is the instant (POSIX seconds) denoted by the ISO-8601
    UTC string the API sends ([...Z], which the code rewrites to
    [+00:00] before [datetime.fromisoformat]); [distance] is in metres,
    [moving_time] in seconds; [total_elevation_gain] is read with
    [.get(..., 0)], so it may be absent. *)
Record activity : Type := Activity {
  act_type : string;
  start_date : Z;
  distance : Q;
  moving_time : Z;
  total_elevation_gain : option Q
}.

(** The JSON object of the token endpoint; a field is [None] when the
    key is missing, so that [token_data['...']] raises [KeyError]. *)
Record token_data : Type := TokenData {
  access_token : option string;
  expires_at : option Z
}.

End Data.
Export Data.

(** ** HTTP, the module-level token variables and the effect monad *)
Module Web.

(** What [httpx] hands back: it raises (connection error, timeout), or
    returns a response whose [json()] is [Some] decoded body or raises
    ([None]). *)
Inductive outcome (A : Type) : Type :=
| Raised
| Response (status : Z) (body : option A).
Arguments Raised {A}.
Arguments Response {A} status body.

Record response (A : Type) : Type := Resp {
  status_code : Z;
  json_body : option A
}.
Arguments Resp {A} status_code json_body.
Arguments status_code {A} r.
Arguments json_body {A} r.

Inductive request : Type :=
| POST (url : string) (data : list (string * string))
| GET (url : string) (headers params : list (string * string))
| HEAD (url : string).

(** The trace holds every HTTP request in order, and one ghost [Enter]
    mark for each call of [refresh_strava_token]. *)
Inductive event : Type :=
| Http (rq : request)
| Enter (fn : string).

(** The module-level variables [STRAVA_ACCESS_TOKEN] (initially [None])
    and [STRAVA_TOKEN_EXPIRY] (initially [0]), and the trace. *)
Record world : Type := World {
  STRAVA_ACCESS_TOKEN : option string;
  STRAVA_TOKEN_EXPIRY : Z;
  trace : list event
}.

Definition startup : world :=
  {| STRAVA_ACCESS_TOKEN := None; STRAVA_TOKEN_EXPIRY := 0; trace := [] |}.

(** A computation with effects: it may raise, and it transforms the
    world; what it did before raising stays done. *)
Definition M (A : Type) : Type := world -> res A * world.

Definition ret {A} (a : A) : M A := fun w => (inr a, w).
Definition raise {A} (e : exn) : M A := fun w => (inl e, w).
Definition lift {A} (r : res A) : M A := fun w => (r, w).
Definition bind {A B} (c : M A) (k : A -> M B) : M B :=
  fun w =>
    match c w with
    | (inl e, w') => (inl e, w')
    | (inr a, w') => k a w'
    end.

(** [try: body / except Exception: handler] *)
Definition try_except {A} (body : M A) (handler : exn -> M A) : M A :=
  fun w =>
    match body w with
    | (inl e, w') => handler e w'
    | (inr a, w') => (inr a, w')
    end.

Definition log (ev : event) : M unit :=
  fun w =>
    (inr tt,
     {| STRAVA_ACCESS_TOKEN := STRAVA_ACCESS_TOKEN w;
        STRAVA_TOKEN_EXPIRY := STRAVA_TOKEN_EXPIRY w;
        trace := trace w ++ [ev] |}).

Definition read_token : M (option string) := fun w => (inr (STRAVA_ACCESS_TOKEN w), w).
Definition read_expiry : M Z := fun w => (inr (STRAVA_TOKEN_EXPIRY w), w).
Definition write_token (t : option string) : M unit :=
  fun w =>
    (inr tt,
     {| STRAVA_ACCESS_TOKEN := t;
        STRAVA_TOKEN_EXPIRY := STRAVA_TOKEN_EXPIRY w;
        trace := trace w |}).
Definition write_expiry (e : Z) : M unit :=
  fun w =>
    (inr tt,
     {| STRAVA_ACCESS_TOKEN := STRAVA_ACCESS_TOKEN w;
        STRAVA_TOKEN_EXPIRY := e;
        trace := trace w |}).

(** An HTTP exchange: the request is logged, and the client sees what
    the endpoint answers after the history so far. *)
Definition exchange {A} (endpoint : list event -> request -> outcome A)
    (rq : request) : M (response A) :=
  fun w =>
    let w' := (log (Http rq) w).2 in
    match endpoint (trace w) rq with
    | Raised => (inl HTTPError, w')
    | Response st b => (inr (Resp st b), w')
    end.

(** [resp.json()] *)
Definition json {A} (resp : response A) : res A :=
  match json_body resp with
  | Some a => inr a
  | None => inl ValueError
  end.

(** [d[key]] on a decoded object whose field may be missing. *)
Definition getitem {A} (field : option A) : res A :=
  match field with
  | Some a => inr a
  | None => inl KeyError
  end.

(** The world once a request has been sent. *)
Definition sent (rq : request) (w : world) : world := (Web.log (Http rq) w).2.

(** The call failed: the client raised, or the status is not 200. *)
Definition failed {A} (o : outcome A) : Prop :=
  o = Raised \/ exists st b, o = Response st b /\ st <> 200.

(** [c] never raises. *)
Definition total {A} (c : M A) : Prop :=
  forall w, exists a w', c w = (inr a, w').

(** Every value [c] returns satisfies [P]. *)
Definition yields {A} (c : M A) (P : A -> Prop) : Prop :=
  forall w a w', c w = (inr a, w') -> P a.

End Web.
Export Web.

Declare Scope web_scope.
Delimit Scope web_scope with web.
Notation "'let*' x := c 'in' k" := (Web.bind c (fun x => k))
  (at level 10, x name, c at level 100, k at level 200) : web_scope.
Notation "c ';;' k" := (Web.bind c (fun _ => k))
  (at level 100, k at level 200, right associativity) : web_scope.

(** ** Configuration read from the environment at start-up *)
Module Config.

Record config : Type := {
  NASA_API_KEY : string;
  AVWX_TOKEN : string;
  STRAVA_CLIENT_ID : string;
  STRAVA_CLIENT_SECRET : string;
  STRAVA_REFRESH_TOKEN : string;
  HOME_LAT : string;
  HOME_LON : string
}.

(** The outside world, one function per kind of endpoint: each maps the
    history of events so far and the request to what the client sees. *)
Record server : Type := {
  oauth_token : list event -> request -> outcome token_data;
  athlete_activities : list event -> request -> outcome (list activity)
}.

End Config.
Export Config.

(** ** The token provider and the activity fetch (app.py lines 154-236) *)
Module Strava.
Section WithServer.
Variable cfg : config.
Variable srv : server.
Local Open Scope web_scope.

(** Python truthiness of a [str] or [None]: [None] and [''] are falsy. *)
Definition truthy (t : option string) : bool :=
  match t with
  | Some (String _ _) => true
  | _ => false
  end.

Definition token_url : string := "https://www.strava.com/oauth/token".
Definition activities_url : string := "https://www.strava.com/api/v3/athlete/activities".

Definition token_form : list (string * string) :=
  [("client_id", STRAVA_CLIENT_ID cfg);
   ("client_secret", STRAVA_CLIENT_SECRET cfg);
   ("refresh_token", STRAVA_REFRESH_TOKEN cfg);
   ("grant_type", "refresh_token")].

(** [refresh_strava_token()] *)
Definition refresh_strava_token : M (option string) :=
  log (Enter "refresh_strava_token") ;;
  if negb (truthy (Some (STRAVA_REFRESH_TOKEN cfg))) then ret None
  else
    try_except
      (let* resp := exchange (oauth_token srv) (POST token_url token_form) in
       if status_code resp =? 200 then
         let* token_data := lift (json resp) in
         let* tok := lift (getitem (access_token token_data)) in
         write_token (Some tok) ;;
         let* expiry := lift (getitem (expires_at token_data)) in
         write_expiry expiry ;;
         read_token
       else ret None)
      (fun _ => ret None).

(** [get_strava_token()], with [current_time] the clock reading
    [datetime.now().timestamp()]. *)
Definition get_strava_token (current_time : Z) : M (option string) :=
  let* tok := read_token in
  let* expiry := read_expiry in
  if negb (truthy tok) || (expiry - 300 <=? current_time) then refresh_strava_token
  else ret tok.

Definition bearer (token : option string) : list (string * string) :=
  [("Authorization", "Bearer " +:+ default "None" token)].

Definition activities_request (token : option string) : request :=
  GET activities_url (bearer token) [("per_page", "30")].

(** The undecorated [fetch_strava_activities()]; [None] is Python's
    [None]. *)
Definition fetch_strava_activities (current_time : Z) : M (option (list activity)) :=
  let* token := get_strava_token current_time in
  if negb (truthy token) then ret None
  else
    try_except
      (let* resp := exchange (athlete_activities srv) (activities_request token) in
       if status_code resp =? 200 then
         let* activities := lift (json resp) in
         ret (Some activities)
       else if status_code resp =? 401 then
         let* token := refresh_strava_token in
         if truthy token then
           let* resp := exchange (athlete_activities srv) (activities_request token) in
           if status_code resp =? 200 then
             let* activities := lift (json resp) in
             ret (Some activities)
           else ret None
         else ret None
       else ret None)
      (fun _ => ret None).

(** Ghost observers of the trace. *)
Definition is_refresh (ev : event) : bool :=
  match ev with
  | Enter fn => String.eqb fn "refresh_strava_token"
  | Http _ => false
  end.

Definition is_activities_get (ev : event) : bool :=
  match ev with
  | Http (GET url _ _) => String.eqb url activities_url
  | _ => false
  end.

Definition refresh_calls (w : world) : nat := length (List.filter is_refresh (trace w)).
Definition activity_gets (w : world) : nat := length (List.filter is_activities_get (trace w)).

(** The answer of the token endpoint to the refresh made in world [w]. *)
Definition token_answer (w : world) : outcome token_data :=
  oauth_token srv (trace w ++ [Enter "refresh_strava_token"]) (POST token_url token_form).

(** What the fetch makes of an answer of the activity endpoint: the
    decoded list on a 200 whose body decodes, [None] otherwise. *)
Definition activities_of (o : outcome (list activity)) : option (list activity) :=
  match o with
  | Raised => None
  | Response st b => if st =? 200 then b else None
  end.

End WithServer.
End Strava.

(** ** JSON values and the formatting helpers *)
Module Json.

(** What the endpoints hand to [jsonify] and what [resp.json()] yields.
    A Python dict is a [JObj] whose association list keeps insertion
    order. *)
Inductive json : Type :=
| JNull
| JBool (b : bool)
| JInt (n : Z)
| JFloat (x : Q)
| JStr (s : string)
| JArr (items : list json)
| JObj (fields : list (string * json)).

Definition pydict : Type := list (string * json).

(** [key in d] and [d.get(key)] on a dict literal. *)
Fixpoint lookup_key (key : string) (d : pydict) : option json :=
  match d with
  | [] => None
  | (k, v) :: rest => if String.eqb k key then Some v else lookup_key key rest
  end.

Definition has_key (key : string) (d : pydict) : bool :=
  match lookup_key key d with
  | Some _ => true
  | None => false
  end.

Definition keys (d : pydict) : list string := map fst d.

(** Python's [round(x)]: to the nearest integer, ties to even. *)
Definition round_half_even (x : Q) : Z :=
  let f := Qfloor x in
  match ((x - inject_Z f) ?= (1 # 2))%Q with
  | Lt => f
  | Gt => f + 1
  | Eq => if Z.even f then f else f + 1
  end.

(** [int(x)]: truncation towards zero. *)
Definition py_int (x : Q) : Z :=
  if Qle_bool 0 x then Qfloor x else Qceiling x.

(** [str(n)] of an int, and the format specs [02d] and [.1f]. *)
Definition fmt_d (n : Z) : string := pretty n.

Definition fmt_02d (n : Z) : string :=
  if (0 <=? n) && (n <? 10) then "0" +:+ pretty n else pretty n.

Definition fmt_1f (x : Q) : string :=
  let tenths := round_half_even (Qabs x * 10)%Q in
  (if Qle_bool 0 x then "" else "-")
    +:+ pretty (tenths / 10) +:+ "." +:+ pretty (tenths mod 10).

(** [a / b] on numbers. *)
Definition truediv (a b : Q) : res Q :=
  if Qeq_bool b 0 then inl ZeroDivisionError else inr (a / b)%Q.

End Json.
Export Json.

(** ** The aggregators (app.py lines 239-407) *)
Module Aggregate.

(** One reading of the clock in the zone Europe/Berlin: the instant
    [now] (POSIX seconds), the local calendar day [today] (a day
    number), and the instant [month_start] of local midnight on the
    first of the current month. *)
Record clock : Type := Clock {
  now : Z;
  today : Z;
  month_start : Z
}.

(** [datetime.fromisoformat(a['start_date'].replace('Z', '+00:00')).date()]:
    the UTC calendar day of the activity, as a day number. *)
Definition activity_date (a : activity) : Z := start_date a / 86400.

(** [format_time(seconds)] *)
Definition format_time (seconds : Z) : string :=
  let hours := seconds / 3600 in
  let minutes := (seconds mod 3600) / 60 in
  let secs := seconds mod 60 in
  if 0 <? hours then fmt_d hours +:+ ":" +:+ fmt_02d minutes +:+ ":" +:+ fmt_02d secs
  else fmt_d minutes +:+ ":" +:+ fmt_02d secs.

(** [format_pace(seconds_per_meter, distance_meters)] *)
Definition format_pace (seconds_per_meter distance_meters : Q) : res string :=
  if Qeq_bool distance_meters 0 then inr "--:--"
  else
    rbind (truediv (seconds_per_meter * 1000)%Q 60) (fun pace_per_km =>
    let minutes := py_int pace_per_km in
    let seconds := py_int ((pace_per_km - inject_Z minutes) * 60)%Q in
    inr (fmt_d minutes +:+ ":" +:+ fmt_02d seconds)).

(** [sorted(activities, key=start, reverse=True)]: a stable sort, newest
    first; among equal keys the original order is kept. *)
Fixpoint insert_desc (a : activity) (l : list activity) : list activity :=
  match l with
  | [] => [a]
  | b :: rest =>
      if start_date a <? start_date b then b :: insert_desc a rest
      else a :: b :: rest
  end.

Fixpoint sorted_desc (l : list activity) : list activity :=
  match l with
  | [] => []
  | a :: rest => insert_desc a (sorted_desc rest)
  end.

(** Newest first, as [sorted(..., reverse=True)] leaves the list. *)
Definition newest_first (l : list activity) : Prop :=
  StronglySorted (fun a b => start_date b <= start_date a) l.

(** The [for] loop of [calculate_streak]. *)
Fixpoint streak_loop (sorted_activities : list activity)
    (streak current_check_date : Z) : Z :=
  match sorted_activities with
  | [] => streak
  | a :: rest =>
      if activity_date a =? current_check_date then
        streak_loop rest (streak + 1) (current_check_date - 1)
      else if activity_date a <? current_check_date then streak
      else streak_loop rest streak current_check_date
  end.

(** [calculate_streak(activities)], with [today] the date the function
    reads from the clock: the Europe/Berlin date in app.py, the naive
    local date in strava_backend.py; the rest of the two copies is the
    same. *)
Definition calculate_streak (today : Z) (activities : list activity) : Z :=
  match activities with
  | [] => 0
  | _ => streak_loop (sorted_desc activities) 0 today
  end.

(** [sum(a['distance'] for a in l) / 1000] *)
Definition total_km (l : list activity) : Q :=
  (fold_left Qplus (map distance l) 0 / 1000)%Q.

Definition since (t : Z) (activities : list activity) : list activity :=
  List.filter (fun a => t <=? start_date a) activities.

Definition of_type (ty : string) (activities : list activity) : list activity :=
  List.filter (fun a => String.eqb (act_type a) ty) activities.

(** [parse_strava_data(activities)] *)
Definition parse_strava_data (clk : clock) (activities : list activity) : pydict :=
  match activities with
  | [] =>
      [("display_stat", JStr "--"); ("display_label", JStr "Keine Daten");
       ("streak", JInt 0)]
  | _ =>
      let streak := calculate_streak (today clk) activities in
      let month_distance := total_km (since (month_start clk) activities) in
      let week_count := Z.of_nat (length (since (now clk - 7 * 86400) activities)) in
      let '(display_stat, display_label) :=
        if 7 <=? streak then (fmt_d streak, "DAY STREAK")
        else (fmt_1f month_distance, "KM MONAT") in
      [("display_stat", JStr display_stat); ("display_label", JStr display_label);
       ("streak", JInt streak); ("month_distance", JStr (fmt_1f month_distance));
       ("week_count", JInt week_count)]
  end.

(** The heatmap of [parse_strava_detailed]: one flag per day, from six
    days ago to today. *)
Definition heatmap (clk : clock) (activities : list activity) : list bool :=
  map (fun i => existsb (fun a => activity_date a =? today clk - (6 - i)) activities)
      [0; 1; 2; 3; 4; 5; 6].

Definition Qmaximum (l : list Q) (default : Q) : Q :=
  match l with
  | [] => default
  | x :: rest => fold_left (fun m y => if Qle_bool y m then m else y) rest x
  end.

Definition Zminimum (l : list Z) : option Z :=
  match l with
  | [] => None
  | x :: rest => Some (fold_left Z.min rest x)
  end.

(** The personal records of [parse_strava_detailed]. *)
Definition records (activities : list activity) : pydict :=
  let runs := of_type "Run" activities in
  let longest_run := (Qmaximum (map distance runs) 0 / 1000)%Q in
  let five_k_runs :=
    List.filter (fun a => Qle_bool 4500 (distance a) && Qle_bool (distance a) 5500) runs in
  let fastest_5k_time := Zminimum (map moving_time five_k_runs) in
  let max_elevation :=
    Qmaximum (map (fun a => default 0%Q (total_elevation_gain a)) activities) 0 in
  [("longest_run",
    JStr (if Qle_bool longest_run 0 then "--" else fmt_1f longest_run +:+ " km"));
   ("fastest_5k",
    JStr (match fastest_5k_time with
          | Some t => if t =? 0 then "--" else format_time t
          | None => "--"
          end));
   ("max_elevation",
    JStr (if Qle_bool max_elevation 0 then "--"
          else fmt_d (round_half_even max_elevation) +:+ "m"))].

(** The weekly distances by type of [parse_strava_detailed]. *)
Definition weekly (week_activities : list activity) : pydict :=
  let run_distance := total_km (of_type "Run" week_activities) in
  let ride_distance := total_km (of_type "Ride" week_activities) in
  let swim_distance := total_km (of_type "Swim" week_activities) in
  [("run", JStr (fmt_1f run_distance)); ("ride", JStr (fmt_1f ride_distance));
   ("swim", JStr (fmt_1f swim_distance));
   ("total", JStr (fmt_1f (run_distance + ride_distance + swim_distance)%Q))].

(** [parse_strava_detailed(activities)] *)
Definition parse_strava_detailed (clk : clock) (activities : list activity) : res pydict :=
  match activities with
  | [] => inr [("error", JStr "No activities")]
  | latest :: _ =>
      rbind (format_pace (inject_Z (moving_time latest)) (distance latest)) (fun pace =>
      let latest_data :=
        [("distance", JStr (fmt_1f (distance latest / 1000)%Q));
         ("time", JStr (format_time (moving_time latest)));
         ("pace", JStr pace);
         ("elevation",
          match total_elevation_gain latest with
          | Some g => JFloat (inject_Z (round_half_even g))
          | None => JInt 0
          end)] in
      let week_activities := since (now clk - 7 * 86400) activities in
      let month_distance := total_km (since (month_start clk) activities) in
      inr [("streak", JInt (calculate_streak (today clk) activities));
           ("month_distance", JStr (fmt_1f month_distance));
           ("week_count", JInt (Z.of_nat (length week_activities)));
           ("latest", JObj latest_data);
           ("weekly", JObj (weekly week_activities));
           ("heatmap", JArr (map JBool (heatmap clk activities)));
           ("records", JObj (records activities))])
  end.

End Aggregate.
Export Aggregate.

(** ** The Strava JSON endpoints (app.py lines 790-812) *)
Module Api.
Section WithServer.
Variable cfg : config.
Variable srv : server.

(** The closure of the decorated [fetch_strava_activities]
    ([@timed_cache(seconds=1800)]); the function takes no argument, so
    every call has the key [str(()) + str({})]. *)
Definition activities_cache : Type := @Cache.wrapped (option (list activity)) world.

Definition cached_fetch_strava_activities (time_now current_time : Z)
    (c : activities_cache) : res (option (list activity)) * activities_cache :=
  Cache.wrapper 1800 (fun _ : unit => "(){}")
    (fun _ => Strava.fetch_strava_activities cfg srv current_time) tt time_now c.

(** [not activities] *)
Definition no_activities (activities : option (list activity)) : bool :=
  match activities with
  | None | Some [] => true
  | Some (_ :: _) => false
  end.

(** [api_strava()]: [/api/strava] *)
Definition api_strava (clk : clock) (time_now current_time : Z)
    (c : activities_cache) : res pydict * activities_cache :=
  match cached_fetch_strava_activities time_now current_time c with
  | (inl e, c') => (inl e, c')
  | (inr activities, c') =>
      if no_activities activities then
        (inr [("error", JStr "No Strava data available"); ("display_stat", JStr "--");
              ("display_label", JStr "Keine Daten"); ("streak", JInt 0)], c')
      else (inr (parse_strava_data clk (default [] activities)), c')
  end.

(** [api_strava_detailed()]: [/api/strava/detailed] *)
Definition api_strava_detailed (clk : clock) (time_now current_time : Z)
    (c : activities_cache) : res pydict * activities_cache :=
  match cached_fetch_strava_activities time_now current_time c with
  | (inl e, c') => (inl e, c')
  | (inr activities, c') =>
      if no_activities activities then
        (inr [("error", JStr "No Strava data available")], c')
      else (parse_strava_detailed clk (default [] activities), c')
  end.

End WithServer.
End Api.

(** ** Operations on decoded JSON that may raise *)
Module PyOps.

(** [d.get(key, default)]: only a dict has [get]. *)
Definition dict_get (d : json) (key : string) (default : json) : res json :=
  match d with
  | JObj fields => inr (from_option id default (lookup_key key fields))
  | _ => inl AttributeError
  end.

(** [d[key]] with a string key. *)
Definition getitem_str (d : json) (key : string) : res json :=
  match d with
  | JObj fields =>
      match lookup_key key fields with
      | Some v => inr v
      | None => inl KeyError
      end
  | _ => inl TypeError
  end.

(** Python truthiness. *)
Definition truthy_json (v : json) : bool :=
  match v with
  | JNull => false
  | JBool b => b
  | JInt n => negb (n =? 0)
  | JFloat x => negb (Qeq_bool x 0)
  | JStr s => negb (String.eqb s "")
  | JArr items => match items with [] => false | _ => true end
  | JObj fields => match fields with [] => false | _ => true end
  end.

(** [v == "text"] *)
Definition eq_str (v : json) (text : string) : bool :=
  match v with
  | JStr s => String.eqb s text
  | _ => false
  end.

(** [needle in s] on strings: substring search. *)
Fixpoint contains (needle s : string) : bool :=
  String.prefix needle s ||
  match s with
  | EmptyString => false
  | String _ rest => contains needle rest
  end.

(** [needle in v]: substring of a string, element of a list, key of a
    dict; anything else is not iterable. *)
Definition py_in (needle : string) (v : json) : res bool :=
  match v with
  | JStr s => inr (contains needle s)
  | JArr items => inr (existsb (fun x => eq_str x needle) items)
  | JObj fields => inr (has_key needle fields)
  | _ => inl TypeError
  end.

(** [s.split(sep)] for a non-empty [sep]: [skip] counts the characters
    of a separator still to be dropped, [cur] is the piece being read
    (reversed). *)
Fixpoint split_from (sep : string) (skip : nat) (cur : string) (s : string) : list string :=
  match s with
  | EmptyString => [String.rev cur]
  | String c rest =>
      match skip with
      | Datatypes.S k => split_from sep k cur rest
      | O =>
          if String.prefix sep s then
            String.rev cur :: split_from sep (String.length sep - 1) EmptyString rest
          else split_from sep 0 (String c cur) rest
      end
  end.

Definition split (sep s : string) : list string := split_from sep 0 EmptyString s.

(** [parts[i]] *)
Definition index {A} (parts : list A) (i : nat) : res A :=
  match nth_error parts i with
  | Some x => inr x
  | None => inl IndexError
  end.

(** [v[:n] + suffix]: text only; slicing a list and adding a string,
    or slicing anything else, raises. *)
Definition slice_plus (v : json) (n : nat) (suffix : string) : res string :=
  match v with
  | JStr s => inr (String.substring 0 n s +:+ suffix)
  | _ => inl TypeError
  end.

(** [len(v)] *)
Definition len (v : json) : res Z :=
  match v with
  | JStr s => inr (Z.of_nat (String.length s))
  | JArr items => inr (Z.of_nat (length items))
  | JObj fields => inr (Z.of_nat (length fields))
  | _ => inl TypeError
  end.

(** [v[:n]] as the sequence a [for] loop then walks: the first elements
    of a list, or the first characters of a string. *)
Definition slice_items (v : json) (n : nat) : res (list json) :=
  match v with
  | JArr items => inr (firstn n items)
  | JStr s =>
      inr (map (fun c => JStr (String c EmptyString)) (firstn n (list_ascii_of_string s)))
  | _ => inl TypeError
  end.

End PyOps.
Export PyOps.

(** ** The source fetchers (app.py lines 412-615) *)
Module Fetchers.

(** The JSON sources and the existence probe, as functions of the
    history and the request. *)
Record sources : Type := {
  get_json : list event -> request -> outcome json;
  head : list event -> request -> outcome unit
}.

Section WithSources.
Variable cfg : config.
Variable net : sources.
(** [datetime.strptime(s, "%Y-%m-%d %H:%M:%S").strftime('%Y/%m/%d')];
    [None] when [strptime] raises [ValueError]. *)
Variable strptime_path : string -> option string.
(** [str(v)], as an f-string renders a value. *)
Variable py_str : json -> string.
(** [datetime.fromisoformat(s.replace('Z', '+00:00'))] shown in the
    zone Europe/Berlin as [HH:MM]; [None] when [fromisoformat] raises. *)
Variable berlin_hh_mm : string -> option string.
Local Open Scope web_scope.

(** [httpx.get(url, headers=headers, timeout=10)] *)
Definition httpx_get (url : string) (headers : list (string * string)) : M (response json) :=
  exchange (get_json net) (GET url headers []).

(** [httpx.head(url, timeout=3)]; the URL must be text. *)
Definition httpx_head (url : json) : M (response unit) :=
  match url with
  | JStr u => exchange (head net) (HEAD u)
  | _ => raise TypeError
  end.

Definition avwx_headers : list (string * string) :=
  [("Authorization", "BEARER " +:+ AVWX_TOKEN cfg)].

(** [data.get(key, {}).get("value", "N/A")] *)
Definition nested_value (data : json) (key : string) : res json :=
  rbind (dict_get data key (JObj [])) (fun v => dict_get v "value" (JStr "N/A")).

Definition metar_fallback (station : string) : pydict :=
  [("station", JStr station); ("raw", JStr "METAR nicht verfügbar");
   ("flight_rules", JStr "N/A"); ("wind_direction", JStr "N/A");
   ("wind_speed", JStr "N/A"); ("temperature", JStr "N/A");
   ("dewpoint", JStr "N/A"); ("visibility", JStr "N/A"); ("altimeter", JStr "N/A")].

(** The undecorated [fetch_metar(station)].  The [try] block yields
    [Some] record when it returns and [None] when it falls through. *)
Definition fetch_metar (station : string) : M pydict :=
  let* returned :=
    try_except
      (let* resp := httpx_get ("https://avwx.rest/api/metar/" +:+ station) avwx_headers in
       if status_code resp =? 200 then
         let* data := lift (Web.json resp) in
         let* logged := lift (dict_get data "flight_rules" (JStr "N/A")) in
         let* station_name := lift (dict_get data "station" (JStr "N/A")) in
         let* raw := lift (dict_get data "raw" (JStr "Keine Daten verfügbar")) in
         let* flight_rules := lift (dict_get data "flight_rules" (JStr "N/A")) in
         let* wind_direction := lift (nested_value data "wind_direction") in
         let* wind_speed := lift (nested_value data "wind_speed") in
         let* temperature := lift (nested_value data "temperature") in
         let* dewpoint := lift (nested_value data "dewpoint") in
         let* visibility := lift (nested_value data "visibility") in
         let* altimeter := lift (nested_value data "altimeter") in
         ret (Some [("station", station_name); ("raw", raw);
                    ("flight_rules", flight_rules); ("wind_direction", wind_direction);
                    ("wind_speed", wind_speed); ("temperature", temperature);
                    ("dewpoint", dewpoint); ("visibility", visibility);
                    ("altimeter", altimeter)])
       else ret None)
      (fun _ => ret None) in
  ret (from_option id (metar_fallback station) returned).

Definition taf_fallback (station : string) : pydict :=
  [("station", JStr station); ("raw", JStr "TAF nicht verfügbar"); ("forecast", JArr [])].

(** The undecorated [fetch_taf(station)]. *)
Definition fetch_taf (station : string) : M pydict :=
  let* returned :=
    try_except
      (let* resp := httpx_get ("https://avwx.rest/api/taf/" +:+ station) avwx_headers in
       if status_code resp =? 200 then
         let* data := lift (Web.json resp) in
         let* station_name := lift (dict_get data "station" (JStr station)) in
         let* raw := lift (dict_get data "raw" (JStr "TAF nicht verfügbar")) in
         let* forecast := lift (dict_get data "forecast" (JArr [])) in
         ret (Some [("station", station_name); ("raw", raw); ("forecast", forecast)])
       else ret None)
      (fun _ => ret None) in
  ret (from_option id (taf_fallback station) returned).

Definition sun_url : string :=
  "https://api.sunrise-sunset.org/json?lat=" +:+ HOME_LAT cfg +:+ "&lng="
    +:+ HOME_LON cfg +:+ "&formatted=0".

Definition sun_fallback : pydict :=
  [("sunrise", JStr "──:──"); ("sunset", JStr "──:──")].

(** The local function [parse_time]. *)
Definition parse_time (time_str : json) : res string :=
  match time_str with
  | JStr s =>
      match berlin_hh_mm s with
      | Some text => inr text
      | None => inl ValueError
      end
  | _ => inl AttributeError
  end.

(** The undecorated [calculate_sun_moon_times()]. *)
Definition calculate_sun_moon_times : M pydict :=
  let* returned :=
    try_except
      (let* resp := httpx_get sun_url [] in
       if status_code resp =? 200 then
         let* body := lift (Web.json resp) in
         let* data := lift (getitem_str body "results") in
         let* sunrise_str := lift (getitem_str data "sunrise") in
         let* sunrise := lift (parse_time sunrise_str) in
         let* sunset_str := lift (getitem_str data "sunset") in
         let* sunset := lift (parse_time sunset_str) in
         ret (Some [("sunrise", JStr sunrise); ("sunset", JStr sunset)])
       else ret None)
      (fun _ => ret None) in
  ret (from_option id sun_fallback returned).

Definition epic_url : string :=
  "https://api.nasa.gov/EPIC/api/natural?api_key=" +:+ NASA_API_KEY cfg.

Definition epic_fallback : pydict :=
  [("caption", JStr "NASA Earth Observatory");
   ("url", JStr "https://eoimages.gsfc.nasa.gov/images/imagerecords/73000/73909/world.topo.bathy.200412.3x5400x2700.jpg");
   ("date", JStr "Archive Image")].

(** [datetime.strptime(date_str, ...)] then [strftime]: text only. *)
Definition date_path (date_str : json) : res string :=
  match date_str with
  | JStr s =>
      match strptime_path s with
      | Some path => inr path
      | None => inl ValueError
      end
  | _ => inl TypeError
  end.

(** One turn of the loop over the candidates: [Some] record when the
    turn returns, [None] when it goes on to the next candidate. *)
Definition epic_candidate (item : json) : M (option pydict) :=
  try_except
    (let* date_str := lift (getitem_str item "date") in
     let* path := lift (date_path date_str) in
     let* image := lift (getitem_str item "image") in
     let image_url :=
       "https://epic.gsfc.nasa.gov/archive/natural/" +:+ path +:+ "/jpg/"
         +:+ py_str image +:+ ".jpg" in
     let* test := httpx_head (JStr image_url) in
     if status_code test =? 200 then
       let* caption := lift (dict_get item "caption" (JStr "Earth from Space")) in
       ret (Some [("caption", caption); ("url", JStr image_url); ("date", date_str)])
     else ret None)
    (fun _ => ret None).

Fixpoint epic_candidates (items : list json) : M (option pydict) :=
  match items with
  | [] => ret None
  | item :: rest =>
      let* returned := epic_candidate item in
      match returned with
      | Some record => ret (Some record)
      | None => epic_candidates rest
      end
  end.

(** The undecorated [fetch_nasa_epic()]. *)
Definition fetch_nasa_epic : M pydict :=
  let* returned :=
    try_except
      (let* resp := httpx_get epic_url [] in
       if status_code resp =? 200 then
         let* data := lift (Web.json resp) in
         let* some :=
           (if truthy_json data then let* n := lift (len data) in ret (0 <? n)
            else ret false) in
         if some then
           let* items := lift (slice_items data 3) in
           epic_candidates items
         else ret None
       else ret None)
      (fun _ => ret None) in
  ret (from_option id epic_fallback returned).

Definition apod_url : string :=
  "https://api.nasa.gov/planetary/apod?api_key=" +:+ NASA_API_KEY cfg.

Definition apod_fallback : pydict :=
  [("title", JStr "Hubble Ultra Deep Field");
   ("url", JStr "https://cdn.esahubble.org/archives/images/screen/heic0611b.jpg");
   ("media_type", JStr "image");
   ("explanation",
    JStr "Das Hubble Ultra Deep Field - ein Blick in die Tiefen des Universums.")].

(** [v.split(sep)]: only text has [split]. *)
Definition str_split (sep : string) (v : json) : res (list string) :=
  match v with
  | JStr s => inr (split sep s)
  | _ => inl AttributeError
  end.

(** [video_url.split("v=")[1].split("&")[0] if "v=" in video_url else ""] *)
Definition video_id_of (video_url : json) : res string :=
  rbind (py_in "v=" video_url) (fun has_v =>
  if has_v then
    rbind (str_split "v=" video_url) (fun parts =>
    rbind (index parts 1) (fun after =>
    index (split "&" after) 0))
  else inr "").

(** The rewriting of a watch-page URL into its embeddable form. *)
Definition embeddable (video_url : json) : res json :=
  rbind (py_in "youtube.com/watch" video_url) (fun watch =>
  if watch then
    rbind (video_id_of video_url) (fun video_id =>
    if String.eqb video_id "" then inr video_url
    else inr (JStr ("https://www.youtube.com/embed/" +:+ video_id)))
  else inr video_url).

(** The first [try] block of [fetch_nasa_apod]: today's picture. *)
Definition apod_today : M (option pydict) :=
  let* resp := httpx_get apod_url [] in
  if status_code resp =? 200 then
    let* data := lift (Web.json resp) in
    let* media_type := lift (dict_get data "media_type" (JStr "image")) in
    if eq_str media_type "video" then
      let* url := lift (dict_get data "url" (JStr "")) in
      let* video_url := lift (embeddable url) in
      let* logged := lift (dict_get data "title" (JStr "Unknown")) in
      let* title := lift (dict_get data "title" (JStr "NASA Video")) in
      let* text := lift (dict_get data "explanation" (JStr "")) in
      let* explanation := lift (slice_plus text 150 "...") in
      ret (Some [("title", title); ("url", video_url); ("media_type", JStr "video");
                 ("explanation", JStr explanation)])
    else
      let* image_url := lift (dict_get data "url" (JStr "")) in
      try_except
        (let* test := httpx_head image_url in
         if status_code test =? 200 then
           let* logged := lift (dict_get data "title" (JStr "Unknown")) in
           let* title := lift (dict_get data "title" (JStr "NASA Bild")) in
           let* text := lift (dict_get data "explanation" (JStr "")) in
           let* explanation := lift (slice_plus text 150 "...") in
           ret (Some [("title", title); ("url", image_url); ("media_type", JStr "image");
                      ("explanation", JStr explanation)])
         else ret None)
        (fun _ => ret None)
  else ret None.

(** The second [try] block: yesterday's picture, images only. *)
Definition apod_yesterday (yesterday : string) : M (option pydict) :=
  let* resp := httpx_get (apod_url +:+ "&date=" +:+ yesterday) [] in
  if status_code resp =? 200 then
    let* data := lift (Web.json resp) in
    let* media_type := lift (dict_get data "media_type" JNull) in
    if eq_str media_type "image" then
      let* title := lift (dict_get data "title" (JStr "NASA APOD (Yesterday)")) in
      let* url := lift (dict_get data "url" (JStr "")) in
      let* text := lift (dict_get data "explanation" (JStr "")) in
      let* explanation := lift (slice_plus text 140 "...") in
      ret (Some [("title", title); ("url", url); ("media_type", JStr "image");
                 ("explanation", JStr ("Gestern: " +:+ explanation))])
    else ret None
  else ret None.

(** The undecorated [fetch_nasa_apod()], with [yesterday] the date
    [(datetime.now() - timedelta(days=1)).strftime("%Y-%m-%d")]. *)
Definition fetch_nasa_apod (yesterday : string) : M pydict :=
  let* today_record := try_except apod_today (fun _ => ret None) in
  match today_record with
  | Some record => ret record
  | None =>
      let* yesterday_record := try_except (apod_yesterday yesterday) (fun _ => ret None) in
      ret (from_option id apod_fallback yesterday_record)
  end.

(** The first request each fetcher sends. *)
Definition metar_request (station : string) : request :=
  GET ("https://avwx.rest/api/metar/" +:+ station) avwx_headers [].
Definition taf_request (station : string) : request :=
  GET ("https://avwx.rest/api/taf/" +:+ station) avwx_headers [].
Definition sun_request : request := GET sun_url [] [].
Definition epic_request : request := GET epic_url [] [].
Definition apod_request : request := GET apod_url [] [].
Definition apod_yesterday_request (yesterday : string) : request :=
  GET (apod_url +:+ "&date=" +:+ yesterday) [] [].

End WithSources.

(** A returned record, if any, has the keys [ks]. *)
Definition keyed (ks : list string) (returned : option pydict) : Prop :=
  forall record, returned = Some record -> keys record = ks.

End Fetchers.

(** ** Observers used to state properties of the aggregates *)
Module Observe.

(** [v[k1][k2]...] on nested objects; [None] when a key is missing. *)
Fixpoint lookup_path (path : list string) (v : json) : option json :=
  match path with
  | [] => Some v
  | key :: rest =>
      match v with
      | JObj fields =>
          match lookup_key key fields with
          | Some x => lookup_path rest x
          | None => None
          end
      | _ => None
      end
  end.

(** The runs of a list between 4.5 and 5.5 km, as [parse_strava_detailed]
    selects them for the fastest 5K. *)
Definition five_k_runs (activities : list activity) : list activity :=
  List.filter (fun a => Qle_bool 4500 (distance a) && Qle_bool (distance a) 5500)
    (of_type "Run" activities).

(** The three types the weekly block adds up. *)
Definition counted_weekly (a : activity) : bool :=
  String.eqb (act_type a) "Run" || String.eqb (act_type a) "Ride"
    || String.eqb (act_type a) "Swim".

(** Two lists hold activities on the same calendar days. *)
Definition same_days (l l' : list activity) : Prop :=
  forall d, (exists a, In a l /\ activity_date a = d) <->
            (exists a, In a l' /\ activity_date a = d).

End Observe.

(** ** Observers of the trace of the token provider and the activity fetch *)
Module TraceObs.
Import Strava.

(** A GET of the activity list carries a usable bearer token. *)
Definition authorised (ev : event) : Prop :=
  match ev with
  | Http (GET url headers _) =>
      url = activities_url ->
      exists tok, truthy (Some tok) = true /\ headers = bearer (Some tok)
  | _ => True
  end.

Definition is_token_post (ev : event) : bool :=
  match ev with
  | Http (POST url _) => String.eqb url token_url
  | _ => false
  end.

(** The events one call of [refresh_strava_token] appends: its own mark
    and at most the one POST. *)
Definition refresh_events (cfg : config) (evs : list event) : Prop :=
  exists posts,
    evs = Enter "refresh_strava_token" :: posts /\
    (posts = [] \/ posts = [Http (POST token_url (token_form cfg))]).

End TraceObs.

(** ** What a computation does to the world: the requests it sends *)
Module Traffic.

(** The world after the events [evs]: the stored token and expiry are
    the same, the trace is longer. *)
Definition extend (w : world) (evs : list event) : world :=
  {| STRAVA_ACCESS_TOKEN := STRAVA_ACCESS_TOKEN w;
     STRAVA_TOKEN_EXPIRY := STRAVA_TOKEN_EXPIRY w;
     trace := trace w ++ evs |}.

(** [c] sends nothing and writes nothing. *)
Definition quiet {A} (c : M A) : Prop := forall w, (c w).2 = w.

(** All [c] does to the world is to append events that satisfy [P]. *)
Definition appends {A} (c : M A) (P : list event -> Prop) : Prop :=
  forall w, exists evs, (c w).2 = extend w evs /\ P evs.

(** An existence probe ([httpx.head]). *)
Definition is_probe (ev : event) : Prop := exists url, ev = Http (HEAD url).

(** At most [n] events, all of them probes. *)
Definition probes (n : nat) (evs : list event) : Prop :=
  Forall is_probe evs /\ (length evs <= n)%nat.

(** The explanation of a daily-image record is text of at most [n]
    characters. *)
Definition explanation_within (n : nat) (record : pydict) : Prop :=
  exists text,
    lookup_key "explanation" record = Some (JStr text) /\ (String.length text <= n)%nat.

End Traffic.

(** ** The dinosaur of the day (app.py lines 128-149) *)
Module Dino.

(** [a % b] on ints; Python's result has the sign of [b], as [Z.modulo]. *)
Definition py_mod (a b : Z) : res Z :=
  if b =? 0 then inl ZeroDivisionError else inr (a mod b).

(** [l[i]] with an int index; a negative index counts from the end. *)
Definition getitem_int {A} (l : list A) (i : Z) : res A :=
  let n := Z.of_nat (length l) in
  let j := if i <? 0 then i + n else i in
  if (0 <=? j) && (j <? n) then
    match nth_error l (Z.to_nat j) with
    | Some x => inr x
    | None => inl IndexError
    end
  else inl IndexError.

Section WithFacts.
(** [DINO_FACTS]: the list [load_dino_data] read at start-up ([[]] when
    the file is missing or unreadable); each entry is an object. *)
Variable DINO_FACTS : list pydict.
(** [str.lower()] *)
Variable lower : string -> string.

Definition no_dino : pydict :=
  [("name", JStr "No Dino"); ("fact", JStr "Dino data not available")].

(** [get_daily_dino()], with [ordinal] the value of
    [date.today().toordinal()].  The entry's name is read for the log
    line before the entry is returned. *)
Definition get_daily_dino (ordinal : Z) : res pydict :=
  match DINO_FACTS with
  | [] => inr no_dino
  | _ =>
      rbind (py_mod ordinal (Z.of_nat (length DINO_FACTS))) (fun index =>
      rbind (getitem_int DINO_FACTS index) (fun dino =>
      rbind (getitem_str (JObj dino) "name") (fun logged =>
      inr dino)))
  end.

(** [v.lower()]: only text has [lower]. *)
Definition str_lower (v : json) : res string :=
  match v with
  | JStr s => inr (lower s)
  | _ => inl AttributeError
  end.

Definition dino_not_found : pydict := [("error", JStr "Dino not found")].

(** The loop of [get_dino_details]. *)
Fixpoint find_dino (dino_name : string) (facts : list pydict) : res pydict :=
  match facts with
  | [] => inr dino_not_found
  | dino :: rest =>
      rbind (getitem_str (JObj dino) "name") (fun name =>
      rbind (str_lower name) (fun lowered =>
      if String.eqb lowered (lower dino_name) then inr dino
      else find_dino dino_name rest))
  end.

(** [get_dino_details(dino_name)] *)
Definition get_dino_details (dino_name : string) : res pydict :=
  find_dino dino_name DINO_FACTS.

(** The entry is an object with a text name. *)
Definition named (dino : pydict) (name : string) : Prop :=
  lookup_key "name" dino = Some (JStr name).

End WithFacts.

(** Every entry of the list is an object with a text name. *)
Definition all_named (facts : list pydict) : Prop :=
  Forall (fun dino => exists name, named dino name) facts.

End Dino.

(** ** The application state, the settings and the routes
       (app.py lines 79-105 and 645-854) *)
Module App.

(** The settings file as [open] and [json.load] find it: missing
    ([FileNotFoundError]), unreadable or not JSON (any other exception),
    or holding an object of text settings.  A file whose JSON is not an
    object of text values is outside this model. *)
Inductive file : Type :=
| Absent
| Broken
| Holds (settings : list (string * string)).

(** What writing the settings file does: [open(..., 'w')] and
    [json.dump] succeed; [open] raises and the file stays as it was; or
    [json.dump] raises after [open] has truncated the file. *)
Inductive write_outcome : Type :=
| Written
| Refused
| Torn.

(** The closure of one decorated fetcher: its [cache] dict, and the
    ghost count of the invocations of the wrapped function. *)
Record memo (R : Type) : Type := Memo {
  entries : gmap string (R * Z);
  runs : nat
}.
Arguments Memo {R} entries runs.
Arguments entries {R} m.
Arguments runs {R} m.

Definition fresh {R} : memo R := {| entries := ∅; runs := 0%nat |}.

(** [f.clear_cache()] *)
Definition cleared {R} (m : memo R) : memo R := {| entries := ∅; runs := runs m |}.

(** Everything a request handler can read or write: the world of the
    fetchers (token variables and trace), the module-level dict
    [APP_SETTINGS], the settings file with what the next write to it
    does, and the six caches. *)
Record state : Type := State {
  web : world;
  APP_SETTINGS : list (string * string);
  settings_file : file;
  disk : write_outcome;
  metar_memo : memo pydict;
  taf_memo : memo pydict;
  apod_memo : memo pydict;
  epic_memo : memo pydict;
  sun_memo : memo pydict;
  strava_memo : memo (option (list activity))
}.

Definition set_web (w : world) (st : state) : state :=
  {| web := w; APP_SETTINGS := APP_SETTINGS st; settings_file := settings_file st;
     disk := disk st; metar_memo := metar_memo st; taf_memo := taf_memo st;
     apod_memo := apod_memo st; epic_memo := epic_memo st; sun_memo := sun_memo st;
     strava_memo := strava_memo st |}.
Definition set_settings (d : list (string * string)) (st : state) : state :=
  {| web := web st; APP_SETTINGS := d; settings_file := settings_file st;
     disk := disk st; metar_memo := metar_memo st; taf_memo := taf_memo st;
     apod_memo := apod_memo st; epic_memo := epic_memo st; sun_memo := sun_memo st;
     strava_memo := strava_memo st |}.
Definition set_file (f : file) (st : state) : state :=
  {| web := web st; APP_SETTINGS := APP_SETTINGS st; settings_file := f;
     disk := disk st; metar_memo := metar_memo st; taf_memo := taf_memo st;
     apod_memo := apod_memo st; epic_memo := epic_memo st; sun_memo := sun_memo st;
     strava_memo := strava_memo st |}.
Definition set_metar (m : memo pydict) (st : state) : state :=
  {| web := web st; APP_SETTINGS := APP_SETTINGS st; settings_file := settings_file st;
     disk := disk st; metar_memo := m; taf_memo := taf_memo st;
     apod_memo := apod_memo st; epic_memo := epic_memo st; sun_memo := sun_memo st;
     strava_memo := strava_memo st |}.
Definition set_taf (m : memo pydict) (st : state) : state :=
  {| web := web st; APP_SETTINGS := APP_SETTINGS st; settings_file := settings_file st;
     disk := disk st; metar_memo := metar_memo st; taf_memo := m;
     apod_memo := apod_memo st; epic_memo := epic_memo st; sun_memo := sun_memo st;
     strava_memo := strava_memo st |}.
Definition set_apod (m : memo pydict) (st : state) : state :=
  {| web := web st; APP_SETTINGS := APP_SETTINGS st; settings_file := settings_file st;
     disk := disk st; metar_memo := metar_memo st; taf_memo := taf_memo st;
     apod_memo := m; epic_memo := epic_memo st; sun_memo := sun_memo st;
     strava_memo := strava_memo st |}.
Definition set_epic (m : memo pydict) (st : state) : state :=
  {| web := web st; APP_SETTINGS := APP_SETTINGS st; settings_file := settings_file st;
     disk := disk st; metar_memo := metar_memo st; taf_memo := taf_memo st;
     apod_memo := apod_memo st; epic_memo := m; sun_memo := sun_memo st;
     strava_memo := strava_memo st |}.
Definition set_sun (m : memo pydict) (st : state) : state :=
  {| web := web st; APP_SETTINGS := APP_SETTINGS st; settings_file := settings_file st;
     disk := disk st; metar_memo := metar_memo st; taf_memo := taf_memo st;
     apod_memo := apod_memo st; epic_memo := epic_memo st; sun_memo := m;
     strava_memo := strava_memo st |}.
Definition set_strava (m : memo (option (list activity))) (st : state) : state :=
  {| web := web st; APP_SETTINGS := APP_SETTINGS st; settings_file := settings_file st;
     disk := disk st; metar_memo := metar_memo st; taf_memo := taf_memo st;
     apod_memo := apod_memo st; epic_memo := epic_memo st; sun_memo := sun_memo st;
     strava_memo := m |}.

(** A handler: it may raise, and what it did before raising stays done. *)
Definition H (A : Type) : Type := state -> res A * state.

Definition hret {A} (a : A) : H A := fun st => (inr a, st).
Definition hlift {A} (r : res A) : H A := fun st => (r, st).
Definition hbind {A B} (c : H A) (k : A -> H B) : H B :=
  fun st =>
    match c st with
    | (inl e, st') => (inl e, st')
    | (inr a, st') => k a st'
    end.

(** One call of a decorated fetcher: the decorator's [wrapper] runs on
    the fetcher's own cache and on the shared world. *)
Definition through {Args R} (seconds : Z) (str_key : Args -> string)
    (func : Args -> M R) (args : Args) (now : Z) (m : memo R) (w : world)
    : res R * (memo R * world) :=
  let out :=
    Cache.wrapper seconds str_key func args now
      {| Cache.cache := entries m; Cache.calls := runs m; Cache.inner := w |} in
  (out.1, ({| entries := Cache.cache out.2; runs := Cache.calls out.2 |},
           Cache.inner out.2)).

(** [d.get(key, default)] and [d[key] = value] on the settings dict; an
    update keeps the key's place, a new key goes last. *)
Fixpoint settings_get (key default : string) (d : list (string * string)) : string :=
  match d with
  | [] => default
  | (k, v) :: rest => if String.eqb k key then v else settings_get key default rest
  end.

Fixpoint settings_set (key value : string) (d : list (string * string))
    : list (string * string) :=
  match d with
  | [] => [(key, value)]
  | (k, v) :: rest =>
      if String.eqb k key then (k, value) :: rest
      else (k, v) :: settings_set key value rest
  end.

(** [jsonify(d)] of a dict of text values. *)
Definition jsonify_text (d : list (string * string)) : json :=
  JObj (map (fun kv => (kv.1, JStr kv.2)) d).

Definition default_settings : list (string * string) := [("airport_icao", "EDLP")].

(** [save_settings(settings)]: every exception is caught and turned
    into [False]. *)
Definition save_settings (settings : list (string * string)) (st : state) : bool * state :=
  match disk st with
  | Written => (true, set_file (Holds settings) st)
  | Refused => (false, st)
  | Torn => (false, set_file Broken st)
  end.

(** [load_settings()] *)
Definition load_settings (st : state) : list (string * string) * state :=
  match settings_file st with
  | Holds settings => (settings, st)
  | Absent => (default_settings, (save_settings default_settings st).2)
  | Broken => (default_settings, st)
  end.

(** The clock and calendar readings one run of [api_refresh] takes, in
    the order it takes them. *)
Record readings : Type := Readings {
  time_strava : Z;
  current_time : Z;
  time_metar : Z;
  ordinal : Z;
  time_apod : Z;
  yesterday : string;
  time_epic : Z;
  clk : clock
}.

Section WithEnvironment.
Variable cfg : config.
Variable srv : server.
Variable src : Fetchers.sources.
Variable strptime_path : string -> option string.
Variable py_str : json -> string.
Variable berlin_hh_mm : string -> option string.
(** [repr(s)] of a [str]. *)
Variable py_repr : string -> string.
(** [s.strip().upper()] *)
Variable strip_upper : string -> string.
(** [str(e)] of a caught exception. *)
Variable str_exn : exn -> string.
Variable DINO_FACTS : list pydict.

(** [str(args) + str(kwargs)] for one positional text argument, and
    for no argument at all. *)
Definition key_of_station (station : string) : string :=
  "(" +:+ py_repr station +:+ ",){}".
Definition key_of_nothing (_ : unit) : string := "(){}".

(** The decorated fetchers. *)
Definition fetch_metar (station : string) (time_now : Z) : H pydict :=
  fun st =>
    let '(r, (m, w)) :=
      through 300 key_of_station (Fetchers.fetch_metar cfg src) station time_now
        (metar_memo st) (web st) in
    (r, set_metar m (set_web w st)).

Definition fetch_taf (station : string) (time_now : Z) : H pydict :=
  fun st =>
    let '(r, (m, w)) :=
      through 600 key_of_station (Fetchers.fetch_taf cfg src) station time_now
        (taf_memo st) (web st) in
    (r, set_taf m (set_web w st)).

Definition fetch_nasa_apod (yesterday : string) (time_now : Z) : H pydict :=
  fun st =>
    let '(r, (m, w)) :=
      through 3600 key_of_nothing (fun _ => Fetchers.fetch_nasa_apod cfg src yesterday)
        tt time_now (apod_memo st) (web st) in
    (r, set_apod m (set_web w st)).

Definition fetch_nasa_epic (time_now : Z) : H pydict :=
  fun st =>
    let '(r, (m, w)) :=
      through 3600 key_of_nothing
        (fun _ => Fetchers.fetch_nasa_epic cfg src strptime_path py_str)
        tt time_now (epic_memo st) (web st) in
    (r, set_epic m (set_web w st)).

Definition calculate_sun_moon_times (time_now : Z) : H pydict :=
  fun st =>
    let '(r, (m, w)) :=
      through 3600 key_of_nothing
        (fun _ => Fetchers.calculate_sun_moon_times cfg src berlin_hh_mm)
        tt time_now (sun_memo st) (web st) in
    (r, set_sun m (set_web w st)).

Definition fetch_strava_activities (time_now current_time : Z)
    : H (option (list activity)) :=
  fun st =>
    let '(r, (m, w)) :=
      through 1800 key_of_nothing
        (fun _ => Strava.fetch_strava_activities cfg srv current_time)
        tt time_now (strava_memo st) (web st) in
    (r, set_strava m (set_web w st)).

(** [data.get('airport_icao', '').strip().upper()] on the posted JSON. *)
Definition requested_airport (data : json) : res string :=
  rbind (dict_get data "airport_icao" (JStr "")) (fun v =>
  match v with
  | JStr s => inr (strip_upper s)
  | _ => inl AttributeError
  end).

(** The first two lines of the POST branch: [request.get_json()] and
    the normalised airport code. *)
Definition posted_airport (body : option json) : res string :=
  rbind (match body with Some data => inr data | None => inl HTTPError end)
        requested_airport.

(** [api_settings()]: [/api/settings].  [post] tells whether the method
    is POST; [body] is what [request.get_json()] returns, [None] when
    it raises.  The answer is the JSON body and the status code. *)
Definition api_settings (post : bool) (body : option json) (st : state)
    : (json * Z) * state :=
  if post then
    match posted_airport body with
    | inl e => ((JObj [("error", JStr (str_exn e))], 500), st)
    | inr airport_icao =>
        if negb (String.length airport_icao =? 4)%nat then
          ((JObj [("error", JStr "ICAO must be 4 characters")], 400), st)
        else
          let st1 :=
            set_settings (settings_set "airport_icao" airport_icao (APP_SETTINGS st)) st in
          let '(saved, st2) := save_settings (APP_SETTINGS st1) st1 in
          if saved then
            ((JObj [("success", JBool true); ("airport_icao", JStr airport_icao)], 200),
             set_taf (cleared (taf_memo st2)) (set_metar (cleared (metar_memo st2)) st2))
          else ((JObj [("error", JStr "Failed to save")], 500), st2)
    end
  else ((jsonify_text (APP_SETTINGS st), 200), st).

(** [api_taf()]: [/api/taf] *)
Definition api_taf (time_now : Z) : H pydict :=
  fun st => fetch_taf (settings_get "airport_icao" "EDLP" (APP_SETTINGS st)) time_now st.

(** [metar.get(key)] *)
Definition record_get (key : string) (record : pydict) : json :=
  from_option id JNull (lookup_key key record).

(** [api_test_airport(icao)]: [/api/test-airport/<icao>] *)
Definition api_test_airport (icao : string) (time_now : Z) : H pydict :=
  hbind (fetch_metar icao time_now) (fun metar =>
  let valid :=
    negb (eq_str (record_get "station" metar) "N/A")
    && negb (eq_str (record_get "raw" metar) "METAR nicht verfügbar") in
  hret [("valid", JBool valid); ("station", record_get "station" metar)]).

(** The six [clear_cache()] calls of [api_refresh]. *)
Definition clear_all (st : state) : state :=
  set_strava (cleared (strava_memo st))
    (set_sun (cleared (sun_memo st))
       (set_taf (cleared (taf_memo st))
          (set_epic (cleared (epic_memo st))
             (set_apod (cleared (apod_memo st))
                (set_metar (cleared (metar_memo st)) st))))).

(** [api_refresh()]: [/api/refresh] *)
Definition api_refresh (rd : readings) : H pydict :=
  fun st =>
    let st0 := clear_all st in
    let airport := settings_get "airport_icao" "EDLP" (APP_SETTINGS st0) in
    hbind (fetch_strava_activities (time_strava rd) (current_time rd)) (fun activities =>
    hbind (fetch_metar airport (time_metar rd)) (fun metar =>
    hbind (hlift (Dino.get_daily_dino DINO_FACTS (ordinal rd))) (fun dino =>
    hbind (fetch_nasa_apod (yesterday rd) (time_apod rd)) (fun nasa_apod =>
    hbind (fetch_nasa_epic (time_epic rd)) (fun nasa_epic =>
    hret [("metar", JObj metar); ("dino", JObj dino); ("nasa_apod", JObj nasa_apod);
          ("nasa_epic", JObj nasa_epic);
          ("strava",
           if Api.no_activities activities then JNull
           else JObj (parse_strava_data (clk rd) (default [] activities)))]))))) st0.

Local Open Scope web_scope.

(** One service check of [api_health]: ["ok"] on a 200 answer,
    ["error"] on any other answer or when the call raises. *)
Definition service_check (url : string) (headers : list (string * string)) : M string :=
  try_except
    (let* resp := Fetchers.httpx_get src url headers in
     ret (if status_code resp =? 200 then "ok" else "error"))
    (fun _ => ret "error").

(** [all(v == "ok" for v in services.values() if v != "not_configured")] *)
Definition all_ok (services : list (string * string)) : bool :=
  forallb (fun v => String.eqb v "ok")
    (List.filter (fun v => negb (String.eqb v "not_configured")) (map snd services)).

(** [api_health()]: [/api/health], with [timestamp] the text
    [datetime.now().isoformat()] and [current_time] the clock reading of
    [get_strava_token]. *)
Definition api_health (timestamp : string) (current_time : Z) : M pydict :=
  let* nasa := service_check (Fetchers.apod_url cfg) [] in
  let* avwx := service_check "https://avwx.rest/api/metar/EDLP" (Fetchers.avwx_headers cfg) in
  let* strava :=
    (if Strava.truthy (Some (STRAVA_REFRESH_TOKEN cfg)) then
       try_except
         (let* token := Strava.get_strava_token cfg srv current_time in
          ret (if Strava.truthy token then "ok" else "error"))
         (fun _ => ret "error")
     else ret "not_configured") in
  let services := [("nasa", nasa); ("avwx", avwx); ("strava", strava)] in
  ret [("status", JStr (if all_ok services then "ok" else "degraded"));
       ("timestamp", JStr timestamp);
       ("services", jsonify_text services)].

End WithEnvironment.

(** The server answered 200. *)
Definition answered_200 {A} (o : outcome A) : Prop := exists b, o = Response 200 b.

(** What a service check makes of an answer. *)
Definition verdict {A} (o : outcome A) : string :=
  match o with
  | Response st _ => if st =? 200 then "ok" else "error"
  | Raised => "error"
  end.

End App.

(** ** The aggregators and endpoints of strava_backend.py (lines 159-318)

    The copy reads the clock with [datetime.now()], which is naive, and
    compares it with the start of an activity, which
    [datetime.fromisoformat] returns aware of its offset. *)
Module Backend.

Inductive datetime : Type :=
| Aware (instant : Z)
| Naive (wall : Z).

(** [a >= b] on datetimes: comparing an aware with a naive one raises
    [TypeError]. *)
Definition dt_ge (a b : datetime) : res bool :=
  match a, b with
  | Aware x, Aware y => inr (y <=? x)
  | Naive x, Naive y => inr (y <=? x)
  | _, _ => inl TypeError
  end.

(** [datetime.fromisoformat(a['start_date'].replace('Z', '+00:00'))] *)
Definition start_datetime (a : activity) : datetime := Aware (start_date a).

(** [[a for a in activities if start(a) >= t]] *)
Fixpoint since (t : datetime) (activities : list activity) : res (list activity) :=
  match activities with
  | [] => inr []
  | a :: rest =>
      rbind (dt_ge (start_datetime a) t) (fun keep =>
      rbind (since t rest) (fun kept =>
      inr (if keep then a :: kept else kept)))
  end.

(** [parse_strava_data(activities)] of strava_backend.py; the readings
    [now] and [month_start] of the clock are naive. *)
Definition parse_strava_data (clk : clock) (activities : list activity) : res pydict :=
  match activities with
  | [] =>
      inr [("display_stat", JStr "--"); ("display_label", JStr "Keine Daten");
           ("streak", JInt 0)]
  | _ =>
      let streak := calculate_streak (today clk) activities in
      rbind (since (Naive (month_start clk)) activities) (fun month_activities =>
      let month_distance := total_km month_activities in
      rbind (since (Naive (now clk - 7 * 86400)) activities) (fun week_activities =>
      let week_count := Z.of_nat (length week_activities) in
      let '(display_stat, display_label) :=
        if 7 <=? streak then (fmt_d streak, "DAY STREAK")
        else (fmt_1f month_distance, "KM MONAT") in
      inr [("display_stat", JStr display_stat); ("display_label", JStr display_label);
           ("streak", JInt streak); ("month_distance", JStr (fmt_1f month_distance));
           ("week_count", JInt week_count)]))
  end.

(** [parse_strava_detailed(activities)] of strava_backend.py. *)
Definition parse_strava_detailed (clk : clock) (activities : list activity) : res pydict :=
  match activities with
  | [] => inr [("error", JStr "No activities")]
  | latest :: _ =>
      rbind (format_pace (inject_Z (moving_time latest)) (distance latest)) (fun pace =>
      let latest_data :=
        [("distance", JStr (fmt_1f (distance latest / 1000)%Q));
         ("time", JStr (format_time (moving_time latest)));
         ("pace", JStr pace);
         ("elevation",
          match total_elevation_gain latest with
          | Some g => JFloat (inject_Z (round_half_even g))
          | None => JInt 0
          end)] in
      rbind (since (Naive (now clk - 7 * 86400)) activities) (fun week_activities =>
      rbind (since (Naive (month_start clk)) activities) (fun month_activities =>
      let month_distance := total_km month_activities in
      inr [("streak", JInt (calculate_streak (today clk) activities));
           ("month_distance", JStr (fmt_1f month_distance));
           ("week_count", JInt (Z.of_nat (length week_activities)));
           ("latest", JObj latest_data);
           ("weekly", JObj (weekly week_activities));
           ("heatmap", JArr (map JBool (heatmap clk activities)));
           ("records", JObj (records activities))])))
  end.

Section WithServer.
Variable cfg : config.
Variable srv : server.

(** [api_strava()] and [api_strava_detailed()] of strava_backend.py. *)
Definition api_strava (clk : clock) (time_now current_time : Z)
    (c : Api.activities_cache) : res pydict * Api.activities_cache :=
  match Api.cached_fetch_strava_activities cfg srv time_now current_time c with
  | (inl e, c') => (inl e, c')
  | (inr activities, c') =>
      if Api.no_activities activities then
        (inr [("error", JStr "No Strava data available")], c')
      else (parse_strava_data clk (default [] activities), c')
  end.

Definition api_strava_detailed (clk : clock) (time_now current_time : Z)
    (c : Api.activities_cache) : res pydict * Api.activities_cache :=
  match Api.cached_fetch_strava_activities cfg srv time_now current_time c with
  | (inl e, c') => (inl e, c')
  | (inr activities, c') =>
      if Api.no_activities activities then
        (inr [("error", JStr "No Strava data available")], c')
      else (parse_strava_detailed clk (default [] activities), c')
  end.

End WithServer.
End Backend.

(** ** Sample configurations, servers and activity lists *)
Module CacheDemo.
Import Cache.

(** A concrete decorated function used to exercise the contract: the
    wrapped function returns the number of times it ran before, and the
    key is rendered as Python renders a one-string argument tuple with
    no keyword arguments. *)
Definition demo_key (station : string) : string := "('" +:+ station +:+ "',){}".
Definition demo_func (_ : string) (n : Z) : res Z * Z := (inr n, n + 1).
Definition demo_wrapper := wrapper 300 demo_key demo_func.
Definition w0 : @wrapped Z Z := decorate 0.
Definition w1 : @wrapped Z Z := (demo_wrapper "EDLP" 1000 w0).2.

End CacheDemo.

Module StravaDemo.
Import Strava.

Definition demo_cfg : config :=
  {| NASA_API_KEY := "nasa"; AVWX_TOKEN := "avwx";
     STRAVA_CLIENT_ID := "12345"; STRAVA_CLIENT_SECRET := "secret";
     STRAVA_REFRESH_TOKEN := "refresh"; HOME_LAT := "51.963"; HOME_LON := "8.534" |}.

Definition demo_run : activity :=
  {| act_type := "Run"; start_date := 1700000000; distance := (5000 # 1)%Q;
     moving_time := 1500; total_elevation_gain := Some (40 # 1)%Q |}.

(** A server whose token endpoint issues ["new"] (valid until 9999) and
    whose activity endpoint rejects every bearer but ["new"]. *)
Definition demo_srv : server :=
  {| oauth_token := fun _ _ =>
       Response 200 (Some {| access_token := Some "new"; expires_at := Some 9999 |});
     athlete_activities := fun _ rq =>
       match rq with
       | GET _ [(_, "Bearer new")] _ => Response 200 (Some [demo_run])
       | _ => Response 401 None
       end |}.

(** A server that is down: the token endpoint answers 500 and the
    activity endpoint answers 503. *)
Definition down_srv : server :=
  {| oauth_token := fun _ _ => Response 500 None;
     athlete_activities := fun _ _ => Response 503 None |}.

(** A token endpoint whose 200 answer lacks [expires_at]. *)
Definition partial_srv : server :=
  {| oauth_token := fun _ _ =>
       Response 200 (Some {| access_token := Some "new"; expires_at := None |});
     athlete_activities := fun _ _ => Response 503 None |}.

(** A stored token ["old"] that expires at 1200. *)
Definition w_old : world :=
  {| STRAVA_ACCESS_TOKEN := Some "old"; STRAVA_TOKEN_EXPIRY := 1200; trace := [] |}.

End StravaDemo.

Module AggregateDemo.

Definition on_day (ty : string) (day secs : Z) (metres : Q) : activity :=
  {| act_type := ty; start_date := day * 86400 + secs; distance := metres;
     moving_time := 1500; total_elevation_gain := None |}.

(** Day 19700 is "today"; two runs today, a ride yesterday, a swim
    three days ago and nothing on the day before yesterday. *)
Definition demo_week : list activity :=
  [on_day "Swim" 19697 30000 1000%Q; on_day "Run" 19700 61200 5000%Q;
   on_day "Ride" 19699 25200 20000%Q; on_day "Run" 19700 21600 3000%Q].

Definition demo_clock : clock :=
  {| now := 19700 * 86400 + 70000; today := 19700; month_start := 19690 * 86400 |}.

End AggregateDemo.

Module FetcherDemo.
Import Fetchers.

(** A network on which every call times out. *)
Definition dead_net : sources :=
  {| get_json := fun _ _ => Raised; head := fun _ _ => Raised |}.

(** A network that answers every GET with 200 and an empty object and
    every probe with 404. *)
Definition hollow_net : sources :=
  {| get_json := fun _ _ => Response 200 (Some (JObj []));
     head := fun _ _ => Response 404 None |}.

Definition no_path (_ : string) : option string := None.
Definition show (v : json) : string :=
  match v with
  | JStr s => s
  | _ => "?"
  end.

End FetcherDemo.

Module ObserveDemo.
Import AggregateDemo.

(** The demo week listed in another order, with a second ride added on
    a day that already has one. *)
Definition demo_week_reordered : list activity :=
  [on_day "Run" 19700 21600 3000%Q; on_day "Ride" 19699 25200 20000%Q;
   on_day "Ride" 19699 40000 8000%Q; on_day "Run" 19700 61200 5000%Q;
   on_day "Swim" 19697 30000 1000%Q].

End ObserveDemo.

Module DinoDemo.

Definition rex : pydict := [("name", JStr "Tyrannosaurus"); ("fact", JStr "Short arms")].
Definition trike : pydict := [("name", JStr "Triceratops"); ("fact", JStr "Three horns")].
Definition nameless : pydict := [("fact", JStr "No name given")].
Definition steg : pydict := [("name", JStr "Stegosaurus"); ("fact", JStr "Plates")].
Definition demo_facts : list pydict := [rex; trike; steg].

Definition lower_char (c : ascii) : ascii :=
  let n := nat_of_ascii c in
  if (65 <=? n)%nat && (n <=? 90)%nat then ascii_of_nat (n + 32) else c.

(** [lower] on ASCII text. *)
Fixpoint ascii_lower (s : string) : string :=
  match s with
  | EmptyString => EmptyString
  | String c rest => String (lower_char c) (ascii_lower rest)
  end.

End DinoDemo.

Module AppDemo.
Import App.

Definition boot : state :=
  {| web := startup; APP_SETTINGS := default_settings;
     settings_file := Holds default_settings; disk := Written;
     metar_memo := fresh; taf_memo := fresh; apod_memo := fresh; epic_memo := fresh;
     sun_memo := fresh; strava_memo := fresh |}.

(** The same application on a disk that refuses writes. *)
Definition read_only : state :=
  {| web := startup; APP_SETTINGS := default_settings;
     settings_file := Holds default_settings; disk := Refused;
     metar_memo := fresh; taf_memo := fresh; apod_memo := fresh; epic_memo := fresh;
     sun_memo := fresh; strava_memo := fresh |}.

Definition quote (s : string) : string := "'" +:+ s +:+ "'".

(** [strip().upper()] on text that has no surrounding blanks. *)
Fixpoint ascii_upper (s : string) : string :=
  match s with
  | EmptyString => EmptyString
  | String c rest =>
      let n := nat_of_ascii c in
      String (if (97 <=? n)%nat && (n <=? 122)%nat then ascii_of_nat (n - 32) else c)
             (ascii_upper rest)
  end.

Definition exn_text (_ : exn) : string := "error".

(** A network on which every call is answered 200 with an empty
    object. *)
Definition up_net : Fetchers.sources :=
  {| Fetchers.get_json := fun _ _ => Response 200 (Some (JObj []));
     Fetchers.head := fun _ _ => Response 200 None |}.

Definition demo_readings : readings :=
  {| time_strava := 1000; current_time := 1000; time_metar := 1001; ordinal := 739000;
     time_apod := 1002; yesterday := "2024-05-01"; time_epic := 1003;
     clk := AggregateDemo.demo_clock |}.

End AppDemo.

(** * Properties *)

(** ** The caching decorator *)

Module CacheProps.
Import Cache.

Section Contract.
Context {Args R S : Type}.
Variable seconds : Z.
Variable str_key : Args -> string.
Variable func : Args -> S -> res R * S.

Local Abbreviation wrapper := (Cache.wrapper seconds str_key func).
Local Abbreviation cache_hit := (Cache.cache_hit (R:=R) seconds).
Local Abbreviation called_through := (Cache.called_through str_key func).

Lemma cache_hit_absent key now (c : gmap string (R * Z)) :
  c !! key = None -> cache_hit key now c = None.
Proof. intros H. unfold Cache.cache_hit. now rewrite H. Qed.

Lemma cache_hit_fresh key now (c : gmap string (R * Z)) result timestamp :
  c !! key = Some (result, timestamp) -> now - timestamp < seconds ->
  cache_hit key now c = Some result.
Proof.
  intros H Hlt. unfold Cache.cache_hit. rewrite H.
  destruct (Z.ltb_spec (now - timestamp) seconds); [reflexivity | lia].
Qed.

Lemma cache_hit_stale key now (c : gmap string (R * Z)) result timestamp :
  c !! key = Some (result, timestamp) -> seconds <= now - timestamp ->
  cache_hit key now c = None.
Proof.
  intros H Hge. unfold Cache.cache_hit. rewrite H.
  destruct (Z.ltb_spec (now - timestamp) seconds); [lia | reflexivity].
Qed.

Lemma wrapper_miss args now w :
  cache_hit (str_key args) now (cache w) = None ->
  called_through args now w (wrapper args now w).
Proof.
  intros Hmiss. unfold called_through, Cache.wrapper. rewrite Hmiss.
  destruct (func args (inner w)) as [[e | result] s']; cbn;
    repeat split; try reflexivity; intros ? [=]; subst; reflexivity.
Qed.

Lemma wrapper_hit args now w result :
  cache_hit (str_key args) now (cache w) = Some result ->
  wrapper args now w = (inr result, w).
Proof. intros Hhit. unfold Cache.wrapper. now rewrite Hhit. Qed.

(** C1. For a function decorated with [timed_cache(seconds)] and every
    argument tuple: a call that finds no entry under the arguments' key
    (the first call) invokes the function and stores [(result, now)];
    a call made strictly less than [seconds] after the stored timestamp
    returns the stored result, invokes nothing and leaves the closure as
    it was; a call made [seconds] or more after the stored timestamp
    invokes the function again and overwrites the entry. *)
Theorem timed_cache_contract (args : Args) (now : Z) (w : wrapped) :
  (cache w !! str_key args = None ->
     called_through args now w (wrapper args now w)) /\
  (forall result timestamp,
     cache w !! str_key args = Some (result, timestamp) ->
     now - timestamp < seconds ->
     wrapper args now w = (inr result, w)) /\
  (forall stale timestamp,
     cache w !! str_key args = Some (stale, timestamp) ->
     seconds <= now - timestamp ->
     called_through args now w (wrapper args now w)).
Proof.
  split; [| split].
  - intros Habs. apply wrapper_miss. now apply cache_hit_absent.
  - intros result timestamp Hin Hlt. apply wrapper_hit.
    now apply cache_hit_fresh with timestamp.
  - intros stale timestamp Hin Hge. apply wrapper_miss.
    now apply cache_hit_stale with stale timestamp.
Qed.

(** C9. After [clear_cache()], the next call invokes the wrapped
    function whatever its arguments and whatever the clock says. *)
Theorem clear_cache_forces_call (args : Args) (now : Z) (w : wrapped) :
  called_through args now (clear_cache w) (wrapper args now (clear_cache w)) /\
  calls (wrapper args now (clear_cache w)).2 = Datatypes.S (calls w).
Proof.
  assert (H : called_through args now (clear_cache w) (wrapper args now (clear_cache w))).
  { apply wrapper_miss. apply cache_hit_absent. cbn. apply lookup_empty. }
  split; [exact H | apply H].
Qed.

(** X1. Two calls with the same arguments less than [seconds] apart invoke
    the function once, and the second returns the first's result; a
    third call [seconds] or more after the first invokes it again. *)
Lemma two_calls_within_ttl (args : Args) (t1 t2 t3 : Z) (w : wrapped) (r : R) (s1 : S) :
  cache w !! str_key args = None ->
  func args (inner w) = (inr r, s1) ->
  t2 - t1 < seconds ->
  seconds <= t3 - t1 ->
  calls (wrapper args t2 (wrapper args t1 w).2).2 = Datatypes.S (calls w) /\
  (wrapper args t2 (wrapper args t1 w).2).1 = inr r /\
  calls (wrapper args t3 (wrapper args t2 (wrapper args t1 w).2).2).2
    = Datatypes.S (Datatypes.S (calls w)).
Proof.
  intros Habs Hfunc Hlt Hge.
  destruct (wrapper_miss args t1 w (cache_hit_absent _ _ _ Habs)) as (Hc1 & Hf1 & Hs1 & _).
  destruct (wrapper args t1 w) as [out1 w1]. cbn [fst snd] in *.
  rewrite Hfunc in Hf1. injection Hf1 as -> Hinner.
  assert (Hin : cache w1 !! str_key args = Some (r, t1)).
  { rewrite (Hs1 r eq_refl). apply lookup_insert_eq. }
  rewrite (wrapper_hit args t2 w1 r (cache_hit_fresh _ _ _ _ _ Hin Hlt)). cbn [fst snd].
  split; [exact Hc1 | split; [reflexivity |]].
  destruct (wrapper_miss args t3 w1 (cache_hit_stale _ _ _ _ _ Hin Hge)) as (Hc3 & _).
  rewrite Hc3, Hc1. reflexivity.
Qed.

End Contract.

(** The three cases of C1 on the demo function with a TTL of 300 s:
    first call at 1000, a hit at 1299, a miss again at 1300. *)
Lemma timed_cache_contract_witness :
  cache CacheDemo.w0 !! CacheDemo.demo_key "EDLP" = None /\
  calls CacheDemo.w1 = 1%nat /\
  cache CacheDemo.w1 !! CacheDemo.demo_key "EDLP" = Some (0, 1000) /\
  1299 - 1000 < 300 /\
  CacheDemo.demo_wrapper "EDLP" 1299 CacheDemo.w1 = (inr 0, CacheDemo.w1) /\
  300 <= 1300 - 1000 /\
  calls (CacheDemo.demo_wrapper "EDLP" 1300 CacheDemo.w1).2 = 2%nat /\
  cache (CacheDemo.demo_wrapper "EDLP" 1300 CacheDemo.w1).2 !! CacheDemo.demo_key "EDLP"
    = Some (1, 1300).
Proof.
  assert (Habs : cache CacheDemo.w0 !! CacheDemo.demo_key "EDLP" = None)
    by (vm_compute; reflexivity).
  assert (Hin : cache CacheDemo.w1 !! CacheDemo.demo_key "EDLP" = Some (0, 1000))
    by (vm_compute; reflexivity).
  destruct (timed_cache_contract 300 CacheDemo.demo_key CacheDemo.demo_func
              "EDLP" 1000 CacheDemo.w0) as (Hfirst & _ & _).
  destruct (timed_cache_contract 300 CacheDemo.demo_key CacheDemo.demo_func
              "EDLP" 1299 CacheDemo.w1) as (_ & Hhit & _).
  destruct (timed_cache_contract 300 CacheDemo.demo_key CacheDemo.demo_func
              "EDLP" 1300 CacheDemo.w1) as (_ & _ & Hstale).
  specialize (Hfirst Habs). specialize (Hhit 0 1000 Hin ltac:(lia)).
  specialize (Hstale 0 1000 Hin ltac:(lia)).
  destruct Hfirst as (Hc & _ & _ & _).
  destruct Hstale as (Hc' & Hf' & Hs' & _).
  unfold CacheDemo.demo_wrapper.
  split; [exact Habs |]. split; [exact Hc |]. split; [exact Hin |].
  split; [lia |]. split; [exact Hhit |]. split; [lia |]. split; [exact Hc' |].
  rewrite (Hs' 1) by (vm_compute; reflexivity).
  apply lookup_insert_eq.
Defined.

(** The scenario on the demo function: calls at 1000, 1299 and 1300. *)
Lemma two_calls_within_ttl_witness :
  calls (CacheDemo.demo_wrapper "EDLP" 1299 CacheDemo.w1).2 = 1%nat /\
  (CacheDemo.demo_wrapper "EDLP" 1299 CacheDemo.w1).1 = inr 0 /\
  calls (CacheDemo.demo_wrapper "EDLP" 1300
           (CacheDemo.demo_wrapper "EDLP" 1299 CacheDemo.w1).2).2 = 2%nat.
Proof.
  apply (two_calls_within_ttl 300 CacheDemo.demo_key CacheDemo.demo_func
           "EDLP" 1000 1299 1300 CacheDemo.w0 0 1);
    [vm_compute; reflexivity | reflexivity | lia | lia].
Defined.

End CacheProps.

(** ** The token provider *)

Module TokenProps.
Import Strava.

Ltac run_web :=
  unfold refresh_strava_token, get_strava_token, fetch_strava_activities,
    Web.bind, Web.try_except, Web.exchange, Web.log, Web.ret, Web.lift, Web.raise,
    Web.read_token, Web.read_expiry, Web.write_token, Web.write_expiry,
    Web.json, Web.getitem in *; cbn in *.

Section Provider.
Variable cfg : config.
Variable srv : server.

Local Abbreviation refresh := (refresh_strava_token cfg srv).
Local Abbreviation get_token := (get_strava_token cfg srv).
Local Abbreviation token_answer := (Strava.token_answer cfg srv).

(** The refresh never raises; it appends its own mark and at most the
    one POST to the trace. *)
Lemma refresh_shape (w : world) :
  exists r posts,
    (refresh w).1 = inr r /\
    trace (refresh w).2 = trace w ++ Enter "refresh_strava_token" :: posts /\
    (posts = [] \/ posts = [Http (POST token_url (token_form cfg))]).
Proof.
  run_web.
  destruct (STRAVA_REFRESH_TOKEN cfg) as [| c s]; cbn.
  { exists None, []. auto. }
  destruct (oauth_token srv _ _) as [| st b]; cbn.
  { eexists _, [_]. rewrite <- app_assoc. auto. }
  destruct (st =? 200); cbn.
  2: { eexists _, [_]. rewrite <- app_assoc. auto. }
  destruct b as [[[tok |] [e |]] |]; cbn;
    eexists _, [_]; rewrite <- app_assoc; auto.
Qed.

Lemma refresh_counts (w : world) :
  refresh_calls (refresh w).2 = Datatypes.S (refresh_calls w) /\
  activity_gets (refresh w).2 = activity_gets w.
Proof.
  destruct (refresh_shape w) as (r & posts & _ & Htr & Hposts).
  unfold refresh_calls, activity_gets. rewrite Htr.
  rewrite !List.filter_app, !length_app.
  destruct Hposts as [-> | ->]; cbn; lia.
Qed.

Lemma get_token_refresh (now : Z) (w : world) :
  truthy (STRAVA_ACCESS_TOKEN w) = false \/ STRAVA_TOKEN_EXPIRY w - 300 <= now ->
  get_token now w = refresh w.
Proof.
  intros Hneed. unfold get_strava_token, Web.bind, Web.read_token, Web.read_expiry. cbn.
  destruct Hneed as [-> | Hexp]; [reflexivity |].
  destruct (Z.leb_spec (STRAVA_TOKEN_EXPIRY w - 300) now); [| lia].
  now rewrite orb_true_r.
Qed.

Lemma get_token_stored (now : Z) (w : world) :
  truthy (STRAVA_ACCESS_TOKEN w) = true -> now < STRAVA_TOKEN_EXPIRY w - 300 ->
  get_token now w = (inr (STRAVA_ACCESS_TOKEN w), w).
Proof.
  intros Htok Hexp. unfold get_strava_token, Web.bind, Web.read_token, Web.read_expiry. cbn.
  rewrite Htok. destruct (Z.leb_spec (STRAVA_TOKEN_EXPIRY w - 300) now); [lia | reflexivity].
Qed.

(** C4. [get_strava_token] refreshes exactly when no usable token is
    stored ([None] or the empty string, Python's [not token]) or the
    clock is within 300 s of the stored expiry; otherwise it returns the
    stored token and touches nothing.  With 200 s left it makes exactly
    one refresh call. *)
Theorem get_token_refreshes_iff (now : Z) (w : world) :
  (truthy (STRAVA_ACCESS_TOKEN w) = false \/ STRAVA_TOKEN_EXPIRY w - 300 <= now ->
     get_token now w = refresh w /\
     refresh_calls (get_token now w).2 = Datatypes.S (refresh_calls w)) /\
  (truthy (STRAVA_ACCESS_TOKEN w) = true /\ now < STRAVA_TOKEN_EXPIRY w - 300 ->
     get_token now w = (inr (STRAVA_ACCESS_TOKEN w), w) /\
     refresh_calls (get_token now w).2 = refresh_calls w) /\
  (STRAVA_TOKEN_EXPIRY w = now + 200 ->
     refresh_calls (get_token now w).2 = Datatypes.S (refresh_calls w)).
Proof.
  assert (Hneed : truthy (STRAVA_ACCESS_TOKEN w) = false \/ STRAVA_TOKEN_EXPIRY w - 300 <= now ->
     get_token now w = refresh w /\
     refresh_calls (get_token now w).2 = Datatypes.S (refresh_calls w)).
  { intros H. rewrite (get_token_refresh now w H). split; [reflexivity |].
    apply refresh_counts. }
  split; [exact Hneed | split].
  - intros [Htok Hexp]. rewrite (get_token_stored now w Htok Hexp). now split.
  - intros Hexp. apply Hneed. right. lia.
Qed.


(** X2. A 200 answer that carries [access_token] but no [expires_at]: the
    token is overwritten before [token_data['expires_at']] raises, the
    expiry keeps its value and the caller gets [None]. *)
Lemma refresh_without_expiry (w : world) (tok : string) :
  STRAVA_REFRESH_TOKEN cfg <> "" ->
  token_answer w = Response 200 (Some {| access_token := Some tok; expires_at := None |}) ->
  (refresh w).1 = inr None /\
  STRAVA_ACCESS_TOKEN (refresh w).2 = Some tok /\
  STRAVA_TOKEN_EXPIRY (refresh w).2 = STRAVA_TOKEN_EXPIRY w.
Proof.
  unfold Strava.token_answer. run_web.
  destruct (STRAVA_REFRESH_TOKEN cfg) as [| c s]; [congruence |]. cbn.
  intros _ ->. cbn. auto.
Qed.

Local Abbreviation fetch := (fetch_strava_activities cfg srv).

Lemma sent_counts (tok : option string) (w : world) :
  refresh_calls (sent (activities_request tok) w) = refresh_calls w /\
  activity_gets (sent (activities_request tok) w) = Datatypes.S (activity_gets w).
Proof.
  unfold refresh_calls, activity_gets, sent. cbn.
  rewrite !List.filter_app, !length_app. cbn. lia.
Qed.

Lemma refresh_returns (w : world) : exists t, (refresh w).1 = inr t.
Proof. destruct (refresh_shape w) as (r & _ & Hr & _). eauto. Qed.

(** The fetch after its token has been obtained and the first GET was
    answered 401. *)
Lemma fetch_after_401 (now : Z) (w w1 : world) (tok : option string)
    (b : option (list activity)) :
  get_token now w = (inr tok, w1) ->
  truthy tok = true ->
  athlete_activities srv (trace w1) (activities_request tok) = Response 401 b ->
  fetch now w =
    let w2 := sent (activities_request tok) w1 in
    match refresh w2 with
    | (inr t, w3) =>
        if truthy t then
          (inr (activities_of (athlete_activities srv (trace w3) (activities_request t))),
           sent (activities_request t) w3)
        else (inr None, w3)
    | (inl _, w3) => (inr None, w3)
    end.
Proof.
  intros Hget Htok H401.
  unfold fetch_strava_activities. unfold Web.bind at 1. rewrite Hget, Htok. cbn [negb].
  unfold Web.try_except. unfold Web.bind at 1. unfold Web.exchange at 1.
  rewrite H401. unfold sent. cbn -[refresh_strava_token]. unfold Web.bind at 1.
  destruct (refresh _) as [[e | t] w3]; [reflexivity |].
  destruct (truthy t); [| reflexivity].
  unfold Web.bind, Web.exchange, Web.lift, Web.ret, Web.json, activities_of. cbn.
  destruct (athlete_activities srv (trace w3) (activities_request t)) as [| st b']; cbn;
    [reflexivity |].
  destruct (st =? 200); cbn; [| reflexivity].
  destruct b'; reflexivity.
Qed.

(** C6. When the first GET of the activity list is answered 401, the
    fetch makes exactly one more call of [refresh_strava_token]; if that
    returns a usable token it sends exactly one more GET (the retry) and
    returns the decoded list only if the retry is answered 200, [None]
    otherwise (a second 401 included); if the refresh fails it returns
    [None] without any retry. *)
Theorem auth_rejected_one_refresh_one_retry (now : Z) (w w1 : world)
    (tok : option string) (b : option (list activity)) :
  get_token now w = (inr tok, w1) ->
  truthy tok = true ->
  athlete_activities srv (trace w1) (activities_request tok) = Response 401 b ->
  let w2 := sent (activities_request tok) w1 in
  refresh_calls (fetch now w).2 = Datatypes.S (refresh_calls w1) /\
  (forall t, (refresh w2).1 = inr t -> truthy t = false ->
     fetch now w = (inr None, (refresh w2).2) /\
     activity_gets (fetch now w).2 = Datatypes.S (activity_gets w1)) /\
  (forall t, (refresh w2).1 = inr t -> truthy t = true ->
     (fetch now w).2 = sent (activities_request t) (refresh w2).2 /\
     activity_gets (fetch now w).2 = Datatypes.S (Datatypes.S (activity_gets w1)) /\
     (fetch now w).1 =
       inr (activities_of
              (athlete_activities srv (trace (refresh w2).2) (activities_request t)))).
Proof.
  intros Hget Htok H401 w2.
  rewrite (fetch_after_401 now w w1 tok b Hget Htok H401). cbv zeta. fold w2.
  destruct (refresh_returns w2) as (t0 & Ht0).
  destruct (refresh_counts w2) as (Hrc & Hag).
  destruct (sent_counts tok w1) as (Hrc1 & Hag1). fold w2 in Hrc1, Hag1.
  clearbody w2.
  destruct (refresh w2) as [r w3] eqn:Href. cbn [fst snd] in *. subst r.
  split; [| split].
  - destruct (truthy t0); cbn [fst snd].
    + rewrite (proj1 (sent_counts t0 w3)). lia.
    + lia.
  - intros t [= <-] Ht. rewrite Ht. cbn [fst snd]. split; [reflexivity | lia].
  - intros t [= <-] Ht. rewrite Ht. cbn [fst snd].
    split; [reflexivity | split; [| reflexivity]].
    rewrite (proj2 (sent_counts t0 w3)). lia.
Qed.

End Provider.

(** C4 on a stored token that expires at 1200: at 1000 (200 s left) one
    refresh is made; at 800 the stored token is returned untouched. *)
Lemma get_token_refreshes_iff_witness :
  STRAVA_TOKEN_EXPIRY StravaDemo.w_old = 1000 + 200 /\
  refresh_calls
    (get_strava_token StravaDemo.demo_cfg StravaDemo.demo_srv 1000 StravaDemo.w_old).2 = 1%nat /\
  get_strava_token StravaDemo.demo_cfg StravaDemo.demo_srv 800 StravaDemo.w_old
    = (inr (Some "old"), StravaDemo.w_old).
Proof.
  destruct (get_token_refreshes_iff StravaDemo.demo_cfg StravaDemo.demo_srv
              1000 StravaDemo.w_old) as (_ & _ & Hsoon).
  destruct (get_token_refreshes_iff StravaDemo.demo_cfg StravaDemo.demo_srv
              800 StravaDemo.w_old) as (_ & Hvalid & _).
  split; [reflexivity | split].
  - apply Hsoon. reflexivity.
  - apply Hvalid. split; [reflexivity | cbn; lia].
Defined.


(** C6 on the demo server: the stored token is still valid at 800 but
    rejected; one refresh and one retry later the list arrives. *)
Lemma auth_rejected_one_refresh_one_retry_witness :
  refresh_calls
    (fetch_strava_activities StravaDemo.demo_cfg StravaDemo.demo_srv 800 StravaDemo.w_old).2
    = 1%nat /\
  activity_gets
    (fetch_strava_activities StravaDemo.demo_cfg StravaDemo.demo_srv 800 StravaDemo.w_old).2
    = 2%nat /\
  (fetch_strava_activities StravaDemo.demo_cfg StravaDemo.demo_srv 800 StravaDemo.w_old).1
    = inr (Some [StravaDemo.demo_run]).
Proof.
  pose proof (auth_rejected_one_refresh_one_retry StravaDemo.demo_cfg StravaDemo.demo_srv
                800 StravaDemo.w_old StravaDemo.w_old (Some "old") None
                eq_refl eq_refl eq_refl) as H.
  cbv zeta in H. destruct H as (Hrefresh & _ & Hretry).
  destruct (Hretry (Some "new") eq_refl eq_refl) as (_ & Hgets & Hres).
  split; [exact Hrefresh | split; [exact Hgets | exact Hres]].
Defined.

Lemma refresh_without_expiry_witness :
  (refresh_strava_token StravaDemo.demo_cfg StravaDemo.partial_srv StravaDemo.w_old).1
    = inr None /\
  STRAVA_ACCESS_TOKEN
    (refresh_strava_token StravaDemo.demo_cfg StravaDemo.partial_srv StravaDemo.w_old).2
    = Some "new" /\
  STRAVA_TOKEN_EXPIRY
    (refresh_strava_token StravaDemo.demo_cfg StravaDemo.partial_srv StravaDemo.w_old).2
    = 1200.
Proof.
  apply (refresh_without_expiry StravaDemo.demo_cfg StravaDemo.partial_srv
           StravaDemo.w_old "new"); [discriminate | reflexivity].
Defined.

End TokenProps.

(** ** The aggregators *)

Module StreakProps.

Lemma insert_desc_In a x l : In x (insert_desc a l) <-> x = a \/ In x l.
Proof.
  induction l as [| b rest IH]; cbn.
  - intuition.
  - destruct (start_date a <? start_date b); cbn; rewrite ?IH; intuition.
Qed.

Lemma sorted_desc_In x l : In x (sorted_desc l) <-> In x l.
Proof.
  induction l as [| a rest IH]; cbn; [reflexivity |].
  rewrite insert_desc_In, IH. intuition.
Qed.

Lemma insert_desc_sorted a l : newest_first l -> newest_first (insert_desc a l).
Proof.
  unfold newest_first. induction 1 as [| b rest Hrest IH Hb]; cbn.
  - constructor; constructor.
  - destruct (Z.ltb_spec (start_date a) (start_date b)).
    + constructor; [exact IH |].
      rewrite List.Forall_forall in *. intros x Hx.
      apply insert_desc_In in Hx as [-> | Hx]; [lia | now apply Hb].
    + constructor; [now constructor |].
      constructor; [lia |].
      rewrite List.Forall_forall in *. intros x Hx. specialize (Hb x Hx). lia.
Qed.

Lemma sorted_desc_sorted l : newest_first (sorted_desc l).
Proof.
  induction l as [| a rest IH]; cbn; [constructor | now apply insert_desc_sorted].
Qed.

(** X3. The sort only reorders the list, and leaves it newest first. *)
Lemma sorted_desc_permutation (l : list activity) :
  Permutation l (sorted_desc l) /\ newest_first (sorted_desc l).
Proof.
  split; [| apply sorted_desc_sorted].
  induction l as [| a rest IH]; cbn; [constructor |].
  transitivity (a :: sorted_desc rest); [now constructor |].
  clear IH. induction (sorted_desc rest) as [| b tail IHt]; cbn; [reflexivity |].
  destruct (start_date a <? start_date b); [| reflexivity].
  rewrite perm_swap. now constructor.
Qed.

Lemma activity_date_mono a b :
  start_date b <= start_date a -> activity_date b <= activity_date a.
Proof. intros H. unfold activity_date. apply Z.div_le_mono; lia. Qed.

(** What the loop computes on a list that is newest first: it adds to
    [streak] the number [k] of consecutive days, counted backwards from
    [current_check_date], that have an activity in the list. *)
Lemma streak_loop_spec l :
  newest_first l ->
  forall streak day,
  exists k,
    0 <= k /\
    streak_loop l streak day = streak + k /\
    (forall j, 0 <= j < k -> exists a, In a l /\ activity_date a = day - j) /\
    (forall a, In a l -> activity_date a <> day - k).
Proof.
  unfold newest_first. induction 1 as [| a rest Hrest IH Ha]; intros streak day; cbn.
  - exists 0. split; [lia |]. split; [lia |]. split; [intros j Hj; lia | intros a []].
  - rewrite List.Forall_forall in Ha.
    destruct (Z.eqb_spec (activity_date a) day) as [Heq | Hne].
    + destruct (IH (streak + 1) (day - 1)) as (k & Hk & Hloop & Hdays & Hgap).
      exists (k + 1). split; [lia |]. split; [lia |]. split.
      * intros j Hj. destruct (Z.eq_dec j 0) as [-> | Hj0].
        { exists a. split; [now left | lia]. }
        destruct (Hdays (j - 1)) as (b & Hb & Hdate); [lia |].
        exists b. split; [now right | lia].
      * intros b [<- | Hb]; [lia |]. specialize (Hgap b Hb). lia.
    + destruct (Z.ltb_spec (activity_date a) day) as [Hlt | Hge].
      * exists 0. split; [lia |]. split; [lia |]. split; [intros j Hj; lia |].
        intros b [<- | Hb]; [lia |].
        pose proof (activity_date_mono a b (Ha b Hb)). lia.
      * destruct (IH streak day) as (k & Hk & Hloop & Hdays & Hgap).
        exists k. split; [lia |]. split; [lia |]. split.
        { intros j Hj. destruct (Hdays j Hj) as (b & Hb & Hdate).
          exists b. split; [now right | exact Hdate]. }
        intros b [<- | Hb]; [lia | now apply Hgap].
Qed.



End StreakProps.

Module AggregateProps.

Lemma truediv_by_60 (x : Q) : truediv x 60 = inr (x / 60)%Q.
Proof. reflexivity. Qed.

Lemma format_pace_returns (seconds_per_meter distance_meters : Q) :
  exists text, format_pace seconds_per_meter distance_meters = inr text.
Proof.
  unfold format_pace. rewrite truediv_by_60. cbn [rbind].
  destruct (Qeq_bool distance_meters 0); eauto.
Qed.



(** A 5 km run in 25 minutes, and a record without distance. *)
Example format_pace_examples :
  format_pace 1500 5000 = inr "25000:00" /\ format_pace 1500 0 = inr "--:--".
Proof. split; vm_compute; reflexivity. Qed.

(** The claim C7 as stated fails: on the empty list the detailed
    aggregate holds neither personal records nor a heatmap, and the
    simple aggregate holds neither distance nor count rollup. *)
Lemma empty_list_has_no_records_or_heatmap :
  exists d,
    parse_strava_detailed AggregateDemo.demo_clock [] = inr d /\
    lookup_key "records" d = None /\
    lookup_key "heatmap" d = None /\
    lookup_key "month_distance" (parse_strava_data AggregateDemo.demo_clock []) = None /\
    lookup_key "week_count" (parse_strava_data AggregateDemo.demo_clock []) = None.
Proof. eexists. split; [reflexivity |]. repeat split. Qed.

(** C7, amended. On the empty list nothing raises: the streak is 0;
    [parse_strava_data] returns its three-field "no data" record;
    [parse_strava_detailed] returns the error object [No activities];
    and the heatmap, record and weekly computations, which the guard of
    [parse_strava_detailed] keeps the empty list away from, would give
    seven times false, ["--"] three times and ["0.0"] four times. *)
Theorem empty_activity_list_sentinels (clk : clock) :
  calculate_streak (today clk) [] = 0 /\
  parse_strava_data clk [] =
    [("display_stat", JStr "--"); ("display_label", JStr "Keine Daten");
     ("streak", JInt 0)] /\
  parse_strava_detailed clk [] = inr [("error", JStr "No activities")] /\
  heatmap clk [] = [false; false; false; false; false; false; false] /\
  records [] =
    [("longest_run", JStr "--"); ("fastest_5k", JStr "--"); ("max_elevation", JStr "--")] /\
  weekly [] =
    [("run", JStr "0.0"); ("ride", JStr "0.0"); ("swim", JStr "0.0"); ("total", JStr "0.0")].
Proof.
  split; [reflexivity |]. split; [reflexivity |]. split; [reflexivity |].
  split; [reflexivity |]. split; vm_compute; reflexivity.
Qed.



Lemma parse_strava_data_keys clk a rest :
  keys (parse_strava_data clk (a :: rest)) =
    ["display_stat"; "display_label"; "streak"; "month_distance"; "week_count"].
Proof.
  unfold parse_strava_data.
  destruct (7 <=? calculate_streak (today clk) (a :: rest)); reflexivity.
Qed.

Lemma parse_strava_detailed_keys clk a rest :
  exists d,
    parse_strava_detailed clk (a :: rest) = inr d /\
    keys d =
      ["streak"; "month_distance"; "week_count"; "latest"; "weekly"; "heatmap"; "records"].
Proof.
  unfold parse_strava_detailed.
  destruct (format_pace_returns (inject_Z (moving_time a)) (distance a)) as (pace & ->).
  cbn [rbind]. eexists. split; reflexivity.
Qed.

End AggregateProps.

(** ** The Strava endpoints *)
Module ApiProps.
Import Strava Api.

Lemma try_except_returns {A} (body : M A) (x : A) (w : world) :
  exists r, (try_except body (fun _ => ret x) w).1 = inr r.
Proof.
  unfold try_except, ret. destruct (body w) as [[e | a] w']; cbn; eauto.
Qed.

Section Endpoints.
Variable cfg : config.
Variable srv : server.

(** The activity fetch never raises. *)
Lemma fetch_returns (current_time : Z) (w : world) :
  exists r, (fetch_strava_activities cfg srv current_time w).1 = inr r.
Proof.
  unfold fetch_strava_activities. unfold Web.bind at 1.
  destruct (get_strava_token cfg srv current_time w) as [[e | token] w1] eqn:Hget.
  - exfalso.
    assert (Hr : exists t, (get_strava_token cfg srv current_time w).1 = inr t).
    { unfold get_strava_token, Web.bind, Web.read_token, Web.read_expiry. cbn.
      destruct (negb _ || _); [apply TokenProps.refresh_returns | cbn; eauto]. }
    destruct Hr as (t & Ht). rewrite Hget in Ht. discriminate.
  - destruct (truthy token); cbn [negb]; [apply try_except_returns | cbn; eauto].
Qed.

Lemma cached_fetch_returns (time_now current_time : Z) (c : activities_cache) :
  exists r, (cached_fetch_strava_activities cfg srv time_now current_time c).1 = inr r.
Proof.
  unfold cached_fetch_strava_activities, Cache.wrapper.
  destruct (Cache.cache_hit _ _ _ _) as [hit |]; [cbn; eauto |].
  destruct (fetch_returns current_time (Cache.inner c)) as (r & Hr).
  destruct (fetch_strava_activities cfg srv current_time (Cache.inner c)) as [x w'].
  cbn in Hr. subst x. cbn. eauto.
Qed.


End Endpoints.


End ApiProps.

(** ** The source fetchers *)

Module FetcherProps.
Import Fetchers.

Lemma total_ret {A} (a : A) : total (ret a).
Proof. intros w. unfold ret. eauto. Qed.

Lemma total_bind {A B} (c : M A) (k : A -> M B) :
  total c -> (forall a, total (k a)) -> total (bind c k).
Proof.
  intros Hc Hk w. unfold bind. destruct (Hc w) as (a & w' & ->). apply Hk.
Qed.

Lemma total_try {A} (body : M A) (handler : exn -> M A) :
  (forall e, total (handler e)) -> total (try_except body handler).
Proof.
  intros Hh w. unfold try_except. destruct (body w) as [[e | a] w']; [apply Hh | eauto].
Qed.

Lemma yields_ret {A} (a : A) (P : A -> Prop) : P a -> yields (ret a) P.
Proof. intros Ha w a' w' [= <- _]. exact Ha. Qed.

Lemma yields_bind {A B} (c : M A) (k : A -> M B) (Q : A -> Prop) (P : B -> Prop) :
  yields c Q -> (forall a, Q a -> yields (k a) P) -> yields (bind c k) P.
Proof.
  intros Hc Hk w b w'. unfold bind.
  destruct (c w) as [[e | a] w1] eqn:Hcw; [discriminate |].
  apply (Hk a (Hc _ _ _ Hcw)).
Qed.

Lemma yields_any {A} (c : M A) : yields c (fun _ => True).
Proof. intros w a w' _. exact I. Qed.

Lemma yields_try {A} (body : M A) (handler : exn -> M A) (P : A -> Prop) :
  yields body P -> (forall e, yields (handler e) P) -> yields (try_except body handler) P.
Proof.
  intros Hb Hh w a w'. unfold try_except.
  destruct (body w) as [[e | a0] w1] eqn:Hbw.
  - apply Hh.
  - intros [= <- _]. apply (Hb _ _ _ Hbw).
Qed.

Lemma yields_raise {A} (e : exn) (P : A -> Prop) : yields (raise e) P.
Proof. intros w a w'. discriminate. Qed.

Lemma keyed_None ks : keyed ks None.
Proof. intros record. discriminate. Qed.

Lemma keyed_Some ks record : keys record = ks -> keyed ks (Some record).
Proof. intros H r [= <-]. exact H. Qed.

Ltac step :=
  first
    [ apply yields_ret; first [apply keyed_None | apply keyed_Some; reflexivity]
    | apply yields_raise
    | apply yields_try; [| intros ?]
    | eapply yields_bind; [apply yields_any | intros ? _]
    | match goal with
      | |- yields (if ?b then _ else _) _ => destruct b
      | |- yields (match ?x with _ => _ end) _ => destruct x
      end ].

Section Records.
Variable cfg : config.
Variable net : sources.
Variable strptime_path : string -> option string.
Variable py_str : json -> string.
Variable berlin_hh_mm : string -> option string.

Local Abbreviation fetch_metar := (Fetchers.fetch_metar cfg net).
Local Abbreviation fetch_taf := (Fetchers.fetch_taf cfg net).
Local Abbreviation sun_times := (Fetchers.calculate_sun_moon_times cfg net berlin_hh_mm).
Local Abbreviation fetch_nasa_epic := (Fetchers.fetch_nasa_epic cfg net strptime_path py_str).
Local Abbreviation fetch_nasa_apod := (Fetchers.fetch_nasa_apod cfg net).
Local Abbreviation metar_request := (Fetchers.metar_request cfg).
Local Abbreviation taf_request := (Fetchers.taf_request cfg).
Local Abbreviation sun_request := (Fetchers.sun_request cfg).
Local Abbreviation epic_request := (Fetchers.epic_request cfg).
Local Abbreviation apod_request := (Fetchers.apod_request cfg).
Local Abbreviation apod_yesterday_request := (Fetchers.apod_yesterday_request cfg).

(** A fetcher of the shape [try: ... / except: ... / return fallback]
    returns a record with the fallback's keys and never raises. *)
Lemma guarded_record (body : M (option pydict)) (fallback : pydict) :
  yields body (keyed (keys fallback)) ->
  forall w, exists record w',
    bind (try_except body (fun _ => ret None))
         (fun returned => ret (from_option id fallback returned)) w = (inr record, w') /\
    keys record = keys fallback.
Proof.
  intros Hbody w.
  assert (Ht : total (try_except body (fun _ : exn => ret (@None pydict)))).
  { apply total_try. intros e. apply total_ret. }
  destruct (Ht w) as (returned & w' & Hrun).
  assert (Hk : keyed (keys fallback) returned).
  { eapply (yields_try body (fun _ => ret None)); [exact Hbody | | exact Hrun].
    intros e. apply yields_ret, keyed_None. }
  exists (from_option id fallback returned), w'. unfold bind at 1. rewrite Hrun.
  split; [reflexivity |]. destruct returned as [record |]; [now apply Hk | reflexivity].
Qed.

Lemma fetch_metar_record station w :
  exists record w', fetch_metar station w = (inr record, w') /\
                    keys record = keys (metar_fallback station).
Proof. apply guarded_record. cbn [keys map fst metar_fallback]. repeat step. Qed.

Lemma fetch_taf_record station w :
  exists record w', fetch_taf station w = (inr record, w') /\
                    keys record = keys (taf_fallback station).
Proof. apply guarded_record. cbn [keys map fst taf_fallback]. repeat step. Qed.

Lemma sun_times_record w :
  exists record w', sun_times w = (inr record, w') /\ keys record = keys sun_fallback.
Proof. apply guarded_record. cbn [keys map fst sun_fallback]. repeat step. Qed.

Lemma epic_candidates_keyed items :
  yields (epic_candidates net strptime_path py_str items) (keyed (keys epic_fallback)).
Proof.
  cbn [keys map fst epic_fallback].
  induction items as [| item rest IH]; cbn [epic_candidates].
  - step.
  - eapply yields_bind with (Q := keyed ["caption"; "url"; "date"]).
    + unfold epic_candidate. repeat step.
    + intros [record |] Hrecord; [| exact IH].
      apply yields_ret. exact Hrecord.
Qed.

Lemma fetch_nasa_epic_record w :
  exists record w', fetch_nasa_epic w = (inr record, w') /\ keys record = keys epic_fallback.
Proof.
  apply guarded_record. repeat step. apply epic_candidates_keyed.
Qed.

Lemma apod_today_keyed :
  yields (try_except (apod_today cfg net) (fun _ => ret None)) (keyed (keys apod_fallback)).
Proof. cbn [keys map fst apod_fallback]. unfold apod_today. repeat step. Qed.

Lemma apod_yesterday_keyed yesterday :
  yields (apod_yesterday cfg net yesterday) (keyed (keys apod_fallback)).
Proof. cbn [keys map fst apod_fallback]. unfold apod_yesterday. repeat step. Qed.

Lemma fetch_nasa_apod_record yesterday w :
  exists record w', fetch_nasa_apod yesterday w = (inr record, w') /\
                    keys record = keys apod_fallback.
Proof.
  unfold Fetchers.fetch_nasa_apod. unfold bind at 1.
  assert (Ht : total (try_except (apod_today cfg net) (fun _ : exn => ret (@None pydict)))).
  { apply total_try. intros e. apply total_ret. }
  destruct (Ht w) as ([record |] & w1 & Hrun); rewrite Hrun.
  - exists record, w1. split; [reflexivity |].
    now apply (apod_today_keyed _ _ _ Hrun).
  - apply guarded_record, apod_yesterday_keyed.
Qed.

Lemma guarded_call_failed {A B} (endpoint : list event -> request -> outcome A)
    (rq : request) (k : response A -> M (option B)) (w : world) :
  failed (endpoint (trace w) rq) ->
  try_except
    (bind (exchange endpoint rq)
          (fun resp => if status_code resp =? 200 then k resp else ret None))
    (fun _ => ret None) w
  = (inr None, sent rq w).
Proof.
  intros [Hraised | (st & b & Hresp & Hst)];
    unfold try_except, bind, exchange, sent; rewrite ?Hraised, ?Hresp; cbn.
  - reflexivity.
  - rewrite (proj2 (Z.eqb_neq st 200) Hst). reflexivity.
Qed.

Lemma fetch_metar_failed station w :
  failed (get_json net (trace w) (metar_request station)) ->
  fetch_metar station w = (inr (metar_fallback station), sent (metar_request station) w).
Proof.
  intros H. unfold Fetchers.fetch_metar, httpx_get. unfold bind at 1.
  rewrite guarded_call_failed by exact H. reflexivity.
Qed.

Lemma fetch_taf_failed station w :
  failed (get_json net (trace w) (taf_request station)) ->
  fetch_taf station w = (inr (taf_fallback station), sent (taf_request station) w).
Proof.
  intros H. unfold Fetchers.fetch_taf, httpx_get. unfold bind at 1.
  rewrite guarded_call_failed by exact H. reflexivity.
Qed.

Lemma sun_times_failed w :
  failed (get_json net (trace w) sun_request) ->
  sun_times w = (inr sun_fallback, sent sun_request w).
Proof.
  intros H. unfold Fetchers.calculate_sun_moon_times, httpx_get. unfold bind at 1.
  rewrite guarded_call_failed by exact H. reflexivity.
Qed.

Lemma fetch_nasa_epic_failed w :
  failed (get_json net (trace w) epic_request) ->
  fetch_nasa_epic w = (inr epic_fallback, sent epic_request w).
Proof.
  intros H. unfold Fetchers.fetch_nasa_epic, httpx_get. unfold bind at 1.
  rewrite guarded_call_failed by exact H. reflexivity.
Qed.

Lemma fetch_nasa_apod_failed yesterday w :
  failed (get_json net (trace w) apod_request) ->
  failed (get_json net (trace (sent apod_request w)) (apod_yesterday_request yesterday)) ->
  fetch_nasa_apod yesterday w
    = (inr apod_fallback, sent (apod_yesterday_request yesterday) (sent apod_request w)).
Proof.
  intros H1 H2. unfold Fetchers.fetch_nasa_apod, apod_today, apod_yesterday, httpx_get.
  unfold bind at 1. rewrite guarded_call_failed by exact H1.
  unfold bind at 1. rewrite guarded_call_failed by exact H2. reflexivity.
Qed.

Variable srv : server.
Local Abbreviation fetch_activities := (Strava.fetch_strava_activities cfg srv).

Lemma fetch_activities_without_token current_time w tok w1 :
  Strava.get_strava_token cfg srv current_time w = (inr tok, w1) ->
  Strava.truthy tok = false ->
  fetch_activities current_time w = (inr None, w1).
Proof.
  intros Hget Htok. unfold Strava.fetch_strava_activities. unfold bind at 1.
  rewrite Hget, Htok. reflexivity.
Qed.

Lemma fetch_activities_failed current_time w tok w1 :
  Strava.get_strava_token cfg srv current_time w = (inr tok, w1) ->
  Strava.truthy tok = true ->
  (athlete_activities srv (trace w1) (Strava.activities_request tok) = Raised \/
   exists st b,
     athlete_activities srv (trace w1) (Strava.activities_request tok) = Response st b /\
     st <> 200 /\ st <> 401) ->
  (fetch_activities current_time w).1 = inr None.
Proof.
  intros Hget Htok Hfail. unfold Strava.fetch_strava_activities. unfold bind at 1.
  rewrite Hget, Htok. cbn [negb].
  unfold try_except. unfold bind at 1. unfold exchange at 1.
  destruct Hfail as [-> | (st & b & -> & H200 & H401)]; cbn; [reflexivity |].
  rewrite (proj2 (Z.eqb_neq st 200) H200), (proj2 (Z.eqb_neq st 401) H401).
  reflexivity.
Qed.


End Records.



(** A 200 answer that lacks every expected field still gives a fully
    populated weather record: each missing field is ["N/A"]. *)
Example fetch_metar_missing_fields :
  (Fetchers.fetch_metar StravaDemo.demo_cfg FetcherDemo.hollow_net "EDLP" startup).1
    = inr [("station", JStr "N/A"); ("raw", JStr "Keine Daten verfügbar");
           ("flight_rules", JStr "N/A"); ("wind_direction", JStr "N/A");
           ("wind_speed", JStr "N/A"); ("temperature", JStr "N/A");
           ("dewpoint", JStr "N/A"); ("visibility", JStr "N/A");
           ("altimeter", JStr "N/A")].
Proof. reflexivity. Qed.

End FetcherProps.

(** ** More on the streak *)
Module StreakLaws.
Import StreakProps Observe.

(** The streak [n] of a list is fixed by three facts. *)
Lemma streak_characterised (day : Z) (activities : list activity) :
  0 <= calculate_streak day activities /\
  (forall j, 0 <= j < calculate_streak day activities ->
     exists a, In a activities /\ activity_date a = day - j) /\
  (forall a, In a activities ->
     activity_date a <> day - calculate_streak day activities).
Proof.
  unfold calculate_streak. destruct activities as [| a0 rest].
  - split; [lia |]. split; [intros j Hj; lia | intros a []].
  - destruct (streak_loop_spec (sorted_desc (a0 :: rest)) (sorted_desc_sorted _) 0 day)
      as (k & Hk & Hloop & Hdays & Hgap).
    rewrite Hloop, Z.add_0_l. split; [exact Hk |]. split.
    + intros j Hj. destruct (Hdays j Hj) as (b & Hb & Hdate).
      exists b. split; [now apply sorted_desc_In | exact Hdate].
    + intros b Hb. apply Hgap. now apply sorted_desc_In.
Qed.

(** X10. The streak depends only on which calendar days hold an activity:
    the order of the list, and further activities on a day that already
    has one, do not matter. *)
Theorem streak_depends_on_days_only (day : Z) (l l' : list activity) :
  same_days l l' ->
  calculate_streak day l = calculate_streak day l'.
Proof.
  intros Hsame.
  destruct (streak_characterised day l) as (Hn & Hdays & Hgap).
  destruct (streak_characterised day l') as (Hn' & Hdays' & Hgap').
  set (n := calculate_streak day l) in *. set (n' := calculate_streak day l') in *.
  destruct (Z.lt_trichotomy n n') as [Hlt | [Heq | Hgt]]; [| exact Heq |]; exfalso.
  - destruct (Hdays' n) as (a & Ha & Hd); [lia |].
    destruct (proj2 (Hsame (day - n))) as (b & Hb & Hdb); [eauto |].
    exact (Hgap b Hb Hdb).
  - destruct (Hdays n') as (a & Ha & Hd); [lia |].
    destruct (proj1 (Hsame (day - n'))) as (b & Hb & Hdb); [eauto |].
    exact (Hgap' b Hb Hdb).
Qed.

Lemma permutation_same_days (l l' : list activity) :
  Permutation l l' -> same_days l l'.
Proof.
  intros Hp d. split; intros (a & Ha & Hd); exists a; split; try exact Hd.
  - now apply (Permutation_in _ Hp).
  - now apply (Permutation_in _ (Permutation_sym Hp)).
Qed.

Lemma streak_depends_on_days_only_witness :
  same_days AggregateDemo.demo_week ObserveDemo.demo_week_reordered /\
  calculate_streak 19700 AggregateDemo.demo_week
    = calculate_streak 19700 ObserveDemo.demo_week_reordered.
Proof.
  assert (H : same_days AggregateDemo.demo_week ObserveDemo.demo_week_reordered).
  { intros d. split.
    - intros (a & Ha & Hd). subst d.
      destruct Ha as [<- | [<- | [<- | [<- | []]]]];
        [ exists (AggregateDemo.on_day "Swim" 19697 30000 1000%Q)
        | exists (AggregateDemo.on_day "Run" 19700 61200 5000%Q)
        | exists (AggregateDemo.on_day "Ride" 19699 25200 20000%Q)
        | exists (AggregateDemo.on_day "Run" 19700 21600 3000%Q) ];
        (split; [cbn; tauto | reflexivity]).
    - intros (a & Ha & Hd). subst d.
      destruct Ha as [<- | [<- | [<- | [<- | [<- | []]]]]];
        [ exists (AggregateDemo.on_day "Run" 19700 21600 3000%Q)
        | exists (AggregateDemo.on_day "Ride" 19699 25200 20000%Q)
        | exists (AggregateDemo.on_day "Ride" 19699 25200 20000%Q)
        | exists (AggregateDemo.on_day "Run" 19700 61200 5000%Q)
        | exists (AggregateDemo.on_day "Swim" 19697 30000 1000%Q) ];
        (split; [cbn; tauto | reflexivity]). }
  split; [exact H |].
  exact (streak_depends_on_days_only 19700 _ _ H).
Defined.

Lemma insert_desc_length a l : length (insert_desc a l) = Datatypes.S (length l).
Proof.
  induction l as [| b rest IH]; cbn; [reflexivity |].
  destruct (start_date a <? start_date b); cbn; [now rewrite IH | reflexivity].
Qed.

Lemma sorted_desc_length l : length (sorted_desc l) = length l.
Proof.
  induction l as [| a rest IH]; cbn; [reflexivity |].
  now rewrite insert_desc_length, IH.
Qed.

Lemma streak_loop_bound l : forall streak day,
  streak_loop l streak day <= streak + Z.of_nat (length l).
Proof.
  induction l as [| a rest IH]; intros streak day; cbn [streak_loop length].
  - lia.
  - destruct (activity_date a =? day).
    + specialize (IH (streak + 1) (day - 1)). lia.
    + destruct (activity_date a <? day); [lia |].
      specialize (IH streak day). lia.
Qed.

(** X11. A streak needs an activity today: without one the streak is 0,
    however many earlier days in a row hold activities; and the streak
    never exceeds the number of activities in the list. *)
Theorem streak_needs_activity_today (day : Z) (activities : list activity) :
  ((forall a, In a activities -> activity_date a <> day) ->
     calculate_streak day activities = 0) /\
  calculate_streak day activities <= Z.of_nat (length activities).
Proof.
  split.
  - intros Hnone.
    destruct (streak_characterised day activities) as (Hn & Hdays & _).
    destruct (Z.eq_dec (calculate_streak day activities) 0) as [H0 | H0]; [exact H0 |].
    exfalso. destruct (Hdays 0) as (a & Ha & Hd); [lia |].
    apply (Hnone a Ha). lia.
  - unfold calculate_streak. destruct activities as [| a0 rest]; [cbn; lia |].
    pose proof (streak_loop_bound (sorted_desc (a0 :: rest)) 0 day) as Hb.
    rewrite sorted_desc_length in Hb.
    lia.
Qed.

(** X12. The streak compares the UTC calendar day of an activity with the
    local calendar day of the clock.  Where local time is ahead of UTC
    by [offset] seconds, an activity started less than [offset] after
    local midnight falls on the previous UTC day: it does not count for
    today, and alone it gives no streak. *)
Theorem early_activity_counts_for_yesterday (day offset : Z) (a : activity) :
  0 < offset <= 7200 ->
  (start_date a + offset) / 86400 = day ->
  86400 - offset <= start_date a mod 86400 ->
  activity_date a = day - 1 /\ calculate_streak day [a] = 0.
Proof.
  intros Hoff Hlocal Hearly.
  assert (Hdate : activity_date a = day - 1).
  { unfold activity_date.
    pose proof (Z.div_mod (start_date a) 86400 ltac:(lia)) as Hdm.
    pose proof (Z.mod_pos_bound (start_date a) 86400 ltac:(lia)) as Hb.
    assert (Hq : (start_date a + offset) / 86400 = start_date a / 86400 + 1).
    { symmetry.
      apply (Z.div_unique _ _ _ (start_date a mod 86400 + offset - 86400)); lia. }
    lia. }
  split; [exact Hdate |].
  unfold calculate_streak. cbn [sorted_desc insert_desc streak_loop]. rewrite Hdate.
  destruct (Z.eqb_spec (day - 1) day); [lia |].
  destruct (Z.ltb_spec (day - 1) day); [reflexivity | lia].
Qed.

Lemma early_activity_counts_for_yesterday_witness :
  activity_date (AggregateDemo.on_day "Run" 19699 84600 5000%Q) = 19700 - 1 /\
  calculate_streak 19700 [AggregateDemo.on_day "Run" 19699 84600 5000%Q] = 0.
Proof.
  apply (early_activity_counts_for_yesterday 19700 3600
           (AggregateDemo.on_day "Run" 19699 84600 5000%Q));
    [lia | reflexivity | vm_compute; discriminate].
Defined.

Lemma streak_needs_activity_today_witness :
  (forall a, In a [AggregateDemo.on_day "Ride" 19699 25200 20000%Q] ->
             activity_date a <> 19700) /\
  calculate_streak 19700 [AggregateDemo.on_day "Ride" 19699 25200 20000%Q] = 0.
Proof.
  assert (H : forall a, In a [AggregateDemo.on_day "Ride" 19699 25200 20000%Q] ->
                        activity_date a <> 19700).
  { intros a [<- | []]. vm_compute. discriminate. }
  split; [exact H |].
  exact (proj1 (streak_needs_activity_today 19700 _) H).
Defined.

End StreakLaws.

(** ** More on the aggregates *)
Module AggregateLaws.
Import Observe.

Lemma heatmap_slot (clk : clock) (activities : list activity) (i : nat) :
  (i < 7)%nat ->
  nth i (heatmap clk activities) false =
    existsb (fun a => activity_date a =? today clk - (6 - Z.of_nat i)) activities.
Proof.
  intros Hi. unfold heatmap.
  do 7 (destruct i as [| i]; [reflexivity |]). lia.
Qed.

Lemma on_day_iff (activities : list activity) (d : Z) :
  existsb (fun a => activity_date a =? d) activities = true <->
  exists a, In a activities /\ activity_date a = d.
Proof.
  rewrite existsb_exists. split; intros (a & Ha & Hd); exists a; (split; [exact Ha | lia]).
Qed.



(** X14. The pace shown for the latest activity is computed from its moving
    time alone: two latest activities with the same moving time and any
    two non-zero distances get the same pace. *)
Theorem latest_pace_ignores_distance (clk clk' : clock) (a b : activity)
    (rest rest' : list activity) :
  moving_time a = moving_time b ->
  ~ (distance a == 0)%Q -> ~ (distance b == 0)%Q ->
  exists da db pace,
    parse_strava_detailed clk (a :: rest) = inr da /\
    parse_strava_detailed clk' (b :: rest') = inr db /\
    lookup_path ["latest"; "pace"] (JObj da) = Some (JStr pace) /\
    lookup_path ["latest"; "pace"] (JObj db) = Some (JStr pace).
Proof.
  intros Htime Ha Hb. unfold parse_strava_detailed, format_pace.
  rewrite <- Htime.
  destruct (Qeq_bool (distance a) 0) eqn:Hza; [apply Qeq_bool_iff in Hza; contradiction |].
  destruct (Qeq_bool (distance b) 0) eqn:Hzb; [apply Qeq_bool_iff in Hzb; contradiction |].
  rewrite AggregateProps.truediv_by_60. cbn [rbind].
  eexists _, _, _. repeat split.
Qed.

Lemma latest_pace_ignores_distance_witness :
  exists da db pace,
    parse_strava_detailed AggregateDemo.demo_clock
      [AggregateDemo.on_day "Run" 19700 61200 5000%Q] = inr da /\
    parse_strava_detailed AggregateDemo.demo_clock
      [AggregateDemo.on_day "Run" 19700 61200 10000%Q] = inr db /\
    lookup_path ["latest"; "pace"] (JObj da) = Some (JStr pace) /\
    lookup_path ["latest"; "pace"] (JObj db) = Some (JStr pace).
Proof.
  apply (latest_pace_ignores_distance AggregateDemo.demo_clock AggregateDemo.demo_clock
           (AggregateDemo.on_day "Run" 19700 61200 5000%Q)
           (AggregateDemo.on_day "Run" 19700 61200 10000%Q) [] []);
    [reflexivity | intros H; discriminate H | intros H; discriminate H].
Defined.


Lemma Qmaximum_fold (rest : list Q) : forall x : Q,
  let m := fold_left (fun m y => if Qle_bool y m then m else y) rest x in
  In m (x :: rest) /\ forall y, In y (x :: rest) -> (y <= m)%Q.
Proof.
  induction rest as [| z rest IH]; intros x; cbn [fold_left].
  - split; [now left |]. intros y [<- | []]. apply Qle_refl.
  - destruct (IH (if Qle_bool z x then x else z)) as (Hin & Hmax).
    set (m := fold_left _ rest _) in *. cbv zeta. split.
    + destruct Hin as [Heq | Hin]; [| now right; right].
      rewrite <- Heq. destruct (Qle_bool z x); [now left | right; now left].
    + assert (Hstep : (x <= if Qle_bool z x then x else z)%Q /\
                      (z <= if Qle_bool z x then x else z)%Q).
      { destruct (Qle_bool z x) eqn:Hzx.
        - split; [apply Qle_refl | now apply Qle_bool_iff].
        - split; [| apply Qle_refl].
          destruct (Qlt_le_dec x z) as [Hlt | Hle]; [now apply Qlt_le_weak |].
          apply Qle_bool_iff in Hle. congruence. }
      intros y [<- | [<- | Hy]].
      * apply Qle_trans with (if Qle_bool z x then x else z); [apply Hstep |].
        apply Hmax. now left.
      * apply Qle_trans with (if Qle_bool z x then x else z); [apply Hstep |].
        apply Hmax. now left.
      * apply Hmax. now right.
Qed.

Lemma of_type_In (ty : string) (activities : list activity) (a : activity) :
  In a (of_type ty activities) <-> In a activities /\ act_type a = ty.
Proof.
  unfold of_type. rewrite filter_In. split; intros [Ha Ht]; (split; [exact Ha |]).
  - now apply String.eqb_eq.
  - now apply String.eqb_eq.
Qed.



Lemma Zminimum_fold (rest : list Z) : forall x : Z,
  In (fold_left Z.min rest x) (x :: rest) /\
  forall y, In y (x :: rest) -> fold_left Z.min rest x <= y.
Proof.
  induction rest as [| z rest IH]; intros x; cbn [fold_left].
  - split; [now left |]. intros y [<- | []]. lia.
  - destruct (IH (Z.min x z)) as (Hin & Hmin). split.
    + destruct Hin as [Heq | Hin]; [| now right; right].
      rewrite <- Heq. destruct (Z.min_spec x z) as [[_ ->] | [_ ->]];
        [now left | right; now left].
    + intros y [<- | [<- | Hy]].
      * specialize (Hmin (Z.min x z) ltac:(now left)). lia.
      * specialize (Hmin (Z.min x z) ltac:(now left)). lia.
      * apply Hmin. now right.
Qed.

(** X16. The fastest 5K shown is the shortest moving time among the runs of
    4500 m to 5500 m; it is ["--"] when there is no such run, and also
    when that shortest time is 0. *)
Theorem fastest_5k_is_minimum (activities : list activity) :
  (five_k_runs activities = [] ->
     lookup_key "fastest_5k" (records activities) = Some (JStr "--")) /\
  (five_k_runs activities <> [] ->
     exists best,
       In best (five_k_runs activities) /\
       (forall r, In r (five_k_runs activities) -> moving_time best <= moving_time r) /\
       lookup_key "fastest_5k" (records activities) =
         Some (JStr (if moving_time best =? 0 then "--"
                     else format_time (moving_time best)))).
Proof.
  unfold records. cbn [lookup_key String.eqb Ascii.eqb Bool.eqb].
  fold (five_k_runs activities).
  split.
  - intros ->. reflexivity.
  - intros Hruns. destruct (five_k_runs activities) as [| r0 runs] eqn:Hof; [congruence |].
    cbn [map Zminimum].
    destruct (Zminimum_fold (map moving_time runs) (moving_time r0)) as (Hin & Hmin).
    change (moving_time r0 :: map moving_time runs)
      with (map moving_time (r0 :: runs)) in Hin, Hmin.
    apply in_map_iff in Hin as (best & Hbest & Hbin).
    exists best. split; [exact Hbin |]. split.
    + intros r Hr. rewrite Hbest. apply Hmin. now apply in_map.
    + rewrite Hbest. reflexivity.
Qed.

Lemma five_k_runs_In (activities : list activity) (a : activity) :
  In a (five_k_runs activities) <->
  In a activities /\ act_type a = "Run" /\ (4500 <= distance a)%Q /\ (distance a <= 5500)%Q.
Proof.
  unfold five_k_runs. rewrite filter_In, of_type_In, andb_true_iff, !Qle_bool_iff. tauto.
Qed.

Lemma fastest_5k_is_minimum_witness :
  five_k_runs AggregateDemo.demo_week <> [] /\
  exists best,
    In best (five_k_runs AggregateDemo.demo_week) /\
    (forall r, In r (five_k_runs AggregateDemo.demo_week) ->
       moving_time best <= moving_time r) /\
    lookup_key "fastest_5k" (records AggregateDemo.demo_week) =
      Some (JStr (if moving_time best =? 0 then "--" else format_time (moving_time best))).
Proof.
  assert (H : five_k_runs AggregateDemo.demo_week <> []) by (vm_compute; discriminate).
  split; [exact H |].
  exact (proj2 (fastest_5k_is_minimum AggregateDemo.demo_week) H).
Defined.

Lemma filter_filter_implied {A} (f g : A -> bool) (l : list A) :
  (forall a, f a = true -> g a = true) ->
  List.filter f (List.filter g l) = List.filter f l.
Proof.
  intros Himp. induction l as [| a rest IH]; cbn; [reflexivity |].
  destruct (g a) eqn:Hg; cbn.
  - now rewrite IH.
  - destruct (f a) eqn:Hf; [rewrite (Himp a Hf) in Hg; discriminate | exact IH].
Qed.

(** X17. The weekly block adds up runs, rides and swims only: activities of
    any other type leave all four of its figures, the total included,
    as they are. *)
Theorem weekly_counts_three_types (week_activities : list activity) :
  weekly week_activities = weekly (List.filter counted_weekly week_activities).
Proof.
  unfold weekly, of_type.
  rewrite !filter_filter_implied; [reflexivity | | |];
    intros a Ha; unfold counted_weekly; rewrite Ha; cbn; now rewrite ?orb_true_r.
Qed.

Lemma hms_split (h m s : Z) :
  0 <= m < 60 -> 0 <= s < 60 ->
  (3600 * h + 60 * m + s) / 3600 = h /\
  ((3600 * h + 60 * m + s) mod 3600) / 60 = m /\
  (3600 * h + 60 * m + s) mod 60 = s.
Proof.
  intros Hm Hs.
  assert (H1 : (3600 * h + 60 * m + s) / 3600 = h).
  { symmetry. apply (Z.div_unique _ _ h (60 * m + s)); lia. }
  assert (H2 : (3600 * h + 60 * m + s) mod 3600 = 60 * m + s).
  { symmetry. apply (Z.mod_unique _ _ h (60 * m + s)); lia. }
  split; [exact H1 |]. split.
  - rewrite H2. symmetry. apply (Z.div_unique _ _ m s); lia.
  - symmetry. apply (Z.mod_unique _ _ (60 * h + m) s); lia.
Qed.

Lemma fmt_02d_two_digits (n : Z) : 0 <= n < 100 -> String.length (fmt_02d n) = 2%nat.
Proof.
  intros Hn.
  assert (Hall : forallb (fun k => Nat.eqb (String.length (fmt_02d (Z.of_nat k))) 2)
                   (seq 0 100) = true) by (vm_compute; reflexivity).
  rewrite forallb_forall in Hall.
  specialize (Hall (Z.to_nat n)). rewrite Z2Nat.id in Hall by lia.
  apply Nat.eqb_eq, Hall, in_seq. lia.
Qed.

(** A duration of [h] hours, [m] minutes and [s] seconds is shown as
    [h:mm:ss] when [h > 0] and as [m:ss] otherwise; the fields after the
    first colon always have exactly two digits. *)
Lemma format_time_fields (h m s : Z) :
  0 <= h -> 0 <= m < 60 -> 0 <= s < 60 ->
  format_time (3600 * h + 60 * m + s) =
    (if 0 <? h then fmt_d h +:+ ":" +:+ fmt_02d m +:+ ":" +:+ fmt_02d s
     else fmt_d m +:+ ":" +:+ fmt_02d s) /\
  String.length (fmt_02d m) = 2%nat /\ String.length (fmt_02d s) = 2%nat.
Proof.
  intros Hh Hm Hs. unfold format_time.
  destruct (hms_split h m s Hm Hs) as (-> & -> & ->).
  split; [reflexivity |]. split; apply fmt_02d_two_digits; lia.
Qed.

Lemma format_time_fields_witness :
  format_time (3600 * 1 + 60 * 2 + 5) = "1:02:05" /\
  format_time (3600 * 0 + 60 * 25 + 0) = "25:00".
Proof.
  split.
  - exact (proj1 (format_time_fields 1 2 5 ltac:(lia) ltac:(lia) ltac:(lia))).
  - exact (proj1 (format_time_fields 0 25 0 ltac:(lia) ltac:(lia) ltac:(lia))).
Defined.

End AggregateLaws.

(** ** More on the caching decorator *)
Module CacheLaws.
Import Cache.
Section Laws.
Context {Args R S : Type}.
Variable seconds : Z.
Variable str_key : Args -> string.
Variable func : Args -> S -> res R * S.

Local Abbreviation wrapper := (Cache.wrapper seconds str_key func).

(** X6. A call never evicts: the entries stored under other keys are left
    exactly as they were, and a key that held an entry still holds one
    afterwards; only [clear_cache] removes entries. *)
Theorem cache_never_evicts (args : Args) (now : Z) (w : wrapped) (k : string) :
  (k <> str_key args -> cache (wrapper args now w).2 !! k = cache w !! k) /\
  (is_Some (cache w !! k) -> is_Some (cache (wrapper args now w).2 !! k)).
Proof.
  unfold Cache.wrapper.
  destruct (cache_hit seconds (str_key args) now (cache w)) as [hit |]; cbn; [tauto |].
  destruct (func args (inner w)) as [[e | result] s']; cbn; [tauto |].
  split.
  - intros Hk. now apply lookup_insert_ne.
  - intros Hsome. apply lookup_insert_is_Some'. now right.
Qed.

End Laws.

Lemma cache_never_evicts_witness :
  cache (CacheDemo.demo_wrapper "EDDF" 5000 CacheDemo.w1).2 !! CacheDemo.demo_key "EDLP"
    = Some (0, 1000) /\
  is_Some (cache (CacheDemo.demo_wrapper "EDLP" 5000 CacheDemo.w1).2
             !! CacheDemo.demo_key "EDLP").
Proof.
  unfold CacheDemo.demo_wrapper. split.
  - rewrite (proj1 (cache_never_evicts 300 CacheDemo.demo_key CacheDemo.demo_func
                      "EDDF" 5000 CacheDemo.w1 (CacheDemo.demo_key "EDLP")));
      [vm_compute; reflexivity | vm_compute; discriminate].
  - apply (proj2 (cache_never_evicts 300 CacheDemo.demo_key CacheDemo.demo_func
                    "EDLP" 5000 CacheDemo.w1 (CacheDemo.demo_key "EDLP"))).
    exists (0, 1000). vm_compute. reflexivity.
Defined.

End CacheLaws.

(** ** The requests of the activity fetch *)
Module FetchLaws.
Import Strava TraceObs.

Section Fetch.
Variable cfg : config.
Variable srv : server.

Local Abbreviation refresh := (refresh_strava_token cfg srv).
Local Abbreviation get_token := (get_strava_token cfg srv).
Local Abbreviation fetch := (fetch_strava_activities cfg srv).

Local Abbreviation refresh_events := (TraceObs.refresh_events cfg).

Lemma refresh_appends (w : world) :
  exists r evs, refresh w = (inr r, (refresh w).2) /\
                trace (refresh w).2 = trace w ++ evs /\ refresh_events evs.
Proof.
  destruct (TokenProps.refresh_shape cfg srv w) as (r & posts & Hr & Htr & Hposts).
  exists r, (Enter "refresh_strava_token" :: posts).
  split; [| split; [exact Htr | now exists posts]].
  destruct (refresh w) as [x w']. cbn in Hr. now subst x.
Qed.

Lemma get_token_cases (now : Z) (w : world) :
  get_token now w = refresh w \/
  (get_token now w = (inr (STRAVA_ACCESS_TOKEN w), w) /\
   truthy (STRAVA_ACCESS_TOKEN w) = true /\ now < STRAVA_TOKEN_EXPIRY w - 300).
Proof.
  destruct (truthy (STRAVA_ACCESS_TOKEN w)) eqn:Htok.
  - destruct (Z.le_gt_cases (STRAVA_TOKEN_EXPIRY w - 300) now) as [Hle | Hgt].
    + left. apply TokenProps.get_token_refresh. now right.
    + right. split; [apply TokenProps.get_token_stored; [exact Htok | lia] |].
      split; [reflexivity | lia].
  - left. apply TokenProps.get_token_refresh. now left.
Qed.

(** The fetch once its token is known. *)
Lemma fetch_with_token (now : Z) (w w1 : world) (tok : option string) :
  get_token now w = (inr tok, w1) ->
  truthy tok = true ->
  fetch now w =
    let w2 := sent (activities_request tok) w1 in
    match athlete_activities srv (trace w1) (activities_request tok) with
    | Raised => (inr None, w2)
    | Response st b =>
        if st =? 200 then (inr b, w2)
        else if st =? 401 then
          match refresh w2 with
          | (inr t, w3) =>
              if truthy t then
                (inr (activities_of
                        (athlete_activities srv (trace w3) (activities_request t))),
                 sent (activities_request t) w3)
              else (inr None, w3)
          | (inl _, w3) => (inr None, w3)
          end
        else (inr None, w2)
    end.
Proof.
  intros Hget Htok.
  destruct (athlete_activities srv (trace w1) (activities_request tok)) as [| st b] eqn:Hans.
  - unfold fetch_strava_activities. unfold Web.bind at 1. rewrite Hget, Htok. cbn [negb].
    unfold Web.try_except. unfold Web.bind at 1. unfold Web.exchange at 1.
    rewrite Hans. reflexivity.
  - destruct (Z.eqb_spec st 200) as [-> | H200].
    + unfold fetch_strava_activities. unfold Web.bind at 1. rewrite Hget, Htok. cbn [negb].
      unfold Web.try_except. unfold Web.bind at 1. unfold Web.exchange at 1.
      rewrite Hans. cbn. destruct b; reflexivity.
    + destruct (Z.eqb_spec st 401) as [-> | H401].
      * now rewrite (TokenProps.fetch_after_401 cfg srv now w w1 tok b Hget Htok Hans).
      * unfold fetch_strava_activities. unfold Web.bind at 1. rewrite Hget, Htok. cbn [negb].
        unfold Web.try_except. unfold Web.bind at 1. unfold Web.exchange at 1.
        rewrite Hans. cbn.
        rewrite (proj2 (Z.eqb_neq st 200) H200), (proj2 (Z.eqb_neq st 401) H401).
        reflexivity.
Qed.

(** The events one fetch appends to the trace: first those of obtaining
    the token ([pre]), then those of the GET, the refresh after a 401 and
    the retry ([mid]). *)
Lemma fetch_events (now : Z) (w : world) :
  exists pre mid,
    trace (fetch now w).2 = trace w ++ pre ++ mid /\
    (pre = [] \/ refresh_events pre) /\
    (mid = [] \/
     exists tok, truthy tok = true /\
       (mid = [Http (activities_request tok)] \/
        exists r, refresh_events r /\
          (mid = Http (activities_request tok) :: r \/
           exists t, truthy t = true /\
             mid = Http (activities_request tok) :: r ++ [Http (activities_request t)]))).
Proof.
  assert (Hget : exists tok w1 pre,
    get_token now w = (inr tok, w1) /\ trace w1 = trace w ++ pre /\
    (pre = [] \/ refresh_events pre)).
  { destruct (get_token_cases now w) as [-> | (-> & _ & _)].
    - destruct (refresh_appends w) as (r & evs & Hr & Htr & Hevs).
      exists r, (refresh w).2, evs. auto.
    - exists (STRAVA_ACCESS_TOKEN w), w, []. rewrite app_nil_r. auto. }
  destruct Hget as (tok & w1 & pre & Hget & Htr1 & Hpre).
  exists pre.
  destruct (truthy tok) eqn:Htok.
  2: { exists []. unfold fetch_strava_activities. unfold Web.bind at 1.
       rewrite Hget, Htok. cbn. rewrite app_nil_r. auto. }
  rewrite (fetch_with_token now w w1 tok Hget Htok). cbv zeta.
  assert (Hsent : forall t w0, trace (sent (activities_request t) w0)
                               = trace w0 ++ [Http (activities_request t)])
    by reflexivity.
  destruct (athlete_activities srv (trace w1) (activities_request tok)) as [| st b].
  { exists [Http (activities_request tok)]. cbn [snd]. rewrite Hsent, Htr1, <- app_assoc.
    split; [reflexivity |]. split; [exact Hpre |]. right. exists tok. auto. }
  destruct (st =? 200).
  { exists [Http (activities_request tok)]. cbn [snd]. rewrite Hsent, Htr1, <- app_assoc.
    split; [reflexivity |]. split; [exact Hpre |]. right. exists tok. auto. }
  destruct (st =? 401).
  2: { exists [Http (activities_request tok)]. cbn [snd]. rewrite Hsent, Htr1, <- app_assoc.
       split; [reflexivity |]. split; [exact Hpre |]. right. exists tok. auto. }
  destruct (refresh_appends (sent (activities_request tok) w1)) as (t & r & Hr & Htr & Hevs).
  rewrite Hr. rewrite Hsent, Htr1 in Htr.
  destruct (truthy t) eqn:Ht.
  - exists (Http (activities_request tok) :: r ++ [Http (activities_request t)]).
    cbn [snd]. rewrite Hsent, Htr. split.
    + rewrite <- !app_assoc. reflexivity.
    + split; [exact Hpre |]. right. exists tok. split; [exact Htok |]. right.
      exists r. split; [exact Hevs |]. right. exists t. auto.
  - exists (Http (activities_request tok) :: r). cbn [snd]. rewrite Htr. split.
    + rewrite <- !app_assoc. reflexivity.
    + split; [exact Hpre |]. right. exists tok. split; [exact Htok |]. right.
      exists r. split; [exact Hevs |]. now left.
Qed.


(** X8. One fetch of the activity list never loops: it calls
    [refresh_strava_token] at most twice (once for an expired token,
    once after a 401), posts to the token endpoint at most twice and
    sends at most two GETs (the call and one retry). *)
Theorem fetch_requests_bounded (now : Z) (w : world) :
  exists evs,
    trace (fetch now w).2 = trace w ++ evs /\
    (length (List.filter is_refresh evs) <= 2)%nat /\
    (length (List.filter is_token_post evs) <= 2)%nat /\
    (length (List.filter is_activities_get evs) <= 2)%nat.
Proof.
  destruct (fetch_events now w) as (pre & mid & Htr & Hpre & Hmid).
  exists (pre ++ mid). split; [exact Htr |].
  rewrite !List.filter_app, !length_app.
  assert (Hr : forall r, refresh_events r ->
            length (List.filter is_refresh r) = 1%nat /\
            (length (List.filter is_token_post r) <= 1)%nat /\
            length (List.filter is_activities_get r) = 0%nat).
  { intros r (posts & -> & [-> | ->]); cbn; lia. }
  assert (Hg : forall t,
            List.filter is_refresh [Http (activities_request t)] = [] /\
            List.filter is_token_post [Http (activities_request t)] = [] /\
            length (List.filter is_activities_get [Http (activities_request t)]) = 1%nat).
  { intros t. cbn. auto. }
  assert (Hp : (length (List.filter is_refresh pre) <= 1)%nat /\
               (length (List.filter is_token_post pre) <= 1)%nat /\
               length (List.filter is_activities_get pre) = 0%nat).
  { destruct Hpre as [-> | Hpre]; [cbn; lia |]. destruct (Hr pre Hpre) as (? & ? & ?). lia. }
  destruct Hp as (Hp1 & Hp2 & Hp3).
  destruct Hmid as [-> | (tok & Htok & [-> | (r & Hrev & [-> | (t & Ht & ->)])])].
  - cbn. lia.
  - cbn. lia.
  - destruct (Hr r Hrev) as (H1 & H2 & H3).
    change (Http (activities_request tok) :: r) with ([Http (activities_request tok)] ++ r).
    rewrite !List.filter_app, !length_app.
    destruct (Hg tok) as (-> & -> & ->). cbn [length]. lia.
  - destruct (Hr r Hrev) as (H1 & H2 & H3).
    change (Http (activities_request tok) :: r ++ [Http (activities_request t)])
      with ([Http (activities_request tok)] ++ r ++ [Http (activities_request t)]).
    rewrite !List.filter_app, !length_app.
    destruct (Hg tok) as (-> & -> & ->). destruct (Hg t) as (-> & -> & ->).
    cbn [length]. lia.
Qed.

Lemma request_authorised (tok : option string) :
  truthy tok = true -> authorised (Http (activities_request tok)).
Proof.
  intros Htok _. destruct tok as [s |]; [| discriminate]. now exists s.
Qed.

Lemma refresh_events_authorised (r : list event) :
  refresh_events r -> Forall authorised r.
Proof.
  intros (posts & -> & [-> | ->]); repeat constructor; intros [=].
Qed.

(** X9. Every GET a fetch sends to the activity endpoint carries a usable
    bearer token: the endpoint is never called with [Bearer None] or an
    empty token. *)
Theorem fetch_always_authorised (now : Z) (w : world) :
  exists evs,
    trace (fetch now w).2 = trace w ++ evs /\ Forall authorised evs.
Proof.
  destruct (fetch_events now w) as (pre & mid & Htr & Hpre & Hmid).
  exists (pre ++ mid). split; [exact Htr |].
  apply Forall_app. split.
  - destruct Hpre as [-> | Hpre]; [constructor | now apply refresh_events_authorised].
  - destruct Hmid as [-> | (tok & Htok & [-> | (r & Hrev & [-> | (t & Ht & ->)])])].
    + constructor.
    + constructor; [now apply request_authorised | constructor].
    + constructor; [now apply request_authorised | now apply refresh_events_authorised].
    + constructor; [now apply request_authorised |].
      apply Forall_app. split; [now apply refresh_events_authorised |].
      constructor; [now apply request_authorised | constructor].
Qed.

(** The two ways a fetch succeeds at once.  With a stored token that is
    still valid and a 200 answer, the list is returned after exactly one
    GET and nothing else changes.  When a refresh is due and the token
    endpoint issues a usable token with its expiry, the token is stored
    first and the GET that follows carries the new token. *)
Lemma fetch_success_paths (now : Z) (w : world) (activities : list activity) :
  (truthy (STRAVA_ACCESS_TOKEN w) = true ->
   now < STRAVA_TOKEN_EXPIRY w - 300 ->
   athlete_activities srv (trace w) (activities_request (STRAVA_ACCESS_TOKEN w))
     = Response 200 (Some activities) ->
   fetch now w =
     (inr (Some activities), sent (activities_request (STRAVA_ACCESS_TOKEN w)) w)) /\
  (forall tok expiry,
   truthy (STRAVA_ACCESS_TOKEN w) = false \/ STRAVA_TOKEN_EXPIRY w - 300 <= now ->
   STRAVA_REFRESH_TOKEN cfg <> "" ->
   truthy (Some tok) = true ->
   token_answer cfg srv w =
     Response 200 (Some {| access_token := Some tok; expires_at := Some expiry |}) ->
   athlete_activities srv (trace (refresh w).2) (activities_request (Some tok))
     = Response 200 (Some activities) ->
   fetch now w =
     (inr (Some activities),
      {| STRAVA_ACCESS_TOKEN := Some tok; STRAVA_TOKEN_EXPIRY := expiry;
         trace := trace w ++ [Enter "refresh_strava_token";
                              Http (POST token_url (token_form cfg));
                              Http (activities_request (Some tok))] |})).
Proof.
  split.
  - intros Htok Hvalid Hans.
    rewrite (fetch_with_token now w w (STRAVA_ACCESS_TOKEN w)
               (TokenProps.get_token_stored cfg srv now w Htok Hvalid) Htok).
    cbv zeta. rewrite Hans. reflexivity.
  - intros tok expiry Hdue Hcfg Htok Htoken Hans.
    assert (Href : refresh w =
              (inr (Some tok),
               {| STRAVA_ACCESS_TOKEN := Some tok; STRAVA_TOKEN_EXPIRY := expiry;
                  trace := trace w ++ [Enter "refresh_strava_token";
                                       Http (POST token_url (token_form cfg))] |})).
    { unfold token_answer in Htoken. TokenProps.run_web.
      destruct (STRAVA_REFRESH_TOKEN cfg) as [| c s]; [congruence |]. cbn.
      rewrite Htoken. cbn. rewrite <- app_assoc. reflexivity. }
    rewrite Href in Hans. cbn [snd trace] in Hans.
    assert (Hget : get_token now w = refresh w)
      by now apply TokenProps.get_token_refresh.
    rewrite Href in Hget.
    rewrite (fetch_with_token now w _ (Some tok) Hget Htok).
    cbv zeta. cbn [trace]. rewrite Hans. cbn. rewrite <- app_assoc. reflexivity.
Qed.

End Fetch.

Lemma fetch_success_paths_witness :
  fetch_strava_activities StravaDemo.demo_cfg StravaDemo.demo_srv 1000 StravaDemo.w_old
    = (inr (Some [StravaDemo.demo_run]),
       {| STRAVA_ACCESS_TOKEN := Some "new"; STRAVA_TOKEN_EXPIRY := 9999;
          trace := [Enter "refresh_strava_token";
                    Http (POST token_url (token_form StravaDemo.demo_cfg));
                    Http (activities_request (Some "new"))] |}).
Proof.
  apply (proj2 (fetch_success_paths StravaDemo.demo_cfg StravaDemo.demo_srv 1000
                  StravaDemo.w_old [StravaDemo.demo_run]) "new" 9999).
  - right. cbn. lia.
  - discriminate.
  - reflexivity.
  - reflexivity.
  - reflexivity.
Defined.

End FetchLaws.

(** ** Caching of a failed activity fetch *)
Module ApiLaws.
Import Strava Api.

Section Endpoints.
Variable cfg : config.

(** X7. A failed fetch is cached like any other result: once a call that
    went through has returned [None], every call made less than 1800 s
    later returns [None] from the cache without contacting Strava,
    whatever the servers would answer by then, and both endpoints keep
    answering their error objects. *)
Theorem failed_fetch_is_cached (srv srv' : server) (clk : clock)
    (t1 t2 ct1 ct2 : Z) (c : activities_cache) :
  Cache.cache_hit 1800 "(){}" t1 (Cache.cache c) = None ->
  (cached_fetch_strava_activities cfg srv t1 ct1 c).1 = inr None ->
  t2 - t1 < 1800 ->
  let c1 := (cached_fetch_strava_activities cfg srv t1 ct1 c).2 in
  cached_fetch_strava_activities cfg srv' t2 ct2 c1 = (inr None, c1) /\
  api_strava cfg srv' clk t2 ct2 c1 =
    (inr [("error", JStr "No Strava data available"); ("display_stat", JStr "--");
          ("display_label", JStr "Keine Daten"); ("streak", JInt 0)], c1) /\
  api_strava_detailed cfg srv' clk t2 ct2 c1 =
    (inr [("error", JStr "No Strava data available")], c1).
Proof.
  intros Hmiss Hnone Hlt c1.
  assert (Hin : Cache.cache c1 !! "(){}" = Some (None, t1)).
  { subst c1. unfold cached_fetch_strava_activities, Cache.wrapper in *.
    rewrite Hmiss in *.
    destruct (fetch_strava_activities cfg srv ct1 (Cache.inner c)) as [[e | r] w'];
      cbn in *; [discriminate |].
    injection Hnone as ->. apply lookup_insert_eq. }
  assert (Hhit : cached_fetch_strava_activities cfg srv' t2 ct2 c1 = (inr None, c1)).
  { unfold cached_fetch_strava_activities.
    apply CacheProps.wrapper_hit. now apply CacheProps.cache_hit_fresh with t1. }
  split; [exact Hhit |].
  unfold api_strava, api_strava_detailed. rewrite Hhit. split; reflexivity.
Qed.

End Endpoints.

Lemma failed_fetch_is_cached_witness :
  let c1 := (cached_fetch_strava_activities StravaDemo.demo_cfg StravaDemo.down_srv
               1000 1000 (Cache.decorate startup)).2 in
  cached_fetch_strava_activities StravaDemo.demo_cfg StravaDemo.demo_srv 2799 2799 c1
    = (inr None, c1).
Proof.
  intros c1.
  apply (failed_fetch_is_cached StravaDemo.demo_cfg StravaDemo.down_srv StravaDemo.demo_srv
           AggregateDemo.demo_clock 1000 2799 1000 2799 (Cache.decorate startup));
    [reflexivity | reflexivity | lia].
Defined.

End ApiLaws.

(** ** Splitting text *)
Module SplitLaws.

Lemma split_from_nonempty (sep : string) (s : string) :
  forall skip cur, split_from sep skip cur s <> [].
Proof.
  induction s as [| c rest IH]; intros skip cur; cbn [split_from]; [discriminate |].
  destruct skip as [| k]; [| apply IH].
  destruct (String.prefix sep (String c rest)); [discriminate | apply IH].
Qed.

Lemma contains_two_pieces (sep : string) (s : string) :
  sep <> "" ->
  forall cur, contains sep s = true -> (2 <= length (split_from sep 0 cur s))%nat.
Proof.
  intros Hsep. induction s as [| c rest IH]; intros cur; cbn [contains split_from].
  - destruct sep; [congruence | discriminate].
  - destruct (String.prefix sep (String c rest)) eqn:Hpre; cbn [orb].
    + intros _. cbn [length].
      pose proof (split_from_nonempty sep rest (String.length sep - 1) EmptyString) as Hne.
      destruct (split_from sep (String.length sep - 1) "" rest); [congruence | cbn; lia].
    + apply IH.
Qed.

End SplitLaws.

(** ** The embed URL of a video *)
Module EmbedLaws.
Import Fetchers.

(** X18. On text, the rewriting of a video URL never raises: the index [1]
    taken after splitting at ["v="] is guarded by the test that ["v="]
    occurs.  The result is the URL itself or the embed URL of a
    non-empty video id, the latter only for a watch URL with a ["v="]. *)
Theorem embeddable_total (s : string) :
  embeddable (JStr s) = inr (JStr s) \/
  exists video_id,
    video_id <> "" /\
    contains "youtube.com/watch" s = true /\ contains "v=" s = true /\
    embeddable (JStr s) = inr (JStr ("https://www.youtube.com/embed/" +:+ video_id)).
Proof.
  unfold embeddable, video_id_of, str_split, py_in. cbn [rbind].
  destruct (contains "youtube.com/watch" s) eqn:Hwatch; [| now left].
  destruct (contains "v=" s) eqn:Hv; cbn [rbind]; [| now left].
  unfold index, split.
  pose proof (SplitLaws.contains_two_pieces "v=" s ltac:(discriminate) EmptyString Hv) as Hlen.
  destruct (split_from "v=" 0 "" s) as [| p0 [| after more]]; cbn in Hlen; [lia | lia |].
  cbn [nth_error rbind].
  pose proof (SplitLaws.split_from_nonempty "&" after 0 EmptyString) as Hne.
  destruct (split_from "&" 0 "" after) as [| video_id pieces]; [congruence |].
  cbn [nth_error rbind].
  destruct (String.eqb_spec video_id "") as [-> | Hid]; [now left |].
  right. exists video_id. auto.
Qed.

Example embeddable_watch_url :
  embeddable (JStr "https://www.youtube.com/watch?v=abc123&t=5")
    = inr (JStr "https://www.youtube.com/embed/abc123").
Proof. vm_compute. reflexivity. Qed.

End EmbedLaws.

(** ** The requests of the source fetchers *)
Module TrafficLaws.
Import Fetchers Traffic.

Lemma quiet_ret {A} (a : A) : quiet (ret a).
Proof. intros w. reflexivity. Qed.

Lemma quiet_raise {A} (e : exn) : quiet (@raise A e).
Proof. intros w. reflexivity. Qed.

Lemma quiet_lift {A} (r : res A) : quiet (lift r).
Proof. intros w. reflexivity. Qed.

Lemma quiet_bind {A B} (c : M A) (k : A -> M B) :
  quiet c -> (forall a, quiet (k a)) -> quiet (bind c k).
Proof.
  intros Hc Hk w. unfold bind. specialize (Hc w).
  destruct (c w) as [[e | a] w']; cbn in *; subst w'; [reflexivity | apply Hk].
Qed.

Lemma quiet_try {A} (body : M A) (handler : exn -> M A) :
  quiet body -> (forall e, quiet (handler e)) -> quiet (try_except body handler).
Proof.
  intros Hb Hh w. unfold try_except. specialize (Hb w).
  destruct (body w) as [[e | a] w']; cbn in *; subst w'; [apply Hh | reflexivity].
Qed.

Ltac hush :=
  repeat first
    [ apply quiet_ret
    | apply quiet_raise
    | apply quiet_lift
    | apply quiet_bind; [| intros ?]
    | apply quiet_try; [| intros ?]
    | match goal with
      | |- quiet (if ?b then _ else _) => destruct b
      | |- quiet (match ?x with _ => _ end) => destruct x
      end ].

Lemma extend_nil (w : world) : extend w [] = w.
Proof. destruct w. unfold extend. cbn. now rewrite app_nil_r. Qed.

Lemma extend_extend (w : world) (evs evs' : list event) :
  extend (extend w evs) evs' = extend w (evs ++ evs').
Proof. unfold extend. cbn. now rewrite app_assoc. Qed.

Lemma sent_extend (rq : request) (w : world) : sent rq w = extend w [Http rq].
Proof. reflexivity. Qed.

Lemma exchange_world {A} (endpoint : list event -> request -> outcome A)
    (rq : request) (w : world) :
  (exchange endpoint rq w).2 = sent rq w.
Proof. unfold exchange. destruct (endpoint (trace w) rq); reflexivity. Qed.

Lemma appends_quiet {A} (c : M A) (P : list event -> Prop) :
  quiet c -> P [] -> appends c P.
Proof. intros Hc HP w. exists []. now rewrite extend_nil, Hc. Qed.

Lemma appends_bind_quiet {A B} (c : M A) (k : A -> M B) (P : list event -> Prop) :
  quiet c -> (forall a, appends (k a) P) -> P [] -> appends (bind c k) P.
Proof.
  intros Hc Hk HP w. unfold bind. specialize (Hc w).
  destruct (c w) as [[e | a] w']; cbn in *; subst w'.
  - exists []. now rewrite extend_nil.
  - apply Hk.
Qed.

Lemma appends_try {A} (body : M A) (handler : exn -> M A) (P : list event -> Prop) :
  appends body P -> (forall e, quiet (handler e)) -> appends (try_except body handler) P.
Proof.
  intros Hb Hh w. unfold try_except. destruct (Hb w) as (evs & Hw & HP).
  exists evs. split; [| exact HP].
  destruct (body w) as [[e | a] w']; cbn in *; subst w'; [apply Hh | reflexivity].
Qed.

(** A computation that starts with an exchange. *)
Lemma appends_exchange {A B} (endpoint : list event -> request -> outcome A)
    (rq : request) (k : response A -> M B) (P : list event -> Prop) :
  (forall resp, appends (k resp) P) -> P [] ->
  appends (bind (exchange endpoint rq) k)
          (fun evs => exists more, evs = Http rq :: more /\ P more).
Proof.
  intros Hk HP w. unfold bind.
  pose proof (exchange_world endpoint rq w) as Hw.
  destruct (exchange endpoint rq w) as [[e | resp] w']; cbn [snd] in Hw; subst w'.
  - exists [Http rq]. split; [reflexivity | now exists []].
  - destruct (Hk resp (sent rq w)) as (more & Hmore & HPm).
    exists (Http rq :: more). split; [| now exists more].
    rewrite Hmore, sent_extend, extend_extend. reflexivity.
Qed.

Lemma appends_bind {A B} (c : M A) (k : A -> M B) (P Q : list event -> Prop) :
  appends c P -> (forall a, appends (k a) Q) -> Q [] ->
  appends (bind c k) (fun evs => exists e1 e2, evs = e1 ++ e2 /\ P e1 /\ Q e2).
Proof.
  intros Hc Hk HQ w. unfold bind. destruct (Hc w) as (e1 & Hw & HP).
  destruct (c w) as [[e | a] w']; cbn in Hw; subst w'.
  - exists e1. split; [reflexivity |]. exists e1, []. now rewrite app_nil_r.
  - destruct (Hk a (extend w e1)) as (e2 & Hw2 & HQ2).
    exists (e1 ++ e2). rewrite Hw2, extend_extend. split; [reflexivity |].
    now exists e1, e2.
Qed.

Lemma appends_weaken {A} (c : M A) (P Q : list event -> Prop) :
  appends c P -> (forall evs, P evs -> Q evs) -> appends c Q.
Proof.
  intros Hc HPQ w. destruct (Hc w) as (evs & Hw & HP). exists evs. auto.
Qed.

Section Requests.
Variable cfg : config.
Variable net : sources.
Variable strptime_path : string -> option string.
Variable py_str : json -> string.
Variable berlin_hh_mm : string -> option string.

Local Abbreviation fetch_metar := (Fetchers.fetch_metar cfg net).
Local Abbreviation fetch_taf := (Fetchers.fetch_taf cfg net).
Local Abbreviation sun_times := (Fetchers.calculate_sun_moon_times cfg net berlin_hh_mm).
Local Abbreviation fetch_nasa_epic := (Fetchers.fetch_nasa_epic cfg net strptime_path py_str).
Local Abbreviation fetch_nasa_apod := (Fetchers.fetch_nasa_apod cfg net).

(** A fetcher of the shape [try: resp = get(...); ... / except: ... /
    return fallback] whose code after the GET sends nothing. *)
Lemma guarded_get_world {B C} (url : string) (headers : list (string * string))
    (k : response json -> M B) (handler : exn -> M B) (finish : B -> M C) (w : world) :
  (forall resp, quiet (k resp)) -> (forall e, quiet (handler e)) ->
  (forall b, quiet (finish b)) ->
  (bind (try_except (bind (httpx_get net url headers) k) handler) finish w).2
    = sent (GET url headers []) w.
Proof.
  intros Hk Hh Hf.
  assert (Happ : appends (bind (try_except (bind (httpx_get net url headers) k) handler) finish)
                   (fun evs => exists e1 e2, evs = e1 ++ e2 /\
                      (exists more, e1 = Http (GET url headers []) :: more /\ more = []) /\
                      e2 = [])).
  { apply appends_bind; [| intros b; now apply appends_quiet | reflexivity].
    apply appends_try; [| exact Hh].
    unfold httpx_get. apply appends_exchange; [| reflexivity].
    intros resp. now apply appends_quiet. }
  destruct (Happ w) as (evs & Hw & e1 & e2 & -> & (more & -> & ->) & ->).
  exact Hw.
Qed.

Lemma fetch_metar_world (station : string) (w : world) :
  (fetch_metar station w).2 = sent (metar_request cfg station) w.
Proof.
  unfold Fetchers.fetch_metar, metar_request. apply guarded_get_world; intros; hush.
Qed.

Lemma fetch_taf_world (station : string) (w : world) :
  (fetch_taf station w).2 = sent (taf_request cfg station) w.
Proof.
  unfold Fetchers.fetch_taf, taf_request. apply guarded_get_world; intros; hush.
Qed.

(** X19. The weather report, the forecast and the sun times each cost
    exactly one request, whatever the answer: the world after the call
    is the world before it with the one GET appended; the stored token
    is not touched. *)
Theorem one_request_per_fetch (station : string) (w : world) :
  (fetch_metar station w).2 = sent (metar_request cfg station) w /\
  (fetch_taf station w).2 = sent (taf_request cfg station) w /\
  (sun_times w).2 = sent (sun_request cfg) w.
Proof.
  split; [apply fetch_metar_world | split; [apply fetch_taf_world |]].
  unfold Fetchers.calculate_sun_moon_times, sun_request.
  apply guarded_get_world; intros; hush.
Qed.

Lemma probes_nil (n : nat) : probes n [].
Proof. split; [constructor | cbn; lia]. Qed.

Lemma httpx_head_probes (url : json) : appends (httpx_head net url) (probes 1).
Proof.
  destruct url; try (apply appends_quiet; [apply quiet_raise | apply probes_nil]).
  intros w. cbn [httpx_head]. rewrite exchange_world, sent_extend.
  eexists. split; [reflexivity |]. split; [| cbn; lia].
  repeat constructor. now eexists.
Qed.

Lemma epic_candidate_probes (item : json) :
  appends (epic_candidate net strptime_path py_str item) (probes 1).
Proof.
  unfold epic_candidate. apply appends_try; [| intros; hush].
  repeat (apply appends_bind_quiet; [solve [hush] | intros ? | apply probes_nil]).
  eapply appends_weaken.
  - apply appends_bind with (Q := fun evs => evs = []);
      [apply httpx_head_probes | | reflexivity].
    intros test. apply appends_quiet; [hush | reflexivity].
  - intros evs (e1 & e2 & -> & H1 & ->). now rewrite app_nil_r.
Qed.

Lemma epic_candidates_probes (items : list json) :
  appends (epic_candidates net strptime_path py_str items) (probes (length items)).
Proof.
  induction items as [| item rest IH]; cbn [epic_candidates length].
  - apply appends_quiet; [hush | apply probes_nil].
  - eapply appends_weaken.
    + apply appends_bind with (Q := probes (length rest));
        [apply epic_candidate_probes | | apply probes_nil].
      intros [record |]; [apply appends_quiet; [hush | apply probes_nil] | exact IH].
    + intros evs (e1 & e2 & -> & (H1 & L1) & (H2 & L2)). split.
      * now apply Forall_app.
      * rewrite length_app. lia.
Qed.

Lemma slice_items_length (v : json) (n : nat) (items : list json) :
  slice_items v n = inr items -> (length items <= n)%nat.
Proof.
  destruct v; cbn; try discriminate; intros [= <-].
  - rewrite length_map. apply firstn_le_length.
  - apply firstn_le_length.
Qed.

(** X20. The earth-image fetcher sends its one GET and then probes at most
    three candidate images with HEAD, however long the list the API
    returns; nothing else is sent and the stored token is not touched. *)
Theorem epic_probes_at_most_three (w : world) :
  exists found,
    (fetch_nasa_epic w).2 = extend w (Http (epic_request cfg) :: found) /\
    Forall is_probe found /\ (length found <= 3)%nat.
Proof.
  assert (Happ : appends fetch_nasa_epic
            (fun evs => exists e1 e2, evs = e1 ++ e2 /\
               (exists more, e1 = Http (epic_request cfg) :: more /\ probes 3 more) /\
               e2 = [])).
  { unfold Fetchers.fetch_nasa_epic.
    apply appends_bind; [| intros b; apply appends_quiet; [hush | reflexivity] | reflexivity].
    apply appends_try; [| intros; hush].
    unfold httpx_get, epic_request. apply appends_exchange; [| apply probes_nil].
    intros resp. destruct (status_code resp =? 200);
      [| apply appends_quiet; [hush | apply probes_nil]].
    apply appends_bind_quiet; [hush | intros data | apply probes_nil].
    apply appends_bind_quiet; [hush | intros some | apply probes_nil].
    destruct some; [| apply appends_quiet; [hush | apply probes_nil]].
    intros w0. unfold bind, lift.
    destruct (slice_items data 3) as [e | items] eqn:Hslice.
    - exists []. rewrite extend_nil. split; [reflexivity | apply probes_nil].
    - destruct (epic_candidates_probes items w0) as (evs & Hw & Hall & Hlen).
      exists evs. split; [exact Hw |]. split; [exact Hall |].
      pose proof (slice_items_length data 3 items Hslice). lia. }
  destruct (Happ w) as (evs & Hw & e1 & e2 & -> & (more & -> & Hall & Hlen) & ->).
  exists more. rewrite app_nil_r in Hw. auto.
Qed.


(** X21. The daily-image fetcher sends its GET, then at most one HEAD probe
    of today's image, then at most the one GET for yesterday's picture:
    never more than three requests, and the stored token is not
    touched. *)
Theorem apod_requests_at_most_three (yesterday : string) (w : world) :
  exists probe second,
    (fetch_nasa_apod yesterday w).2
      = extend w (Http (apod_request cfg) :: probe ++ second) /\
    probes 1 probe /\
    (second = [] \/ second = [Http (apod_yesterday_request cfg yesterday)]).
Proof.
  assert (Htoday : appends (try_except (apod_today cfg net) (fun _ => ret None))
            (fun evs => exists more, evs = Http (apod_request cfg) :: more /\ probes 1 more)).
  { apply appends_try; [| intros; hush].
    unfold apod_today, httpx_get, apod_request. apply appends_exchange; [| apply probes_nil].
    intros resp. destruct (status_code resp =? 200);
      [| apply appends_quiet; [hush | apply probes_nil]].
    apply appends_bind_quiet; [hush | intros data | apply probes_nil].
    apply appends_bind_quiet; [hush | intros media_type | apply probes_nil].
    destruct (eq_str media_type "video"); [apply appends_quiet; [hush | apply probes_nil] |].
    apply appends_bind_quiet; [hush | intros image_url | apply probes_nil].
    apply appends_try; [| intros; hush].
    eapply appends_weaken.
    - apply appends_bind with (Q := fun evs => evs = []);
        [apply httpx_head_probes | | reflexivity].
      intros test. apply appends_quiet; [hush | reflexivity].
    - intros evs (e1 & e2 & -> & H1 & ->). now rewrite app_nil_r. }
  assert (Hyesterday : appends
            (bind (try_except (apod_yesterday cfg net yesterday) (fun _ => ret None))
                  (fun yesterday_record => ret (from_option id (apod_fallback) yesterday_record)))
            (fun evs => evs = [] \/ evs = [Http (apod_yesterday_request cfg yesterday)])).
  { intros w0. exists [Http (apod_yesterday_request cfg yesterday)].
    split; [| now right]. unfold apod_yesterday, apod_yesterday_request.
    rewrite guarded_get_world; [reflexivity | | |]; intros; hush. }
  assert (Hall : appends (fetch_nasa_apod yesterday)
            (fun evs => exists e1 e2, evs = e1 ++ e2 /\
               (exists more, e1 = Http (apod_request cfg) :: more /\ probes 1 more) /\
               (e2 = [] \/ e2 = [Http (apod_yesterday_request cfg yesterday)]))).
  { unfold Fetchers.fetch_nasa_apod. apply appends_bind; [exact Htoday | | now left].
    intros [record |]; [apply appends_quiet; [hush | now left] | exact Hyesterday]. }
  destruct (Hall w) as (evs & Hw & e1 & e2 & -> & (more & -> & Hmore) & He2).
  exists more, e2. auto.
Qed.

Lemma length_app (a b : string) :
  String.length (a +:+ b) = (String.length a + String.length b)%nat.
Proof.
  induction a as [| c a IH]; [reflexivity |].
  change (String.length (String c (a +:+ b))
          = (Datatypes.S (String.length a) + String.length b)%nat).
  cbn [String.length]. now rewrite IH.
Qed.

Lemma length_substring_le (n : nat) (s : string) :
  (String.length (String.substring 0 n s) <= n)%nat.
Proof.
  revert s. induction n as [| n IH]; intros [| c s]; cbn; try lia.
  specialize (IH s). lia.
Qed.

Lemma slice_plus_length (v : json) (n : nat) :
  yields (lift (slice_plus v n "...")) (fun text => (String.length text <= n + 3)%nat).
Proof.
  intros w text w'. unfold lift. destruct v; cbn; try discriminate.
  intros [= <- _]. rewrite length_app. pose proof (length_substring_le n s). cbn. lia.
Qed.

(** A returned record, if any, has an explanation within [n]. *)
Local Abbreviation cut n :=
  (fun returned : option pydict =>
     forall record, returned = Some record -> explanation_within n record).

Lemma cut_None n : cut n None.
Proof. intros record. discriminate. Qed.

Ltac walk :=
  first
    [ apply FetcherProps.yields_ret; first [apply cut_None | idtac]
    | apply FetcherProps.yields_raise
    | apply FetcherProps.yields_try; [| intros ?]
    | match goal with
      | |- yields (bind (lift (slice_plus _ _ _)) _) _ =>
          eapply FetcherProps.yields_bind; [apply slice_plus_length | intros ? ?]
      end
    | eapply FetcherProps.yields_bind; [apply FetcherProps.yields_any | intros ? _]
    | match goal with
      | |- yields (if ?b then _ else _) _ => destruct b
      | |- yields (match ?x with _ => _ end) _ => destruct x
      end ].

Lemma apod_today_cut :
  yields (try_except (apod_today cfg net) (fun _ => ret None)) (cut 153).
Proof.
  unfold apod_today. repeat walk;
    (intros record [= <-]; eexists; split; [reflexivity | assumption]).
Qed.

Lemma apod_yesterday_cut yesterday :
  yields (try_except (apod_yesterday cfg net yesterday) (fun _ => ret None)) (cut 153).
Proof.
  unfold apod_yesterday. repeat walk;
    (intros record [= <-]; eexists; split; [reflexivity |]).
  rewrite length_app. cbn [String.length]. cbv beta in *. lia.
Qed.


End Requests.
End TrafficLaws.

(** ** The dinosaur of the day *)
Module DinoLaws.
Import Dino.

Section Laws.
Variable DINO_FACTS : list pydict.
Variable lower : string -> string.

Local Abbreviation get_daily_dino := (Dino.get_daily_dino DINO_FACTS).
Local Abbreviation get_dino_details := (Dino.get_dino_details DINO_FACTS lower).

Lemma getitem_int_in_range {A} (l : list A) (i : Z) (x : A) :
  nth_error l (Z.to_nat i) = Some x -> 0 <= i ->
  getitem_int l i = inr x.
Proof.
  intros Hnth Hi. unfold getitem_int.
  assert (Hlt : (Z.to_nat i < length l)%nat) by (apply nth_error_Some; congruence).
  destruct (Z.ltb_spec i 0); [lia |].
  destruct (Z.leb_spec 0 i); [| lia].
  destruct (Z.ltb_spec i (Z.of_nat (length l))); [| lia].
  cbn. now rewrite Hnth.
Qed.

Lemma daily_dino_at (ordinal : Z) :
  DINO_FACTS <> [] -> all_named DINO_FACTS ->
  exists dino,
    nth_error DINO_FACTS (Z.to_nat (ordinal mod Z.of_nat (length DINO_FACTS))) = Some dino /\
    get_daily_dino ordinal = inr dino.
Proof.
  intros Hne Hall. unfold Dino.get_daily_dino, py_mod.
  destruct DINO_FACTS as [| d0 rest] eqn:Hfacts; [congruence |].
  rewrite <- Hfacts in *. clear Hne.
  assert (Hlen : 0 < Z.of_nat (length DINO_FACTS)) by (rewrite Hfacts; cbn; lia).
  destruct (Z.eqb_spec (Z.of_nat (length DINO_FACTS)) 0); [lia |]. cbn [rbind].
  pose proof (Z.mod_pos_bound ordinal _ Hlen) as Hb.
  destruct (nth_error DINO_FACTS (Z.to_nat (ordinal mod Z.of_nat (length DINO_FACTS))))
    as [dino |] eqn:Hnth.
  2: { apply nth_error_None in Hnth. lia. }
  exists dino. split; [reflexivity |].
  rewrite (getitem_int_in_range _ _ dino Hnth) by lia. cbn [rbind].
  unfold all_named in Hall. rewrite List.Forall_forall in Hall.
  destruct (Hall dino (nth_error_In _ _ Hnth)) as (name & Hname).
  unfold getitem_str. unfold named in Hname. now rewrite Hname.
Qed.


Lemma find_dino_spec (q : string) (facts : list pydict) :
  all_named facts ->
  (exists before dino after name,
     facts = before ++ dino :: after /\
     named dino name /\ lower name = lower q /\
     Forall (fun d => forall n, named d n -> lower n <> lower q) before /\
     find_dino lower q facts = inr dino) \/
  (Forall (fun d => forall n, named d n -> lower n <> lower q) facts /\
   find_dino lower q facts = inr dino_not_found).
Proof.
  unfold all_named. induction 1 as [| d rest (name & Hname) Hrest IH]; cbn [find_dino].
  - right. split; [constructor | reflexivity].
  - unfold getitem_str. unfold named in Hname. rewrite Hname. cbn [rbind str_lower].
    destruct (String.eqb_spec (lower name) (lower q)) as [Heq | Hne].
    + left. exists [], d, rest, name. repeat split; auto.
    + assert (Hd : forall n, named d n -> lower n <> lower q).
      { intros n Hn. unfold named in Hn. congruence. }
      destruct IH as [(before & dino & after & nm & -> & Hnm & Hlow & Hbefore & Hfind)
                     | (Hnone & Hfind)].
      * left. exists (d :: before), dino, after, nm. repeat split; auto.
      * right. split; [now constructor | exact Hfind].
Qed.

(** X24. Looking a dinosaur up by name, in a list of named entries: the
    answer is the first entry whose name equals the query up to letter
    case, and the "not found" object exactly when no entry matches; in
    particular every entry is found under its own name, in any letter
    case, unless an earlier entry bears the same name. *)
Theorem dino_lookup_first_match (q : string) :
  all_named DINO_FACTS ->
  ((exists before dino after name,
      DINO_FACTS = before ++ dino :: after /\
      named dino name /\ lower name = lower q /\
      Forall (fun d => forall n, named d n -> lower n <> lower q) before /\
      get_dino_details q = inr dino) \/
   (Forall (fun d => forall n, named d n -> lower n <> lower q) DINO_FACTS /\
    get_dino_details q = inr dino_not_found)) /\
  (forall dino name, In dino DINO_FACTS -> named dino name -> lower q = lower name ->
     exists found name',
       get_dino_details q = inr found /\ In found DINO_FACTS /\
       named found name' /\ lower name' = lower name).
Proof.
  intros Hall. pose proof (find_dino_spec q DINO_FACTS Hall) as Hspec.
  split; [exact Hspec |].
  intros dino name Hin Hname Hq.
  destruct Hspec as [(before & found & after & nm & Hfacts & Hnm & Hlow & _ & Hfind)
                    | (Hnone & _)].
  - exists found, nm. split; [exact Hfind |]. split.
    + rewrite Hfacts. apply in_or_app. right. now left.
    + split; [exact Hnm | congruence].
  - exfalso. rewrite List.Forall_forall in Hnone.
    apply (Hnone dino Hin name Hname). congruence.
Qed.

(** An entry without a name makes the lookup raise [KeyError] as soon
    as the loop reaches it: entries after it cannot be found. *)
Lemma dino_lookup_stops_at_nameless (q : string) (before after : list pydict)
    (bad : pydict) :
  DINO_FACTS = before ++ bad :: after ->
  lookup_key "name" bad = None ->
  Forall (fun d => exists n, named d n /\ lower n <> lower q) before ->
  get_dino_details q = inl KeyError.
Proof.
  intros -> Hbad Hbefore. unfold Dino.get_dino_details.
  induction Hbefore as [| d rest (n & Hn & Hne) Hrest IH]; cbn [app find_dino].
  - unfold getitem_str. now rewrite Hbad.
  - unfold getitem_str. unfold named in Hn. rewrite Hn. cbn [rbind str_lower].
    destruct (String.eqb_spec (lower n) (lower q)); [contradiction | exact IH].
Qed.

End Laws.

Lemma demo_all_named : all_named DinoDemo.demo_facts.
Proof.
  repeat constructor; eexists; reflexivity.
Qed.


Lemma dino_lookup_first_match_witness :
  exists found name',
    get_dino_details DinoDemo.demo_facts DinoDemo.ascii_lower "TRICERATOPS" = inr found /\
    In found DinoDemo.demo_facts /\
    named found name' /\
    DinoDemo.ascii_lower name' = DinoDemo.ascii_lower "Triceratops".
Proof.
  apply (proj2 (dino_lookup_first_match DinoDemo.demo_facts DinoDemo.ascii_lower
                  "TRICERATOPS" demo_all_named) DinoDemo.trike "Triceratops").
  - cbn. tauto.
  - reflexivity.
  - vm_compute. reflexivity.
Defined.

Lemma dino_lookup_stops_at_nameless_witness :
  get_dino_details [DinoDemo.rex; DinoDemo.nameless; DinoDemo.steg] DinoDemo.ascii_lower
    "Stegosaurus" = inl KeyError.
Proof.
  apply (dino_lookup_stops_at_nameless _ DinoDemo.ascii_lower "Stegosaurus"
           [DinoDemo.rex] [DinoDemo.steg] DinoDemo.nameless).
  - reflexivity.
  - reflexivity.
  - repeat constructor. exists "Tyrannosaurus". split; [reflexivity | vm_compute; discriminate].
Defined.

End DinoLaws.

(** ** The settings and the routes *)
Module AppLaws.
Import App.

Lemma settings_get_set (key value default : string) (d : list (string * string)) :
  settings_get key default (settings_set key value d) = value.
Proof.
  induction d as [| [k v] rest IH]; cbn.
  - now rewrite String.eqb_refl.
  - destruct (String.eqb k key) eqn:Hk; cbn; rewrite Hk; [reflexivity | exact IH].
Qed.

Lemma settings_get_set_other (key other value default : string)
    (d : list (string * string)) :
  other <> key ->
  settings_get other default (settings_set key value d) = settings_get other default d.
Proof.
  intros Hne. induction d as [| [k v] rest IH]; cbn.
  - destruct (String.eqb_spec key other); [congruence | reflexivity].
  - destruct (String.eqb_spec k key) as [-> | Hk]; cbn.
    + destruct (String.eqb_spec key other); [congruence | reflexivity].
    + destruct (String.eqb k other); [reflexivity | exact IH].
Qed.

Section Through.
Context {Args R : Type}.
Variable seconds : Z.
Variable str_key : Args -> string.
Variable func : Args -> M R.

Lemma through_miss (args : Args) (now : Z) (m : memo R) (w : world) :
  Cache.cache_hit seconds (str_key args) now (entries m) = None ->
  through seconds str_key func args now m w =
    match func args w with
    | (inr result, w') =>
        (inr result,
         ({| entries := <[str_key args := (result, now)]> (entries m);
             runs := Datatypes.S (runs m) |}, w'))
    | (inl e, w') =>
        (inl e, ({| entries := entries m; runs := Datatypes.S (runs m) |}, w'))
    end.
Proof.
  intros Hmiss. unfold through, Cache.wrapper. cbn. rewrite Hmiss.
  destruct (func args w) as [[e | result] w']; reflexivity.
Qed.

Lemma through_hit (args : Args) (now : Z) (m : memo R) (w : world) (result : R) :
  Cache.cache_hit seconds (str_key args) now (entries m) = Some result ->
  through seconds str_key func args now m w = (inr result, (m, w)).
Proof.
  intros Hhit. unfold through, Cache.wrapper. cbn. rewrite Hhit. cbn.
  destruct m. reflexivity.
Qed.

Lemma cleared_misses (key : string) (now : Z) (m : memo R) :
  Cache.cache_hit seconds key now (entries (cleared m)) = None.
Proof. unfold Cache.cache_hit. cbn. now rewrite lookup_empty. Qed.

End Through.

Section Routes.
Variable cfg : config.
Variable srv : server.
Variable src : Fetchers.sources.
Variable strptime_path : string -> option string.
Variable py_str : json -> string.
Variable berlin_hh_mm : string -> option string.
Variable py_repr : string -> string.
Variable strip_upper : string -> string.
Variable str_exn : exn -> string.
Variable DINO_FACTS : list pydict.

Local Abbreviation api_settings := (App.api_settings strip_upper str_exn).
Local Abbreviation posted_airport := (App.posted_airport strip_upper).
Local Abbreviation api_taf := (App.api_taf cfg src py_repr).

(** X25. A POST with a four-character code, when the settings file can be
    written: the answer is the success object; the new code is in
    [APP_SETTINGS] and in the file; the caches of the weather report
    and of the forecast are empty; nothing else has changed; and the
    next [/api/taf] request goes to the network for the new airport,
    whatever the clock says. *)
Theorem settings_post_saved (body : option json) (code : string) (st : state)
    (time_now : Z) :
  posted_airport body = inr code -> String.length code = 4%nat ->
  disk st = Written ->
  let out := api_settings true body st in
  out.1 = (JObj [("success", JBool true); ("airport_icao", JStr code)], 200) /\
  APP_SETTINGS out.2 = settings_set "airport_icao" code (APP_SETTINGS st) /\
  settings_get "airport_icao" "EDLP" (APP_SETTINGS out.2) = code /\
  settings_file out.2 = Holds (APP_SETTINGS out.2) /\
  entries (metar_memo out.2) = ∅ /\ entries (taf_memo out.2) = ∅ /\
  (web out.2, apod_memo out.2, epic_memo out.2, sun_memo out.2, strava_memo out.2)
    = (web st, apod_memo st, epic_memo st, sun_memo st, strava_memo st) /\
  web (api_taf time_now out.2).2 = sent (Fetchers.taf_request cfg code) (web st) /\
  runs (taf_memo (api_taf time_now out.2).2) = Datatypes.S (runs (taf_memo st)).
Proof.
  intros Hcode Hlen Hdisk out.
  assert (Hout : out =
    ((JObj [("success", JBool true); ("airport_icao", JStr code)], 200),
     {| web := web st;
        APP_SETTINGS := settings_set "airport_icao" code (APP_SETTINGS st);
        settings_file := Holds (settings_set "airport_icao" code (APP_SETTINGS st));
        disk := disk st;
        metar_memo := cleared (metar_memo st); taf_memo := cleared (taf_memo st);
        apod_memo := apod_memo st; epic_memo := epic_memo st; sun_memo := sun_memo st;
        strava_memo := strava_memo st |})).
  { subst out. unfold App.api_settings. rewrite Hcode, Hlen. cbn [Nat.eqb negb].
    unfold save_settings. destruct st. cbn in Hdisk |- *. subst. reflexivity. }
  rewrite Hout. clear Hout out. cbn [fst snd].
  cbn [web APP_SETTINGS settings_file metar_memo taf_memo apod_memo epic_memo sun_memo
       strava_memo cleared entries].
  rewrite settings_get_set.
  repeat (split; [reflexivity |]).
  unfold App.api_taf, App.fetch_taf.
  cbn [web APP_SETTINGS taf_memo]. rewrite settings_get_set.
  rewrite through_miss by apply cleared_misses.
  pose proof (TrafficLaws.fetch_taf_world cfg src code (web st)) as Htaf.
  destruct (Fetchers.fetch_taf cfg src code (web st)) as [[e | record] w'];
    cbn in Htaf |- *; subst w'; split; reflexivity.
Qed.

(** X26. The three ways a POST to [/api/settings] fails.  A body that
    cannot be read, or whose code is not text, is answered 500, and a
    code that is not exactly four characters long 400; both change
    nothing: not the settings in memory, not the file, not a cache.
    A four-character code whose save fails is answered 500 "Failed to
    save" and clears no cache, but [APP_SETTINGS] already holds the new
    code, which the file does not: a GET of [/api/settings] then shows
    the new code. *)
Theorem settings_post_failures (body : option json) (st : state) :
  (forall e, posted_airport body = inl e ->
     api_settings true body st = ((JObj [("error", JStr (str_exn e))], 500), st)) /\
  (forall code, posted_airport body = inr code -> String.length code <> 4%nat ->
     api_settings true body st =
       ((JObj [("error", JStr "ICAO must be 4 characters")], 400), st)) /\
  (forall code, posted_airport body = inr code -> String.length code = 4%nat ->
     disk st <> Written ->
     let out := api_settings true body st in
     out.1 = (JObj [("error", JStr "Failed to save")], 500) /\
     APP_SETTINGS out.2 = settings_set "airport_icao" code (APP_SETTINGS st) /\
     (settings_file out.2 = settings_file st \/ settings_file out.2 = Broken) /\
     (web out.2, metar_memo out.2, taf_memo out.2, apod_memo out.2, epic_memo out.2,
      sun_memo out.2, strava_memo out.2)
       = (web st, metar_memo st, taf_memo st, apod_memo st, epic_memo st,
          sun_memo st, strava_memo st) /\
     api_settings false None out.2 =
       ((jsonify_text (settings_set "airport_icao" code (APP_SETTINGS st)), 200), out.2)).
Proof.
  split; [| split].
  - intros e He. unfold App.api_settings. now rewrite He.
  - intros code Hcode Hlen. unfold App.api_settings. rewrite Hcode.
    apply Nat.eqb_neq in Hlen. now rewrite Hlen.
  - intros code Hcode Hlen Hdisk out. subst out. unfold App.api_settings.
    rewrite Hcode, Hlen. cbn [Nat.eqb negb]. unfold save_settings. cbn [disk set_settings].
    destruct (disk st); [congruence | |]; cbn; auto 10.
Qed.

Local Abbreviation api_test_airport := (App.api_test_airport cfg src py_repr).
Local Abbreviation key_of_station := (App.key_of_station py_repr).

(** X27. An airport test whose METAR call fails (and is not served from the
    cache) answers "not valid" with the code as station; the verdict is
    cached with the fallback record, so for the next 300 s every test
    of the same code gets the same answer without any request, whatever
    the network would answer by then. *)
Theorem failed_airport_test_is_cached (src' : Fetchers.sources) (icao : string)
    (t1 t2 : Z) (st : state) :
  Cache.cache_hit 300 (key_of_station icao) t1 (entries (metar_memo st)) = None ->
  failed (Fetchers.get_json src (trace (web st)) (Fetchers.metar_request cfg icao)) ->
  t2 - t1 < 300 ->
  let out := api_test_airport icao t1 st in
  out.1 = inr [("valid", JBool false); ("station", JStr icao)] /\
  web out.2 = sent (Fetchers.metar_request cfg icao) (web st) /\
  App.api_test_airport cfg src' py_repr icao t2 out.2 = out.
Proof.
  intros Hmiss Hfail Hlt out.
  assert (Hout : out =
    (inr [("valid", JBool false); ("station", JStr icao)],
     set_metar
       {| entries := <[key_of_station icao := (Fetchers.metar_fallback icao, t1)]>
                       (entries (metar_memo st));
          runs := Datatypes.S (runs (metar_memo st)) |}
       (set_web (sent (Fetchers.metar_request cfg icao) (web st)) st))).
  { subst out. unfold App.api_test_airport, hbind, App.fetch_metar.
    rewrite through_miss by exact Hmiss.
    rewrite (FetcherProps.fetch_metar_failed cfg src icao (web st) Hfail).
    cbn. now rewrite andb_false_r. }
  rewrite Hout. clear Hout out. cbn [fst snd]. split; [reflexivity |].
  split; [reflexivity |].
  unfold App.api_test_airport, hbind, App.fetch_metar.
  cbn [metar_memo set_metar web set_web entries].
  rewrite through_hit with (result := Fetchers.metar_fallback icao).
  - cbn. now rewrite andb_false_r.
  - apply CacheProps.cache_hit_fresh with t1; [apply lookup_insert_eq | exact Hlt].
Qed.

Local Abbreviation api_refresh :=
  (App.api_refresh cfg srv src strptime_path py_str py_repr DINO_FACTS).

Lemma through_cleared {Args R} (seconds : Z) (str_key : Args -> string)
    (func : Args -> M R) (args : Args) (now : Z) (m : memo R) (w : world) :
  entries m = ∅ ->
  (exists r, (func args w).1 = inr r) ->
  exists r w',
    through seconds str_key func args now m w =
      (inr r, ({| entries := {[str_key args := (r, now)]};
                  runs := Datatypes.S (runs m) |}, w')).
Proof.
  intros Hempty (r & Hr).
  rewrite through_miss.
  - destruct (func args w) as [x w']. cbn in Hr. subst x.
    exists r, w'. rewrite Hempty. reflexivity.
  - unfold Cache.cache_hit. now rewrite Hempty, lookup_empty.
Qed.


Local Abbreviation api_health := (App.api_health cfg srv src).

Lemma service_check_spec (url : string) (headers : list (string * string)) (w : world) :
  service_check src url headers w =
    (inr (verdict (Fetchers.get_json src (trace w) (GET url headers []))),
     sent (GET url headers []) w).
Proof.
  unfold service_check, try_except, bind, Fetchers.httpx_get, exchange, sent, verdict.
  destruct (Fetchers.get_json src (trace w) (GET url headers [])); reflexivity.
Qed.

Lemma verdict_ok_iff {A} (o : outcome A) : verdict o = "ok" <-> answered_200 o.
Proof.
  unfold answered_200, verdict. destruct o as [| st b].
  - split; [discriminate | intros (b & [=])].
  - destruct (Z.eqb_spec st 200) as [-> | Hne].
    + split; [eauto | reflexivity].
    + split; [discriminate | intros (b' & [=]); congruence].
Qed.

Lemma verdict_cases {A} (o : outcome A) : verdict o = "ok" \/ verdict o = "error".
Proof. unfold verdict. destruct o as [| st b]; [now right |]. destruct (st =? 200); auto. Qed.

Lemma get_token_returns (now : Z) (w : world) :
  exists tok, (Strava.get_strava_token cfg srv now w).1 = inr tok.
Proof.
  destruct (FetchLaws.get_token_cases cfg srv now w) as [-> | (-> & _)].
  - apply TokenProps.refresh_returns.
  - cbn. eauto.
Qed.

Lemma all_ok_iff (nasa avwx strava : string) :
  nasa = "ok" \/ nasa = "error" ->
  avwx = "ok" \/ avwx = "error" ->
  strava = "ok" \/ strava = "error" \/ strava = "not_configured" ->
  all_ok [("nasa", nasa); ("avwx", avwx); ("strava", strava)] = true <->
  nasa = "ok" /\ avwx = "ok" /\ strava <> "error".
Proof.
  intros [-> | ->] [-> | ->] [-> | [-> | ->]]; cbn;
    (split; [try discriminate; intros _; repeat split; discriminate
            | try reflexivity; intros (H1 & H2 & H3); congruence]).
Qed.

(** The Strava entry of the health check. *)
Lemma strava_check_spec (now : Z) (w : world) :
  exists s w',
    (if Strava.truthy (Some (STRAVA_REFRESH_TOKEN cfg)) then
       try_except
         (bind (Strava.get_strava_token cfg srv now)
               (fun token => ret (if Strava.truthy token then "ok" else "error")))
         (fun _ => ret "error")
     else ret "not_configured") w = (inr s, w') /\
    (exists more, trace w' = trace w ++ more) /\
    (s = "ok" \/ s = "error" \/ s = "not_configured") /\
    (s <> "error" <->
     STRAVA_REFRESH_TOKEN cfg = "" \/
     exists tok, (Strava.get_strava_token cfg srv now w).1 = inr tok /\
                 Strava.truthy tok = true).
Proof.
  destruct (STRAVA_REFRESH_TOKEN cfg) as [| c rest] eqn:Hcfg; cbn [Strava.truthy].
  - exists "not_configured", w. split; [reflexivity |].
    split; [exists []; now rewrite app_nil_r |]. split; [auto |].
    split; [auto | discriminate].
  - unfold try_except, bind.
    destruct (get_token_returns now w) as (tok & Htok).
    assert (Hmore : exists more,
              trace (Strava.get_strava_token cfg srv now w).2 = trace w ++ more).
    { destruct (FetchLaws.get_token_cases cfg srv now w) as [-> | (-> & _)].
      - destruct (FetchLaws.refresh_appends cfg srv w) as (r & evs & _ & Htr & _).
        now exists evs.
      - exists []. cbn. now rewrite app_nil_r. }
    destruct (Strava.get_strava_token cfg srv now w) as [x w3].
    cbn [fst snd] in Htok, Hmore. subst x. cbn [ret fst].
    destruct (Strava.truthy tok) eqn:Htruthy.
    + exists "ok", w3. split; [reflexivity |]. split; [exact Hmore |]. split; [auto |].
      split; [intros _; right; now exists tok | discriminate].
    + exists "error", w3. split; [reflexivity |]. split; [exact Hmore |]. split; [auto |].
      split; [congruence |]. intros [H | (t & [= <-] & Ht)]; congruence.
Qed.

(** X29. The health check never raises and reports ["ok"] exactly when the
    image API and the weather API each answered 200 and, if a refresh
    token is configured, a usable Strava token could be obtained;
    otherwise it reports ["degraded"].  It goes to the network each
    time: it sends the same two GETs as the image and weather fetchers,
    past their caches. *)
Theorem health_ok_iff (timestamp : string) (now : Z) (w : world) :
  let w1 := sent (Fetchers.apod_request cfg) w in
  let w2 := sent (Fetchers.metar_request cfg "EDLP") w1 in
  exists h status more,
    (api_health timestamp now w).1 = inr h /\
    trace (api_health timestamp now w).2 =
      trace w ++ Http (Fetchers.apod_request cfg)
              :: Http (Fetchers.metar_request cfg "EDLP") :: more /\
    lookup_key "status" h = Some (JStr status) /\
    (status = "ok" \/ status = "degraded") /\
    (status = "ok" <->
       answered_200 (Fetchers.get_json src (trace w) (Fetchers.apod_request cfg)) /\
       answered_200 (Fetchers.get_json src (trace w1) (Fetchers.metar_request cfg "EDLP")) /\
       (STRAVA_REFRESH_TOKEN cfg = "" \/
        exists tok, (Strava.get_strava_token cfg srv now w2).1 = inr tok /\
                    Strava.truthy tok = true)).
Proof.
  intros w1 w2.
  set (nasa := verdict (Fetchers.get_json src (trace w) (Fetchers.apod_request cfg))).
  set (avwx := verdict (Fetchers.get_json src (trace w1)
                          (Fetchers.metar_request cfg "EDLP"))).
  destruct (strava_check_spec now w2)
    as (strava & w3 & Hrun & (more & Hmore) & Hs & Hstrava).
  assert (Hout : api_health timestamp now w =
    (inr [("status",
           JStr (if all_ok [("nasa", nasa); ("avwx", avwx); ("strava", strava)]
                 then "ok" else "degraded"));
          ("timestamp", JStr timestamp);
          ("services", jsonify_text [("nasa", nasa); ("avwx", avwx); ("strava", strava)])],
     w3)).
  { unfold App.api_health.
    unfold bind at 1. rewrite service_check_spec.
    unfold bind at 1. rewrite service_check_spec.
    change (GET (Fetchers.apod_url cfg) [] []) with (Fetchers.apod_request cfg).
    change (GET "https://avwx.rest/api/metar/EDLP" (Fetchers.avwx_headers cfg) [])
      with (Fetchers.metar_request cfg "EDLP").
    fold w1. fold w2. unfold bind at 1. rewrite Hrun. reflexivity. }
  rewrite Hout. clear Hout Hrun. cbn [fst snd].
  pose proof (verdict_ok_iff (Fetchers.get_json src (trace w) (Fetchers.apod_request cfg)))
    as Hnasa.
  pose proof (verdict_ok_iff
                (Fetchers.get_json src (trace w1) (Fetchers.metar_request cfg "EDLP")))
    as Havwx.
  pose proof (all_ok_iff nasa avwx strava (verdict_cases _) (verdict_cases _) Hs) as Hall.
  fold nasa in Hnasa. fold avwx in Havwx. clearbody nasa avwx.
  eexists _, (if all_ok [("nasa", nasa); ("avwx", avwx); ("strava", strava)]
              then "ok" else "degraded"), more.
  split; [reflexivity |].
  split; [rewrite Hmore; subst w2 w1; cbn; now rewrite <- !app_assoc |].
  split; [reflexivity |].
  destruct (all_ok [("nasa", nasa); ("avwx", avwx); ("strava", strava)]).
  - split; [now left |]. split; [intros _ | reflexivity].
    destruct (proj1 Hall eq_refl) as (H1 & H2 & H3).
    split; [now apply Hnasa |]. split; [now apply Havwx | now apply Hstrava].
  - split; [now right |]. split; [discriminate |].
    intros (H1 & H2 & H3). exfalso.
    assert (false = true); [| discriminate].
    apply Hall. split; [now apply Hnasa |]. split; [now apply Havwx | now apply Hstrava].
Qed.

End Routes.

(** Loading the settings is settled after one run: a second load
    returns the same settings and changes nothing.  A file that exists
    is never written by a load, not even an unreadable one; a missing
    file is created with the default airport when the disk accepts the
    write. *)
Lemma load_settings_settles (st : state) :
  load_settings (load_settings st).2 = load_settings st /\
  (settings_file st <> Absent -> (load_settings st).2 = st) /\
  (settings_file st = Absent -> disk st = Written ->
     (load_settings st).1 = default_settings /\
     settings_file (load_settings st).2 = Holds default_settings).
Proof.
  destruct st as [w d f k m1 m2 m3 m4 m5 m6].
  unfold load_settings, save_settings. cbn.
  destruct f; cbn; [destruct k; cbn |..]; repeat split; congruence.
Qed.

Lemma load_settings_settles_witness :
  (load_settings AppDemo.boot).2 = AppDemo.boot /\
  settings_file
    (load_settings (set_file Absent AppDemo.boot)).2 = Holds default_settings.
Proof.
  destruct (load_settings_settles AppDemo.boot) as (_ & Hkeep & _).
  destruct (load_settings_settles (set_file Absent AppDemo.boot)) as (_ & _ & Hnew).
  split; [apply Hkeep; discriminate | apply Hnew; reflexivity].
Defined.

Lemma failed_airport_test_is_cached_witness :
  let out := App.api_test_airport StravaDemo.demo_cfg FetcherDemo.dead_net AppDemo.quote
               "XXXX" 1000 AppDemo.boot in
  out.1 = inr [("valid", JBool false); ("station", JStr "XXXX")] /\
  App.api_test_airport StravaDemo.demo_cfg AppDemo.up_net AppDemo.quote "XXXX" 1299 out.2
    = out.
Proof.
  destruct (failed_airport_test_is_cached StravaDemo.demo_cfg FetcherDemo.dead_net
              AppDemo.quote AppDemo.up_net "XXXX" 1000 1299 AppDemo.boot)
    as (H1 & _ & H3).
  - apply (cleared_misses 300 _ 1000 (@fresh pydict)).
  - left. reflexivity.
  - lia.
  - cbv zeta. split; [exact H1 | exact H3].
Defined.


Lemma settings_post_saved_witness :
  let out := App.api_settings AppDemo.ascii_upper AppDemo.exn_text true
               (Some (JObj [("airport_icao", JStr "eddf")])) AppDemo.boot in
  out.1 = (JObj [("success", JBool true); ("airport_icao", JStr "EDDF")], 200) /\
  settings_file out.2 = Holds [("airport_icao", "EDDF")] /\
  web (App.api_taf StravaDemo.demo_cfg FetcherDemo.dead_net AppDemo.quote 5000 out.2).2
    = sent (Fetchers.taf_request StravaDemo.demo_cfg "EDDF") startup.
Proof.
  destruct (settings_post_saved StravaDemo.demo_cfg FetcherDemo.dead_net
              AppDemo.quote AppDemo.ascii_upper AppDemo.exn_text
              (Some (JObj [("airport_icao", JStr "eddf")])) "EDDF" AppDemo.boot 5000
              eq_refl eq_refl eq_refl)
    as (H1 & H2 & _ & H4 & _ & _ & _ & H8 & _).
  cbv zeta. split; [exact H1 |]. split; [| exact H8].
  rewrite H4, H2. reflexivity.
Defined.

Lemma settings_post_failures_witness :
  App.api_settings AppDemo.ascii_upper AppDemo.exn_text true
    (Some (JObj [("airport_icao", JStr "eddff")])) AppDemo.boot
    = ((JObj [("error", JStr "ICAO must be 4 characters")], 400), AppDemo.boot) /\
  (let out := App.api_settings AppDemo.ascii_upper AppDemo.exn_text true
                (Some (JObj [("airport_icao", JStr "eddf")])) AppDemo.read_only in
   out.1 = (JObj [("error", JStr "Failed to save")], 500) /\
   APP_SETTINGS out.2 = [("airport_icao", "EDDF")] /\
   settings_file out.2 = Holds [("airport_icao", "EDLP")]).
Proof.
  destruct (settings_post_failures AppDemo.ascii_upper AppDemo.exn_text
              (Some (JObj [("airport_icao", JStr "eddff")])) AppDemo.boot)
    as (_ & Hlength & _).
  destruct (settings_post_failures AppDemo.ascii_upper AppDemo.exn_text
              (Some (JObj [("airport_icao", JStr "eddf")])) AppDemo.read_only)
    as (_ & _ & Hsave).
  split.
  - apply (Hlength "EDDFF"); [reflexivity | cbn; lia].
  - destruct (Hsave "EDDF" eq_refl eq_refl ltac:(discriminate)) as (H1 & H2 & _).
    cbv zeta. split; [exact H1 |]. split; [exact H2 | reflexivity].
Defined.

End AppLaws.

(** ** The copy in strava_backend.py *)
Module BackendLaws.

Lemma since_naive_raises (t : Z) (a : activity) (rest : list activity) :
  Backend.since (Backend.Naive t) (a :: rest) = inl TypeError.
Proof. reflexivity. Qed.

(** X30. In strava_backend.py both aggregators raise [TypeError] on every
    non-empty activity list: the first comparison of an activity's
    start, which is aware of its offset, with the naive clock reading
    fails.  So its two endpoints answer the error object when there is
    no activity and fail otherwise; they never deliver an aggregate,
    while for the same activities the endpoints of app.py do. *)
Theorem backend_aggregates_raise (cfg : config) (srv : server) (clk : clock)
    (time_now current_time : Z) (c : Api.activities_cache) :
  (forall a rest,
     Backend.parse_strava_data clk (a :: rest) = inl TypeError /\
     Backend.parse_strava_detailed clk (a :: rest) = inl TypeError /\
     exists d, parse_strava_detailed clk (a :: rest) = inr d) /\
  ((Backend.api_strava cfg srv clk time_now current_time c).1
     = inr [("error", JStr "No Strava data available")] \/
   (Backend.api_strava cfg srv clk time_now current_time c).1 = inl TypeError) /\
  ((Backend.api_strava_detailed cfg srv clk time_now current_time c).1
     = inr [("error", JStr "No Strava data available")] \/
   (Backend.api_strava_detailed cfg srv clk time_now current_time c).1 = inl TypeError).
Proof.
  assert (Hraise : forall a rest,
    Backend.parse_strava_data clk (a :: rest) = inl TypeError /\
    Backend.parse_strava_detailed clk (a :: rest) = inl TypeError).
  { intros a rest. split; [reflexivity |].
    unfold Backend.parse_strava_detailed.
    destruct (AggregateProps.format_pace_returns (inject_Z (moving_time a)) (distance a))
      as (pace & ->).
    reflexivity. }
  split.
  - intros a rest. destruct (Hraise a rest) as (H1 & H2).
    split; [exact H1 |]. split; [exact H2 |].
    destruct (AggregateProps.parse_strava_detailed_keys clk a rest) as (d & Hd & _).
    now exists d.
  - unfold Backend.api_strava, Backend.api_strava_detailed.
    destruct (ApiProps.cached_fetch_returns cfg srv time_now current_time c) as (r & Hr).
    destruct (Api.cached_fetch_strava_activities cfg srv time_now current_time c) as [x c'].
    cbn in Hr. subst x.
    destruct r as [[| a rest] |]; cbn [Api.no_activities default from_option id fst];
      try (split; left; reflexivity).
    destruct (Hraise a rest) as (H1 & H2). rewrite H1, H2. split; right; reflexivity.
Qed.

End BackendLaws.
